(** * Arecanut Manager Pro: credential and session subsystem

    A shallow embedding of [backend/services/crypto.js],
    [backend/models/Session.js], [backend/models/User.js], the
    authentication middleware and [backend/controllers/authController.js].

    Conventions of the embedding.
    - A [Buffer] is a list of bytes; JavaScript strings are [string].
    - Instants ([Date], [Date.now()], ISO-8601 date strings) are the number
      of milliseconds since the epoch, in [Z].  One request reads the clock
      once: the reading is the argument [now].
    - Randomness ([crypto.randomBytes], [crypto.randomUUID]) is an
      [Entropy] argument of the function that draws from it.
    - A JavaScript exception is the [Throw] branch of [Completion].
    - An [ObjectId] is the string of its 24 hexadecimal digits; a query by
      identifier ([findById]) casts the string it is given first.
    - The primitives of the Node.js runtime and of the database driver
      (PBKDF2, scrypt, HMAC-SHA-256, the two halves of AES-256-GCM,
      SHA-256, JSON and base64 transport, the cast to [ObjectId]) are the
      fields of the class [NodeRuntime]. *)

From Stdlib Require Import List String Ascii ZArith Bool Lia.
From Stdlib.Strings Require Import Byte.
From Stdlib Require Import DecimalString.
Import ListNotations.

Local Open Scope string_scope.
Local Open Scope list_scope.
Local Open Scope Z_scope.

(** ** Buffers *)

Definition Buffer : Type := list byte.

Fixpoint buffer_eqb (a b : Buffer) : bool :=
  match a, b with
  | [], [] => true
  | x :: a', y :: b' => Byte.eqb x y && buffer_eqb a' b'
  | _, _ => false
  end.

(** [buf.slice(start, end)]: indices past the end are clamped. *)
Definition slice (buf : Buffer) (start stop : nat) : Buffer :=
  firstn (stop - start) (skipn start buf).

(** [Buffer.from(s, 'utf8')] for the ASCII literals of the source. *)
Definition utf8 (s : string) : Buffer := list_byte_of_string s.

Definition Z_of_byte (b : byte) : Z := Z.of_N (Byte.to_N b).

Definition byte_of_Z (z : Z) : byte :=
  match Byte.of_N (Z.to_N (z mod 256)) with
  | Some b => b
  | None => x00
  end.

(** [buf.readUInt16BE(offset)] *)
Definition readUInt16BE (buf : Buffer) (offset : nat) : Z :=
  256 * Z_of_byte (nth offset buf x00) + Z_of_byte (nth (S offset) buf x00).

(** [buf.writeUInt16BE(v, 0)] on [Buffer.alloc(2)] *)
Definition writeUInt16BE (v : Z) : Buffer :=
  [byte_of_Z (v / 256); byte_of_Z v].

(** ** Hexadecimal transport: [buf.toString('hex')], [Buffer.from(s, 'hex')] *)

Definition hex_digit (n : Z) : ascii :=
  match String.get (Z.to_nat n) "0123456789abcdef" with
  | Some c => c
  | None => "f"%char
  end.

(** digits, then lower-case and upper-case letters, by character code *)
Definition hex_value (c : ascii) : option Z :=
  let code := Z.of_nat (nat_of_ascii c) in
  if (48 <=? code) && (code <=? 57) then Some (code - 48)
  else if (97 <=? code) && (code <=? 102) then Some (code - 87)
  else if (65 <=? code) && (code <=? 70) then Some (code - 55)
  else None.

Fixpoint to_hex (buf : Buffer) : string :=
  match buf with
  | [] => EmptyString
  | b :: rest =>
      String (hex_digit (Z_of_byte b / 16))
        (String (hex_digit (Z_of_byte b mod 16)) (to_hex rest))
  end.

(** Decoding stops at the first pair that is not two hex digits. *)
Fixpoint from_hex (s : string) : Buffer :=
  match s with
  | String c1 (String c2 rest) =>
      match hex_value c1, hex_value c2 with
      | Some h, Some l => byte_of_Z (16 * h + l) :: from_hex rest
      | _, _ => []
      end
  | _ => []
  end.

(** [s.split(sep)] for a one-character separator. *)
Fixpoint split_on (sep : ascii) (s : string) : list string :=
  match s with
  | EmptyString => [EmptyString]
  | String c rest =>
      if Ascii.eqb c sep then EmptyString :: split_on sep rest
      else match split_on sep rest with
           | h :: t => String c h :: t
           | [] => [String c EmptyString]
           end
  end.

(** ** Exceptions *)

Inductive Completion (A : Type) : Type :=
| Return (a : A)
| Throw (message : string).
Arguments Return {A} a.
Arguments Throw {A} message.

Definition bind {A B : Type} (c : Completion A) (k : A -> Completion B)
  : Completion B :=
  match c with
  | Return a => k a
  | Throw m => Throw m
  end.

Notation "x <- c ;; k" := (bind c (fun x => k))
  (at level 61, c at next level, right associativity).

(** [if (cond) throw new Error(message)] *)
Definition throw_if (cond : bool) (message : string) : Completion unit :=
  if cond then Throw message else Return tt.

(** ** Payloads *)

(** The object sealed into a key file ([generateKeyFile], [payload]). *)
Record KeyFilePayload : Type := {
  kp_userId : string;
  kp_username : string;
  kp_email : string;
  kp_role : string;
  kp_deviceLimit : Z;
  kp_createdAt : Z;
  kp_expiresAt : Z;
  kp_permissions : list string;
  kp_keyId : string;
  kp_version : string
}.

(** The argument of [generateKeyFile]; [None] is an absent property, and
    [ud_others] holds whatever further properties the caller's object has
    (a [keyId], say): the function reads none of them. *)
Record UserData : Type := {
  ud_userId : string;
  ud_username : string;
  ud_email : option string;
  ud_role : option string;
  ud_deviceLimit : option Z;
  ud_expiresAt : option Z;
  ud_permissions : option (list string);
  ud_others : list (string * string)
}.

(** The argument of [generateSessionToken]. *)
Record SessionData : Type := {
  sd_userId : string;
  sd_username : string;
  sd_role : string;
  sd_permissions : list string;
  sd_deviceFingerprint : string
}.

(** [Date.now() + duration] in a session token: a number of
    milliseconds; or, when the duration is no number but a property that
    [SESSION_DURATIONS] inherits, the string that [+] joins of the time
    and of that property, which is no number. *)
Inductive Expiry : Type :=
| ExpAt (ms : Z)
| ExpText (now : Z) (property : string).

(** The object sealed into a session token. *)
Record TokenPayload : Type := {
  tp_data : SessionData;
  tp_iat : Z;
  tp_exp : Expiry;
  tp_neverExpires : bool;
  tp_jti : string
}.

(** The device attributes a client declares in [req.body.deviceInfo]. *)
Record DeviceInfo : Type := {
  di_userAgent : option string;
  di_platform : option string;
  di_language : option string;
  di_screenRes : option string;
  di_timezone : option string
}.

(** What one call draws: [crypto.randomBytes(n)] and
    [crypto.randomUUID()]. *)
Record Entropy : Type := {
  randomBytes : nat -> Buffer;
  randomUUID : string
}.

(** ** The Node.js runtime *)

Class NodeRuntime : Type := {
  (** [process.env.MASTER_KEY || 'arecanut-pro-secure-master-key-2026!'] *)
  MASTER_KEY : string;
  (** [crypto.pbkdf2Sync(password, salt, iterations, keylen, 'sha512')] *)
  pbkdf2Sync : string -> Buffer -> Z -> nat -> Buffer;
  (** [crypto.scryptSync(password, salt, keylen)] *)
  scryptSync : string -> string -> nat -> Buffer;
  (** [crypto.createHmac('sha256', key).update(data).digest()] *)
  hmac_sha256 : Buffer -> Buffer -> Buffer;
  (** AES-256 in counter mode under [key] and [iv]: the cipher half of GCM *)
  gcm_ctr : Buffer -> Buffer -> Buffer -> Buffer;
  (** the 16-byte GCM authentication tag of a ciphertext under [key], [iv] *)
  gcm_tag : Buffer -> Buffer -> Buffer -> Buffer;
  (** [crypto.createHash('sha256').update(s).digest('hex')] *)
  sha256_hex : string -> string;
  (** [Buffer.from(JSON.stringify(payload), 'utf8')] *)
  keyfile_json : KeyFilePayload -> Buffer;
  (** [JSON.parse(buf.toString('utf8'))] *)
  keyfile_parse : Buffer -> Completion KeyFilePayload;
  token_json : TokenPayload -> Buffer;
  token_parse : Buffer -> Completion TokenPayload;
  (** [JSON.stringify] of the five canonical device attributes *)
  device_json : string -> string -> string -> string -> string -> string;
  (** [Buffer.from(s, 'base64')] *)
  base64_decode : string -> Buffer;
  (** [buf.toString('base64url')] and [Buffer.from(s, 'base64url')] *)
  base64url_encode : Buffer -> string;
  base64url_decode : string -> Buffer;
  (** the [ObjectId] that a query casts an identifier to, written as its
      24 hexadecimal digits; nothing for a string that is none, on which
      the cast throws a [CastError] *)
  cast_ObjectId : string -> option string;
  (** the message of the [CastError] for a value and a model *)
  msg_cast_failed : string -> string -> string;
  (** messages of the errors the runtime itself throws *)
  msg_unable_to_authenticate : string;
  msg_invalid_tag_length : string;
  msg_invalid_iv : string;
  msg_byte_length_mismatch : string;
  msg_not_a_string : string
}.

(** ** JavaScript's [a || b] on the values the source applies it to *)

(** on a string: absent and the empty string are falsy *)
Definition or_string (o : option string) (d : string) : string :=
  match o with
  | Some s => if String.eqb s EmptyString then d else s
  | None => d
  end.

(** on a number: absent and zero are falsy *)
Definition or_number (o : option Z) (d : Z) : Z :=
  match o with
  | Some n => if n =? 0 then d else n
  | None => d
  end.

(** on an array or a date string: only absent is falsy *)
Definition or_value {A : Type} (o : option A) (d : A) : A :=
  match o with
  | Some a => a
  | None => d
  end.

(** ** [backend/services/crypto.js] *)

Module CryptoService.

Definition KEY_LENGTH : nat := 32.
Definition IV_LENGTH : nat := 16.
Definition AUTH_TAG_LENGTH : nat := 16.
Definition SALT_LENGTH : nat := 32.

(** the return value of [validateKeyFile] *)
Inductive KeyFileValidation : Type :=
| Valid (data : KeyFilePayload)      (* { valid: true, data } *)
| Invalid (error : string).          (* { valid: false, error } *)

Section WithRuntime.
Context {RT : NodeRuntime}.

Definition deriveKey (salt : Buffer) : Buffer :=
  pbkdf2Sync MASTER_KEY salt 100000 KEY_LENGTH.

Definition generateHMAC (data key : Buffer) : Buffer :=
  hmac_sha256 key data.

(** [crypto.timingSafeEqual]: a RangeError on buffers of unequal length *)
Definition timingSafeEqual (a b : Buffer) : Completion bool :=
  if Nat.eqb (List.length a) (List.length b) then Return (buffer_eqb a b)
  else Throw msg_byte_length_mismatch.

Definition verifyHMAC (data signature key : Buffer) : Completion bool :=
  let computed := generateHMAC data key in
  timingSafeEqual computed signature.

(** [createCipheriv('aes-256-gcm', key, iv)], [update], [final],
    [getAuthTag]: the counter-mode ciphertext and its tag. *)
Definition cipher_gcm (key iv plaintext : Buffer) : Buffer * Buffer :=
  let encrypted := gcm_ctr key iv plaintext in
  (encrypted, gcm_tag key iv encrypted).

(** [createDecipheriv('aes-256-gcm', key, iv)], [setAuthTag], [update],
    [final]: an empty IV and a tag of a length GCM does not know throw at
    once; [final] throws unless the tag is the (possibly truncated) tag of
    the ciphertext; otherwise the counter mode is undone. *)
Definition decipher_gcm (key iv authTag encrypted : Buffer)
  : Completion Buffer :=
  match iv with
  | [] => Throw msg_invalid_iv
  | _ :: _ =>
      if negb (existsb (Nat.eqb (List.length authTag))
                 [4; 8; 12; 13; 14; 15; 16]%nat)
      then Throw msg_invalid_tag_length
      else if buffer_eqb authTag
                (firstn (List.length authTag) (gcm_tag key iv encrypted))
      then Return (gcm_ctr key iv encrypted)
      else Throw msg_unable_to_authenticate
  end.

Definition key_payload (now : Z) (keyId : string) (userData : UserData)
  : KeyFilePayload :=
  {| kp_userId := ud_userId userData;
     kp_username := ud_username userData;
     kp_email := or_string (ud_email userData) "";
     kp_role := or_string (ud_role userData) "user";
     kp_deviceLimit := or_number (ud_deviceLimit userData) 3;
     kp_createdAt := now;
     kp_expiresAt :=
       or_value (ud_expiresAt userData) (now + 365 * 24 * 60 * 60 * 1000);
     kp_permissions :=
       or_value (ud_permissions userData) ["read"; "write"]%string;
     kp_keyId := keyId;
     kp_version := "1.0" |}.

Definition generateKeyFile (now : Z) (e : Entropy) (userData : UserData)
  : Buffer :=
  let payload := key_payload now (randomUUID e) userData in
  let payloadBuffer := keyfile_json payload in
  let salt := randomBytes e SALT_LENGTH in
  let iv := randomBytes e IV_LENGTH in
  let encryptionKey := deriveKey salt in
  let '(encrypted, authTag) := cipher_gcm encryptionKey iv payloadBuffer in
  let hmacKey := deriveKey (salt ++ utf8 "hmac") in
  let signature := generateHMAC encrypted hmacKey in
  let magic := utf8 "ARECAKEY" in
  let version := writeUInt16BE 1 in
  magic ++ version ++ salt ++ iv ++ authTag ++ signature ++ encrypted.

(** The body of the [try] block of [validateKeyFile].  The magic is compared
    as bytes: the eight bytes decode to the ASCII string ['ARECAKEY'] just
    when they are its bytes. *)
Definition validateKeyFile_try (now : Z) (keyFileBuffer : Buffer)
  : Completion KeyFilePayload :=
  _ <- throw_if (List.length keyFileBuffer <? 107)%nat
         "Invalid key file: Too small" ;;
  let offset := 0%nat in
  let magic := slice keyFileBuffer offset (offset + 8) in
  let offset := (offset + 8)%nat in
  _ <- throw_if (negb (buffer_eqb magic (utf8 "ARECAKEY")))
         "Invalid key file: Bad magic" ;;
  let version := readUInt16BE keyFileBuffer offset in
  let offset := (offset + 2)%nat in
  _ <- throw_if (negb (version =? 1))
         "Invalid key file: Unsupported version" ;;
  let salt := slice keyFileBuffer offset (offset + SALT_LENGTH) in
  let offset := (offset + SALT_LENGTH)%nat in
  let iv := slice keyFileBuffer offset (offset + IV_LENGTH) in
  let offset := (offset + IV_LENGTH)%nat in
  let authTag := slice keyFileBuffer offset (offset + AUTH_TAG_LENGTH) in
  let offset := (offset + AUTH_TAG_LENGTH)%nat in
  let signature := slice keyFileBuffer offset (offset + 32) in
  let offset := (offset + 32)%nat in
  let encrypted := skipn offset keyFileBuffer in
  let hmacKey := deriveKey (salt ++ utf8 "hmac") in
  ok <- verifyHMAC encrypted signature hmacKey ;;
  _ <- throw_if (negb ok) "Invalid key file: Signature mismatch" ;;
  let encryptionKey := deriveKey salt in
  decrypted <- decipher_gcm encryptionKey iv authTag encrypted ;;
  payload <- keyfile_parse decrypted ;;
  let isSuperAdmin := String.eqb (kp_role payload) "superadmin" in
  _ <- throw_if (negb isSuperAdmin && (kp_expiresAt payload <? now))
         "Key file has expired" ;;
  Return payload.

Definition validateKeyFile (now : Z) (keyFileBuffer : Buffer)
  : KeyFileValidation :=
  match validateKeyFile_try now keyFileBuffer with
  | Return payload => Valid payload
  | Throw message => Invalid message
  end.

Definition generateDeviceFingerprint (deviceInfo : DeviceInfo) : string :=
  let data :=
    device_json (or_string (di_userAgent deviceInfo) "")
                (or_string (di_platform deviceInfo) "")
                (or_string (di_language deviceInfo) "")
                (or_string (di_screenRes deviceInfo) "")
                (or_string (di_timezone deviceInfo) "") in
  substring 0 32 (sha256_hex data).

(** The names of the properties that an object literal inherits from
    [Object.prototype]: functions, and under [__proto__] the prototype
    itself. *)
Definition Object_prototype : list string :=
  ["constructor"; "__defineGetter__"; "__defineSetter__"; "hasOwnProperty";
   "__lookupGetter__"; "__lookupSetter__"; "isPrototypeOf";
   "propertyIsEnumerable"; "toString"; "valueOf"; "__proto__";
   "toLocaleString"].

(** What a lookup in [SESSION_DURATIONS] finds. *)
Inductive Duration : Type :=
| Millis (ms : Z)
| Inherited (property : string).      (* truthy, and no number *)

(** [SESSION_DURATIONS[role]]; [undefined] is [None]. *)
Definition SESSION_DURATIONS (role : string) : option Duration :=
  if String.eqb role "superadmin"
  then Some (Millis (100 * 365 * 24 * 60 * 60 * 1000))
  else if String.eqb role "admin" then Some (Millis (30 * 24 * 60 * 60 * 1000))
  else if String.eqb role "user" then Some (Millis (30 * 24 * 60 * 60 * 1000))
  else if existsb (String.eqb role) Object_prototype
  then Some (Inherited role)
  else None.

(** [this.SESSION_DURATIONS[role] || this.SESSION_DURATIONS.user] *)
Definition getSessionDuration (role : string) : Duration :=
  match SESSION_DURATIONS role with
  | Some (Millis ms) =>
      if ms =? 0 then Millis (30 * 24 * 60 * 60 * 1000) else Millis ms
  | Some (Inherited property) => Inherited property
  | None => Millis (30 * 24 * 60 * 60 * 1000)
  end.

(** [Date.now() + duration] *)
Definition plus_duration (now : Z) (duration : Duration) : Expiry :=
  match duration with
  | Millis ms => ExpAt (now + ms)
  | Inherited property => ExpText now property
  end.

(** [exp < Date.now()]: a string that is no number compares false with
    every number *)
Definition exp_before (exp : Expiry) (now : Z) : bool :=
  match exp with
  | ExpAt ms => ms <? now
  | ExpText _ _ => false
  end.

Definition token_payload (now : Z) (jti : string) (sessionData : SessionData)
  (expiresIn : option Z) : TokenPayload :=
  let duration :=
    match expiresIn with
    | Some ms => Millis ms
    | None => getSessionDuration (sd_role sessionData)
    end in
  {| tp_data := sessionData;
     tp_iat := now;
     tp_exp := plus_duration now duration;
     tp_neverExpires := String.eqb (sd_role sessionData) "superadmin";
     tp_jti := jti |}.

Definition session_key : Buffer :=
  scryptSync MASTER_KEY "session-salt" KEY_LENGTH.

Definition generateSessionToken (now : Z) (e : Entropy)
  (sessionData : SessionData) (expiresIn : option Z) : string :=
  let payload := token_payload now (randomUUID e) sessionData expiresIn in
  let payloadBuffer := token_json payload in
  let iv := randomBytes e IV_LENGTH in
  let key := session_key in
  let '(encrypted, authTag) := cipher_gcm key iv payloadBuffer in
  base64url_encode (iv ++ authTag ++ encrypted).

(** The body of the [try] block up to the parsed payload. *)
Definition open_session_token (token : string) : Completion TokenPayload :=
  let buffer := base64url_decode token in
  let iv := slice buffer 0 IV_LENGTH in
  let authTag := slice buffer IV_LENGTH (IV_LENGTH + AUTH_TAG_LENGTH) in
  let encrypted := skipn (IV_LENGTH + AUTH_TAG_LENGTH) buffer in
  let key := session_key in
  decrypted <- decipher_gcm key iv authTag encrypted ;;
  token_parse decrypted.

(** [null] is [None]. *)
Definition validateSessionToken (now : Z) (token : string)
  : option TokenPayload :=
  match open_session_token token with
  | Return payload =>
      if tp_neverExpires payload then Some payload
      else if exp_before (tp_exp payload) now then None
      else Some payload
  | Throw _ => None
  end.

Definition hashPassword (e : Entropy) (password : string) : string :=
  let salt := randomBytes e 16 in
  let hash := pbkdf2Sync password salt 100000 64 in
  String.append (to_hex salt) (String ":" (to_hex hash)).

Definition verifyPassword (password storedHash : string) : Completion bool :=
  match split_on ":" storedHash with
  | saltHex :: hashHex :: _ =>
      let salt := from_hex saltHex in
      let hash := pbkdf2Sync password salt 100000 64 in
      timingSafeEqual hash (from_hex hashHex)
  | _ => Throw msg_not_a_string   (* Buffer.from(undefined, 'hex') *)
  end.

End WithRuntime.
End CryptoService.

(** ** [backend/models/User.js] *)

Module User.

(** A document of the users collection; an [ObjectId] is its hex string. *)
Record t : Type := {
  _id : string;
  username : string;
  email : option string;
  role : string;
  permissions : list string;
  keyFileId : option string;
  keyFileRevoked : bool;
  deviceLimit : Z;
  passwordHash : option string;
  isActive : bool;
  lastLoginAt : option Z;
  loginCount : Z
}.

Definition has_keyFileId (keyId : string) (u : t) : bool :=
  match keyFileId u with
  | Some k => String.eqb k keyId
  | None => false
  end.

(** [findOne({ keyFileId, keyFileRevoked: false, isActive: true })] *)
Definition findByKeyFileId (keyId : string) (users : list t) : option t :=
  find (fun u => has_keyFileId keyId u && negb (keyFileRevoked u) && isActive u)
       users.

(** [user.lastLoginAt = new Date(); user.loginCount += 1] *)
Definition record_login (now : Z) (u : t) : t :=
  {| _id := _id u; username := username u; email := email u; role := role u;
     permissions := permissions u; keyFileId := keyFileId u;
     keyFileRevoked := keyFileRevoked u; deviceLimit := deviceLimit u;
     passwordHash := passwordHash u; isActive := isActive u;
     lastLoginAt := Some now; loginCount := loginCount u + 1 |}.

(** [user.save()] *)
Definition save (u : t) (users : list t) : list t :=
  map (fun x => if String.eqb (_id x) (_id u) then u else x) users.

(** The record with another password hash, key-file identifier and
    revocation flag.  The fields the source only writes for the record
    ([keyFileCreatedAt], [keyFileExpiresAt], [keyFileRevokedAt],
    [keyFileRevokedReason], [createdBy], [notes]) are not part of [t]. *)
Definition with_passwordHash (h : option string) (u : t) : t :=
  {| _id := _id u; username := username u; email := email u; role := role u;
     permissions := permissions u; keyFileId := keyFileId u;
     keyFileRevoked := keyFileRevoked u; deviceLimit := deviceLimit u;
     passwordHash := h; isActive := isActive u;
     lastLoginAt := lastLoginAt u; loginCount := loginCount u |}.

Definition with_keyFile (keyId : option string) (revoked : bool) (u : t) : t :=
  {| _id := _id u; username := username u; email := email u; role := role u;
     permissions := permissions u; keyFileId := keyId;
     keyFileRevoked := revoked; deviceLimit := deviceLimit u;
     passwordHash := passwordHash u; isActive := isActive u;
     lastLoginAt := lastLoginAt u; loginCount := loginCount u |}.

(** [userSchema.methods.revokeKeyFile]: it sets the flag (and the time and
    the reason of the revocation). *)
Definition revokeKeyFile (u : t) : t := with_keyFile (keyFileId u) true u.

Section WithRuntime.
Context {RT : NodeRuntime}.

(** [User.findById(id)]: the identifier is cast to an [ObjectId] first; a
    string that is none makes the query throw. *)
Definition findById (id : string) (users : list t) : Completion (option t) :=
  match cast_ObjectId id with
  | Some oid => Return (find (fun u => String.eqb (_id u) oid) users)
  | None => Throw (msg_cast_failed id "User")
  end.

(** [userSchema.methods.setPassword] *)
Definition setPassword (e : Entropy) (password : string) (u : t) : t :=
  with_passwordHash (Some (CryptoService.hashPassword e password)) u.

(** [userSchema.methods.validatePassword]: an absent or empty hash is
    falsy. *)
Definition validatePassword (password : string) (u : t) : Completion bool :=
  match passwordHash u with
  | None => Return false
  | Some h =>
      if String.eqb h EmptyString then Return false
      else CryptoService.verifyPassword password h
  end.

End WithRuntime.

End User.

(** ** [backend/models/Session.js] *)

Module Session.

Inductive Reason : Type :=
| logout | expired | revoked | device_limit | admin_action.

(** the [deviceInfo] sub-document *)
Record StoredDeviceInfo : Type := {
  userAgent : string;
  platform : string;
  browser : string;
  os : string;
  device : string;
  ip : option string
}.

Record t : Type := {
  _id : string;
  user : string;
  sessionToken : string;
  deviceFingerprint : string;
  deviceInfo : StoredDeviceInfo;
  isActive : bool;
  createdAt : Z;
  lastActivityAt : Z;
  expiresAt : Z;
  neverExpires : bool;
  terminatedAt : option Z;
  terminatedReason : option Reason
}.

(** The collection, in insertion order. *)
Definition Collection : Type := list t.

(** the fields a caller of [Session.create] passes in the controller *)
Record NewSession : Type := {
  new_user : string;
  new_sessionToken : string;
  new_deviceFingerprint : string;
  new_deviceInfo : StoredDeviceInfo;
  new_expiresAt : Z
}.

(** [Session.create(fields)]: the schema defaults fill what the caller
    leaves out ([isActive: true], [createdAt] and [lastActivityAt]
    [Date.now], [neverExpires: false]); a required string that is empty
    fails validation, and a token or an [_id] already stored violates a
    unique index: each throws ([None]). [id] is the drawn [ObjectId]. *)
Definition create (now : Z) (id : string) (f : NewSession) (c : Collection)
  : option (t * Collection) :=
  if String.eqb (new_sessionToken f) EmptyString
     || String.eqb (new_deviceFingerprint f) EmptyString
     || existsb (fun s => String.eqb (sessionToken s) (new_sessionToken f)) c
     || existsb (fun s => String.eqb (_id s) id) c
  then None
  else
    let s := {| _id := id;
                user := new_user f;
                sessionToken := new_sessionToken f;
                deviceFingerprint := new_deviceFingerprint f;
                deviceInfo := new_deviceInfo f;
                isActive := true;
                createdAt := now;
                lastActivityAt := now;
                expiresAt := new_expiresAt f;
                neverExpires := false;
                terminatedAt := None;
                terminatedReason := None |} in
    Some (s, c ++ [s]).

(** [doc.save()] *)
Definition save (s : t) (c : Collection) : Collection :=
  map (fun x => if String.eqb (_id x) (_id s) then s else x) c.

(** [sessionSchema.methods.terminate] *)
Definition terminate (now : Z) (reason : Reason) (s : t) : t :=
  {| _id := _id s; user := user s; sessionToken := sessionToken s;
     deviceFingerprint := deviceFingerprint s; deviceInfo := deviceInfo s;
     isActive := false;
     createdAt := createdAt s; lastActivityAt := lastActivityAt s;
     expiresAt := expiresAt s; neverExpires := neverExpires s;
     terminatedAt := Some now;
     terminatedReason := Some reason |}.

(** [sessionSchema.methods.updateActivity] *)
Definition updateActivity (now : Z) (s : t) : t :=
  {| _id := _id s; user := user s; sessionToken := sessionToken s;
     deviceFingerprint := deviceFingerprint s; deviceInfo := deviceInfo s;
     isActive := isActive s;
     createdAt := createdAt s; lastActivityAt := now;
     expiresAt := expiresAt s; neverExpires := neverExpires s;
     terminatedAt := terminatedAt s;
     terminatedReason := terminatedReason s |}.

(** the filter
    [{ user, isActive: true,
       $or: [{ neverExpires: true }, { expiresAt: { $gt: new Date() } }] }] *)
Definition active_for_user (userId : string) (now : Z) (s : t) : bool :=
  String.eqb (user s) userId && isActive s
  && (neverExpires s || (now <? expiresAt s)).

(** [getActiveSessionsForUser], up to the order of the result *)
Definition getActiveSessionsForUser (userId : string) (now : Z)
  (c : Collection) : list t :=
  filter (active_for_user userId now) c.

(** [distinct(field, filter)] keeps one copy of every value *)
Definition distinct (values : list string) : list string :=
  nodup string_dec values.

Definition countActiveDevices (userId : string) (now : Z) (c : Collection)
  : list string :=
  distinct (map deviceFingerprint (filter (active_for_user userId now) c)).

(** [updateMany({ user, isActive: true }, { isActive: false, ... })] *)
Definition terminateAllForUser (userId : string) (reason : Reason) (now : Z)
  (c : Collection) : Collection :=
  map (fun s => if String.eqb (user s) userId && isActive s
                then terminate now reason s else s) c.

(** [.sort({ createdAt: 1 })] then the first document: the least
    [createdAt], the earliest inserted among equals. *)
Fixpoint first_by_createdAt (l : list t) : option t :=
  match l with
  | [] => None
  | s :: rest =>
      match first_by_createdAt rest with
      | None => Some s
      | Some o => if createdAt s <=? createdAt o then Some s else Some o
      end
  end.

Definition terminateOldestSession (userId : string) (now : Z) (c : Collection)
  : option t * Collection :=
  let oldest :=
    first_by_createdAt
      (filter (fun s => String.eqb (user s) userId && isActive s) c) in
  match oldest with
  | Some o =>
      let o' := terminate now device_limit o in
      (Some o', save o' c)
  | None => (None, c)
  end.

Section WithRuntime.
Context {RT : NodeRuntime}.

(** [Session.findById(id)]: the identifier is cast to an [ObjectId] first;
    a string that is none makes the query throw. *)
Definition findById (id : string) (c : Collection) : Completion (option t) :=
  match cast_ObjectId id with
  | Some oid => Return (find (fun s => String.eqb (_id s) oid) c)
  | None => Throw (msg_cast_failed id "Session")
  end.

End WithRuntime.

End Session.

(** ** HTTP responses *)

Inductive Body : Type :=
| ErrorBody (error : string)                 (* { success: false, error } *)
| MessageBody (message : string)             (* { success: true, message } *)
| LoginBody (token : string) (user : User.t) (expiresAt : Z).
                      (* { success: true, data: { token, user, expiresAt } } *)

Record Response : Type := {
  status : Z;
  body : Body
}.

(** ** The authentication middleware *)

Module AuthMiddleware.

Inductive Outcome : Type :=
| Respond (r : Response)
| Next (user : TokenPayload) (session : Session.t).
                            (* req.user = decoded; req.session = session *)

(** [authHeader.replace('Bearer ', '')] on a header that starts with it *)
Definition strip_bearer (authHeader : string) : string :=
  substring 7 (String.length authHeader - 7) authHeader.

Section WithRuntime.
Context {RT : NodeRuntime}.

(** [findOne({ sessionToken: token, isActive: true,
               expiresAt: { $gt: new Date() } })] *)
Definition find_live_session (token : string) (now : Z)
  (c : Session.Collection) : option Session.t :=
  find (fun s => String.eqb (Session.sessionToken s) token
                 && Session.isActive s
                 && (now <? Session.expiresAt s)) c.

Definition protect (now : Z) (authorization : option string)
  (c : Session.Collection) : Outcome * Session.Collection :=
  match authorization with
  | None =>
      (Respond {| status := 401;
                  body := ErrorBody "No authentication token provided" |}, c)
  | Some authHeader =>
      if String.eqb authHeader EmptyString
         || negb (String.prefix "Bearer " authHeader)
      then
        (Respond {| status := 401;
                    body := ErrorBody "No authentication token provided" |}, c)
      else
        let token := strip_bearer authHeader in
        match CryptoService.validateSessionToken now token with
        | None =>
            (Respond {| status := 401;
                        body := ErrorBody "Invalid or expired token" |}, c)
        | Some decoded =>
            match find_live_session token now c with
            | None =>
                (Respond
                   {| status := 401;
                      body := ErrorBody "Session expired or invalidated" |},
                 c)
            | Some session =>
                let session := Session.updateActivity now session in
                (Next decoded session, Session.save session c)
            end
        end
  end.

(** [optionalAuth]: it always calls [next]; the result is what it attached
    to the request, if anything. *)
Definition optionalAuth (now : Z) (authorization : option string)
  (c : Session.Collection)
  : option (TokenPayload * Session.t) * Session.Collection :=
  match authorization with
  | None => (None, c)
  | Some authHeader =>
      if negb (String.eqb authHeader EmptyString)
         && String.prefix "Bearer " authHeader
      then
        let token := strip_bearer authHeader in
        match CryptoService.validateSessionToken now token with
        | Some decoded =>
            match find_live_session token now c with
            | Some session =>
                let session := Session.updateActivity now session in
                (Some (decoded, session), Session.save session c)
            | None => (None, c)
            end
        | None => (None, c)
        end
      else (None, c)
  end.

End WithRuntime.

(** What a middleware after [protect] does with [req.user]. *)
Inductive Gate : Type :=
| Pass                 (* next() *)
| Deny (r : Response).

(** [roles.includes(x)] *)
Definition includes_string (l : list string) (x : string) : bool :=
  existsb (String.eqb x) l.

(** [requireRole(...roles)] *)
Definition requireRole (roles : list string) (user : option TokenPayload)
  : Gate :=
  match user with
  | None =>
      Deny {| status := 401; body := ErrorBody "Authentication required" |}
  | Some u =>
      if negb (includes_string roles (sd_role (tp_data u)))
      then Deny {| status := 403;
                   body := ErrorBody
                             (String.append "Access denied. Required role: "
                                (String.concat " or " roles)) |}
      else Pass
  end.

(** [requirePermission(...permissions)] *)
Definition requirePermission (permissions : list string)
  (user : option TokenPayload) : Gate :=
  match user with
  | None =>
      Deny {| status := 401; body := ErrorBody "Authentication required" |}
  | Some u =>
      let userPermissions := sd_permissions (tp_data u) in
      let hasPermission :=
        existsb (fun p => includes_string userPermissions p) permissions in
      if negb hasPermission
      then Deny {| status := 403;
                   body := ErrorBody
                             (String.append
                                "Access denied. Required permission: "
                                (String.concat " or " permissions)) |}
      else Pass
  end.

(** *** Rate limiting *)

(** a value of [rateLimitMap] *)
Record RateRecord : Type := {
  count : Z;
  resetAt : Z
}.

(** [rateLimitMap]: the one map of the module, shared by every limiter
    that [rateLimit] returns; keys in insertion order. *)
Definition RateLimitMap : Type := list (string * RateRecord).

(** [rateLimitMap.get(ip)] *)
Fixpoint rate_get (ip : string) (m : RateLimitMap) : option RateRecord :=
  match m with
  | [] => None
  | (k, r) :: rest => if String.eqb k ip then Some r else rate_get ip rest
  end.

(** [rateLimitMap.set(ip, r)], and the effect on the map of assigning to
    the fields of the record it holds for [ip] *)
Fixpoint rate_set (ip : string) (r : RateRecord) (m : RateLimitMap)
  : RateLimitMap :=
  match m with
  | [] => [(ip, r)]
  | (k, r') :: rest =>
      if String.eqb k ip then (k, r) :: rest
      else (k, r') :: rate_set ip r rest
  end.

(** the answer to a request over the limit *)
Definition too_many : Gate :=
  Deny {| status := 429;
          body := ErrorBody "Too many requests, please try again later" |}.

(** [rateLimit(maxRequests, windowMs)] on a request from
    [req.ip || req.connection?.remoteAddress] at [now] *)
Definition rateLimit (maxRequests windowMs : Z) (address : option string)
  (now : Z) (m : RateLimitMap) : Gate * RateLimitMap :=
  let ip := or_string address "unknown" in
  match rate_get ip m with
  | None => (Pass, rate_set ip {| count := 1; resetAt := now + windowMs |} m)
  | Some record =>
      if resetAt record <? now
      then (Pass, rate_set ip {| count := 1; resetAt := now + windowMs |} m)
      else
        let record := {| count := count record + 1;
                         resetAt := resetAt record |} in
        let m := rate_set ip record m in
        if maxRequests <? count record
        then (too_many, m)
        else (Pass, m)
  end.

Definition loginRateLimit : option string -> Z -> RateLimitMap
                            -> Gate * RateLimitMap :=
  rateLimit 5 60000.

(** Requests of one address, one after the other, each through a limiter
    of its own: (maxRequests, windowMs, time of the request). *)
Fixpoint rateLimit_run (requests : list (Z * Z * Z)) (address : option string)
  (m : RateLimitMap) : list Gate * RateLimitMap :=
  match requests with
  | [] => ([], m)
  | (maxRequests, windowMs, now) :: rest =>
      let '(g, m1) := rateLimit maxRequests windowMs address now m in
      let '(gs, m2) := rateLimit_run rest address m1 in
      (g :: gs, m2)
  end.

End AuthMiddleware.

(** ** [backend/controllers/authController.js] *)

Module AuthController.

Record Db : Type := {
  users : list User.t;
  sessions : Session.Collection
}.

(** [req.body] and [req.ip || req.connection?.remoteAddress] of a login *)
Record LoginRequest : Type := {
  req_keyFile : option string;
  req_deviceInfo : option DeviceInfo;
  req_ip : option string
}.

(** what a login draws: the entropy of its token, and the [ObjectId] of
    the record it creates *)
Record LoginDraw : Type := {
  draw_token : Entropy;
  draw_session_id : string
}.

(** [ua.includes(word)] *)
Definition includes (ua word : string) : bool :=
  match String.index 0 word ua with
  | Some _ => true
  | None => false
  end.

Definition no_deviceInfo : DeviceInfo :=
  {| di_userAgent := None; di_platform := None; di_language := None;
     di_screenRes := None; di_timezone := None |}.

(** [parseDeviceInfo(deviceInfo = {})] *)
Definition parseDeviceInfo (deviceInfo : option DeviceInfo)
  : Session.StoredDeviceInfo :=
  let deviceInfo := or_value deviceInfo no_deviceInfo in
  let ua := or_string (di_userAgent deviceInfo) "" in
  let browser :=
    if includes ua "Chrome" then "Chrome"
    else if includes ua "Firefox" then "Firefox"
    else if includes ua "Safari" then "Safari"
    else if includes ua "Edge" then "Edge"
    else "Unknown" in
  let '(os, device) :=
    if includes ua "Windows" then ("Windows", "Desktop")
    else if includes ua "Mac" then ("macOS", "Desktop")
    else if includes ua "Linux" then ("Linux", "Desktop")
    else if includes ua "Android" then ("Android", "Mobile")
    else if includes ua "iPhone" || includes ua "iPad" then ("iOS", "Mobile")
    else ("Unknown", "Desktop") in
  {| Session.userAgent := ua;
     Session.platform := or_string (di_platform deviceInfo) "";
     Session.browser := browser;
     Session.os := os;
     Session.device := device;
     Session.ip := None |}%string.

Definition with_ip (d : Session.StoredDeviceInfo) (ip : option string)
  : Session.StoredDeviceInfo :=
  {| Session.userAgent := Session.userAgent d;
     Session.platform := Session.platform d;
     Session.browser := Session.browser d;
     Session.os := Session.os d;
     Session.device := Session.device d;
     Session.ip := ip |}.

(** [findOne({ user, deviceFingerprint, isActive: true,
               expiresAt: { $gt: new Date() } })] *)
Definition existingSession (userId deviceFingerprint : string) (now : Z)
  (c : Session.Collection) : option Session.t :=
  find (fun s => String.eqb (Session.user s) userId
                 && String.eqb (Session.deviceFingerprint s) deviceFingerprint
                 && Session.isActive s
                 && (now <? Session.expiresAt s)) c.

(** "Check device limit" of [loginWithKeyFile]: the collection once room
    has been made. *)
Definition check_device_limit (user : User.t) (deviceFingerprint : string)
  (now : Z) (c : Session.Collection) : Session.Collection :=
  let activeDevices := Session.countActiveDevices (User._id user) now c in
  if Z.of_nat (List.length activeDevices) >=? User.deviceLimit user then
    match existingSession (User._id user) deviceFingerprint now c with
    | None => snd (Session.terminateOldestSession (User._id user) now c)
    | Some _ => c
    end
  else c.

Section WithRuntime.
Context {RT : NodeRuntime}.

(** "Create new session" of [loginWithKeyFile]: the token and the fields
    passed to [Session.create]. *)
Definition new_session (user : User.t) (deviceFingerprint : string)
  (now : Z) (d : LoginDraw) (req : LoginRequest) : Session.NewSession :=
  let sessionData :=
    {| sd_userId := User._id user;
       sd_username := User.username user;
       sd_role := User.role user;
       sd_permissions := User.permissions user;
       sd_deviceFingerprint := deviceFingerprint |} in
  let sessionToken :=
    CryptoService.generateSessionToken now (draw_token d) sessionData None in
  let expiresAt := now + 24 * 60 * 60 * 1000 in
  let parsedDeviceInfo := parseDeviceInfo (req_deviceInfo req) in
  {| Session.new_user := User._id user;
     Session.new_sessionToken := sessionToken;
     Session.new_deviceFingerprint := deviceFingerprint;
     Session.new_deviceInfo := with_ip parsedDeviceInfo (req_ip req);
     Session.new_expiresAt := expiresAt |}.

Definition error_response (code : Z) (message : string) : Response :=
  {| status := code; body := ErrorBody message |}.

Definition loginWithKeyFile (now : Z) (d : LoginDraw) (req : LoginRequest)
  (db : Db) : Response * Db :=
  match req_keyFile req with
  | None => (error_response 400 "Key file is required", db)
  | Some keyFile =>
      if String.eqb keyFile EmptyString
      then (error_response 400 "Key file is required", db)
      else
        let keyFileBuffer := base64_decode keyFile in
        match CryptoService.validateKeyFile now keyFileBuffer with
        | CryptoService.Invalid error =>
            (error_response 401 (or_string (Some error) "Invalid key file"), db)
        | CryptoService.Valid keyData =>
            match User.findByKeyFileId (kp_keyId keyData) (users db) with
            | None =>
                (error_response 401
                   "Key file not registered or has been revoked", db)
            | Some user =>
                if negb (User.isActive user)
                then (error_response 403 "Account is disabled", db)
                else
                  let deviceFingerprint :=
                    CryptoService.generateDeviceFingerprint
                      (or_value (req_deviceInfo req) no_deviceInfo) in
                  let sessions1 :=
                    check_device_limit user deviceFingerprint now
                      (sessions db) in
                  let fields :=
                    new_session user deviceFingerprint now d req in
                  match Session.create now (draw_session_id d) fields
                          sessions1 with
                  | None =>   (* caught: console.error, 500 *)
                      (error_response 500 "Authentication failed",
                       {| users := users db; sessions := sessions1 |})
                  | Some (_, sessions2) =>
                      let user := User.record_login now user in
                      ({| status := 200;
                          body := LoginBody (Session.new_sessionToken fields)
                                    user (Session.new_expiresAt fields) |},
                       {| users := User.save user (users db);
                          sessions := sessions2 |})
                  end
            end
        end
  end.

(** [req.user.role], [req.params.id] of an admin request *)
Definition is_admin (role : string) : bool :=
  String.eqb role "admin" || String.eqb role "superadmin".

Definition terminateSession (now : Z) (role id : string)
  (c : Session.Collection) : Response * Session.Collection :=
  if negb (is_admin role)
  then (error_response 403 "Admin access required", c)
  else
    match Session.findById id c with
    | Throw message => (error_response 500 message, c)   (* caught *)
    | Return None => (error_response 404 "Session not found", c)
    | Return (Some session) =>
        let session := Session.terminate now Session.admin_action session in
        ({| status := 200; body := MessageBody "Session terminated" |},
         Session.save session c)
    end.

(** [logout]: [token] is
    [req.headers.authorization?.replace('Bearer ', '')] *)
Definition logout (now : Z) (token : option string) (c : Session.Collection)
  : Response * Session.Collection :=
  let ok :=
    {| status := 200; body := MessageBody "Logged out successfully" |} in
  match token with
  | None => (ok, c)
  | Some token =>
      if String.eqb token EmptyString then (ok, c)
      else
        match find (fun s => String.eqb (Session.sessionToken s) token
                             && Session.isActive s) c with
        | Some session =>
            (ok, Session.save (Session.terminate now Session.logout session) c)
        | None => (ok, c)
        end
  end.

(** [logoutAll]: [userId] is [req.user.userId], which the update casts to
    an [ObjectId]. *)
Definition logoutAll (now : Z) (userId : string) (c : Session.Collection)
  : Response * Session.Collection :=
  match cast_ObjectId userId with
  | Some oid =>
      ({| status := 200; body := MessageBody "Logged out from all devices" |},
       Session.terminateAllForUser oid Session.logout now c)
  | None =>   (* caught *)
      (error_response 500 (msg_cast_failed userId "Session"), c)
  end.

(** *** Login with a password *)

(** [req.body] and the network address of a password login *)
Record PasswordRequest : Type := {
  pw_username : option string;
  pw_password : option string;
  pw_deviceInfo : option DeviceInfo;
  pw_ip : option string
}.

(** the device part of the request, as the admission steps read it *)
Definition device_request (req : PasswordRequest) : LoginRequest :=
  {| req_keyFile := None;
     req_deviceInfo := pw_deviceInfo req;
     req_ip := pw_ip req |}.

(** [loginWithPassword].  [cast] is what the schema makes of the name in
    the query [{ username, isActive: true }]. *)
Definition loginWithPassword (cast : string -> string) (now : Z)
  (d : LoginDraw) (req : PasswordRequest) (db : Db) : Response * Db :=
  let username := or_string (pw_username req) "" in
  let password := or_string (pw_password req) "" in
  if String.eqb username "" || String.eqb password ""
  then (error_response 400 "Username and password are required", db)
  else
    match find (fun u => String.eqb (User.username u) (cast username)
                         && User.isActive u) (users db) with
    | None => (error_response 401 "Invalid username or password", db)
    | Some user =>
        if match User.passwordHash user with
           | None => true
           | Some h => String.eqb h ""
           end
        then (error_response 401
                "Password login not enabled for this account. Use key file.",
              db)
        else
          match User.validatePassword password user with
          | Throw _ => (error_response 500 "Authentication failed", db)
          | Return false =>
              (error_response 401 "Invalid username or password", db)
          | Return true =>
              if User.keyFileRevoked user
              then (error_response 403 "Account access has been revoked", db)
              else
                let deviceFingerprint :=
                  CryptoService.generateDeviceFingerprint
                    (or_value (pw_deviceInfo req) no_deviceInfo) in
                let sessions1 :=
                  check_device_limit user deviceFingerprint now
                    (sessions db) in
                let fields :=
                  new_session user deviceFingerprint now d
                    (device_request req) in
                match Session.create now (draw_session_id d) fields
                        sessions1 with
                | None =>
                    (error_response 500 "Authentication failed",
                     {| users := users db; sessions := sessions1 |})
                | Some (_, sessions2) =>
                    let user := User.record_login now user in
                    ({| status := 200;
                        body := LoginBody (Session.new_sessionToken fields)
                                  user (Session.new_expiresAt fields) |},
                     {| users := User.save user (users db);
                        sessions := sessions2 |})
                end
          end
    end.

(** *** Administration *)

(** the answers of the administrative operations *)
Inductive AdminBody : Type :=
| AdminError (error : string)          (* { success: false, error } *)
| AdminMessage (message : string) (data : option User.t)
                                       (* { success: true, message, data } *)
| AdminKeyFile (user : User.t) (keyFile : Buffer) (keyFileName : string).
                (* { success: true, data: { user, keyFile, keyFileName } },
                   the key file in base64 *)

Record AdminResponse : Type := {
  admin_status : Z;
  admin_body : AdminBody
}.

Definition admin_error (code : Z) (message : string) : AdminResponse :=
  {| admin_status := code; admin_body := AdminError message |}.

(** [revokeUserKeyFile]: [role] is [req.user.role], [id] is
    [req.params.id]. *)
Definition revokeUserKeyFile (now : Z) (role id : string) (db : Db)
  : AdminResponse * Db :=
  if negb (is_admin role)
  then (admin_error 403 "Admin access required", db)
  else
    match User.findById id (users db) with
    | Throw message => (admin_error 500 message, db)   (* caught *)
    | Return None => (admin_error 404 "User not found", db)
    | Return (Some user) =>
        let user := User.revokeKeyFile user in
        ({| admin_status := 200;
            admin_body :=
              AdminMessage "Key file revoked and all sessions terminated"
                None |},
         {| users := User.save user (users db);
            sessions := Session.terminateAllForUser (User._id user)
                          Session.revoked now (sessions db) |})
    end.

(** the messages of what [regenerateKeyFile] may catch: [toISOString] of
    an instant that is no date, reading [keyId] of an absent
    [validation.data], and a key-file identifier another principal
    already has *)
Record CaughtMessages : Type := {
  msg_invalid_time : string;
  msg_no_data : string;
  msg_duplicate_key : string
}.

(** the instants a [Date] holds *)
Definition is_date (ms : Z) : bool :=
  (-8640000000000000 <=? ms) && (ms <=? 8640000000000000).

(** the fields [regenerateKeyFile] passes to [generateKeyFile] *)
Definition regenerated_data (user : User.t) (expiresAt : Z) : UserData :=
  {| ud_userId := User._id user;
     ud_username := User.username user;
     ud_email := User.email user;
     ud_role := Some (User.role user);
     ud_deviceLimit := Some (User.deviceLimit user);
     ud_expiresAt := Some expiresAt;
     ud_permissions := Some (User.permissions user);
     ud_others := [] |}.

(** [regenerateKeyFile]: [expiresInDays] is [req.body.expiresInDays], a
    whole number of days; the clock reads [now] throughout. *)
Definition regenerateKeyFile (caught : CaughtMessages) (now : Z) (e : Entropy)
  (role id : string) (expiresInDays : option Z) (db : Db)
  : AdminResponse * Db :=
  if negb (is_admin role)
  then (admin_error 403 "Admin access required", db)
  else
    match User.findById id (users db) with
    | Throw message => (admin_error 500 message, db)   (* caught *)
    | Return None => (admin_error 404 "User not found", db)
    | Return (Some user) =>
        let expiresAt :=
          now + or_number expiresInDays 365 * 24 * 60 * 60 * 1000 in
        if negb (is_date expiresAt)
        then (admin_error 500 (msg_invalid_time caught), db)
        else
        let keyFileBuffer :=
          CryptoService.generateKeyFile now e
            (regenerated_data user expiresAt) in
        match CryptoService.validateKeyFile now keyFileBuffer with
        | CryptoService.Invalid _ =>
            (admin_error 500 (msg_no_data caught), db)
        | CryptoService.Valid data =>
            let user := User.with_keyFile (Some (kp_keyId data)) false user in
            if existsb (fun x => negb (String.eqb (User._id x) (User._id user))
                                 && User.has_keyFileId (kp_keyId data) x)
                 (users db)
            then (admin_error 500 (msg_duplicate_key caught), db)
            else
              ({| admin_status := 200;
                  admin_body :=
                    AdminKeyFile user keyFileBuffer
                      (String.append (User.username user) "_keyfile.akey") |},
               {| users := User.save user (users db);
                  sessions := Session.terminateAllForUser (User._id user)
                                Session.revoked now (sessions db) |})
        end
    end.

(** the characters of [s] are ASCII: the [length] of the string is then
    the number of its bytes *)
Definition ascii_only (s : string) : bool :=
  forallb (fun c => (nat_of_ascii c <? 128)%nat) (list_ascii_of_string s).

(** [updateUserPassword]: [role] is [req.user.role]; the password is a
    string of ASCII characters when it is given. *)
Definition updateUserPassword (e : Entropy) (role id : string)
  (password : option string) (removePassword : bool) (db : Db)
  : AdminResponse * Db :=
  if negb (is_admin role)
  then (admin_error 403 "Admin access required", db)
  else
    match User.findById id (users db) with
    | Throw message => (admin_error 500 message, db)   (* caught *)
    | Return None => (admin_error 404 "User not found", db)
    | Return (Some user) =>
        if String.eqb (User.role user) "superadmin"
           && negb (String.eqb role "superadmin")
        then (admin_error 403 "Cannot modify superadmin account", db)
        else if removePassword
        then
          let user := User.with_passwordHash None user in
          ({| admin_status := 200;
              admin_body := AdminMessage "Password login disabled"
                              (Some user) |},
           {| users := User.save user (users db); sessions := sessions db |})
        else
          let password := or_string password "" in
          if String.eqb password ""
             || (String.length password <? 8)%nat
          then (admin_error 400 "Password must be at least 8 characters", db)
          else
            let user := User.setPassword e password user in
            ({| admin_status := 200;
                admin_body := AdminMessage "Password updated successfully"
                                (Some user) |},
             {| users := User.save user (users db);
                sessions := sessions db |})
    end.

End WithRuntime.
End AuthController.

(** ** An executable runtime

    An instance of [NodeRuntime] on which the model runs on concrete
    inputs.  Hex and base64 are decoded for real; the JSON codecs write one
    field per line; the cryptographic primitives are stand-ins that have the
    shape of the real ones (output widths, a self-inverse counter mode), not
    their strength. *)

Module SampleRuntime.

Definition newline : ascii := ascii_of_nat 10.

Definition mix (bs : Buffer) : Z :=
  fold_left (fun acc b => (acc * 31 + Z_of_byte b) mod 65521) bs 7.

Definition stream (seed : Z) (n : nat) : Buffer :=
  map (fun i => byte_of_Z (seed + 13 * Z.of_nat i)) (seq 0 n).

Definition kdf (password : string) (salt : Buffer) (keylen : nat) : Buffer :=
  stream (mix (utf8 password ++ salt)) keylen.

Definition xor_pad (key iv data : Buffer) : Buffer :=
  map (fun b => byte_of_Z (Z.lxor (Z_of_byte b) (mix (key ++ iv) mod 256)))
      data.

Definition dec (z : Z) : string := NilZero.string_of_int (Z.to_int z).

Definition undec (s : string) : option Z :=
  option_map Z.of_int (NilZero.int_of_string s).

Definition lines (fields : list string) : string :=
  String.concat (String newline EmptyString) fields.

Definition commas (items : list string) : string := String.concat "," items.

Definition uncommas (s : string) : list string :=
  if String.eqb s EmptyString then [] else split_on "," s.

Definition keyfile_text (p : KeyFilePayload) : Buffer :=
  utf8 (lines [kp_userId p; kp_username p; kp_email p; kp_role p;
               dec (kp_deviceLimit p); dec (kp_createdAt p);
               dec (kp_expiresAt p); commas (kp_permissions p);
               kp_keyId p; kp_version p]).

Definition keyfile_untext (b : Buffer) : Completion KeyFilePayload :=
  match split_on newline (string_of_list_byte b) with
  | [uid; uname; mail; rl; dl; ca; ea; perms; kid; ver] =>
      match undec dl, undec ca, undec ea with
      | Some dl, Some ca, Some ea =>
          Return {| kp_userId := uid; kp_username := uname; kp_email := mail;
                    kp_role := rl; kp_deviceLimit := dl; kp_createdAt := ca;
                    kp_expiresAt := ea; kp_permissions := uncommas perms;
                    kp_keyId := kid; kp_version := ver |}
      | _, _, _ => Throw "Unexpected token in JSON"
      end
  | _ => Throw "Unexpected token in JSON"
  end.

Definition exp_text (exp : Expiry) : string :=
  match exp with
  | ExpAt ms => dec ms
  | ExpText now property => String.append (dec now) (String "+" property)
  end.

Definition exp_untext (s : string) : option Expiry :=
  match split_on "+" s with
  | [ms] => option_map ExpAt (undec ms)
  | [now; property] =>
      option_map (fun n => ExpText n property) (undec now)
  | _ => None
  end.

Definition token_text (p : TokenPayload) : Buffer :=
  let d := tp_data p in
  utf8 (lines [sd_userId d; sd_username d; sd_role d;
               commas (sd_permissions d); sd_deviceFingerprint d;
               dec (tp_iat p); exp_text (tp_exp p);
               if tp_neverExpires p then "true" else "false"; tp_jti p]).

Definition token_untext (b : Buffer) : Completion TokenPayload :=
  match split_on newline (string_of_list_byte b) with
  | [uid; uname; rl; perms; fp; iat; ex; ne; jti] =>
      match undec iat, exp_untext ex with
      | Some iat, Some ex =>
          Return {| tp_data := {| sd_userId := uid; sd_username := uname;
                                  sd_role := rl;
                                  sd_permissions := uncommas perms;
                                  sd_deviceFingerprint := fp |};
                    tp_iat := iat; tp_exp := ex;
                    tp_neverExpires := String.eqb ne "true";
                    tp_jti := jti |}
      | _, _ => Throw "Unexpected token in JSON"
      end
  | _ => Throw "Unexpected token in JSON"
  end.

Definition b64_value (c : ascii) : option Z :=
  let n := Z.of_nat (nat_of_ascii c) in
  if (65 <=? n) && (n <=? 90) then Some (n - 65)
  else if (97 <=? n) && (n <=? 122) then Some (n - 71)
  else if (48 <=? n) && (n <=? 57) then Some (n + 4)
  else if (n =? 43) || (n =? 45) then Some 62
  else if (n =? 47) || (n =? 95) then Some 63
  else None.

Fixpoint sextets (s : string) : list Z :=
  match s with
  | EmptyString => []
  | String c rest =>
      match b64_value c with
      | Some v => v :: sextets rest
      | None => []
      end
  end.

Fixpoint bytes_of_sextets (l : list Z) : Buffer :=
  match l with
  | a :: b :: c :: d :: rest =>
      byte_of_Z (a * 4 + b / 16) :: byte_of_Z ((b mod 16) * 16 + c / 4)
        :: byte_of_Z ((c mod 4) * 64 + d) :: bytes_of_sextets rest
  | [a; b; c] =>
      [byte_of_Z (a * 4 + b / 16); byte_of_Z ((b mod 16) * 16 + c / 4)]
  | [a; b] => [byte_of_Z (a * 4 + b / 16)]
  | _ => []
  end.

Definition base64 (s : string) : Buffer := bytes_of_sextets (sextets s).

Definition b64url_char (v : Z) : ascii :=
  match String.get (Z.to_nat v)
          "ABCDEFGHIJKLMNOPQRSTUVWXYZabcdefghijklmnopqrstuvwxyz0123456789-_"
  with
  | Some c => c
  | None => "A"%char
  end.

Fixpoint to_base64url (bs : Buffer) : string :=
  match bs with
  | x :: y :: z :: rest =>
      let x := Z_of_byte x in let y := Z_of_byte y in let z := Z_of_byte z in
      String (b64url_char (x / 4))
        (String (b64url_char ((x mod 4) * 16 + y / 16))
           (String (b64url_char ((y mod 16) * 4 + z / 64))
              (String (b64url_char (z mod 64)) (to_base64url rest))))
  | [x; y] =>
      let x := Z_of_byte x in let y := Z_of_byte y in
      String (b64url_char (x / 4))
        (String (b64url_char ((x mod 4) * 16 + y / 16))
           (String (b64url_char ((y mod 16) * 4)) EmptyString))
  | [x] =>
      let x := Z_of_byte x in
      String (b64url_char (x / 4))
        (String (b64url_char ((x mod 4) * 16)) EmptyString)
  | [] => EmptyString
  end.

(** the strings of 24 hexadecimal digits, read without regard to case *)
Definition lower_hex (c : ascii) : ascii :=
  match hex_value c with
  | Some v => hex_digit v
  | None => c
  end.

Definition ObjectId_of (s : string) : option string :=
  let digits := list_ascii_of_string s in
  if (List.length digits =? 24)%nat
     && forallb (fun c => match hex_value c with
                          | Some _ => true
                          | None => false
                          end) digits
  then Some (string_of_list_ascii (map lower_hex digits))
  else None.

Definition quoted (s : string) : string :=
  let q := String (ascii_of_nat 34) EmptyString in
  String.append q (String.append s q).

Definition cast_message (value model : string) : string :=
  String.concat ""
    ["Cast to ObjectId failed for value "; quoted value;
     " (type string) at path "; quoted "_id"; " for model "; quoted model].

#[export] Instance runtime : NodeRuntime := {|
  MASTER_KEY := "arecanut-pro-secure-master-key-2026!";
  pbkdf2Sync := fun password salt _ keylen => kdf password salt keylen;
  scryptSync := fun password salt keylen => kdf password (utf8 salt) keylen;
  hmac_sha256 := fun key data => stream (mix (key ++ data)) 32;
  gcm_ctr := xor_pad;
  gcm_tag := fun key iv ct => stream (mix (key ++ iv ++ ct)) 16;
  sha256_hex := fun s => to_hex (stream (mix (utf8 s)) 32);
  keyfile_json := keyfile_text;
  keyfile_parse := keyfile_untext;
  token_json := token_text;
  token_parse := token_untext;
  device_json := fun ua pf lang res tz => lines [ua; pf; lang; res; tz];
  base64_decode := base64;
  base64url_encode := to_base64url;
  base64url_decode := base64;
  cast_ObjectId := ObjectId_of;
  msg_cast_failed := cast_message;
  msg_unable_to_authenticate :=
    "Unsupported state or unable to authenticate data";
  msg_invalid_tag_length := "Invalid authentication tag length";
  msg_invalid_iv := "Invalid initialization vector";
  msg_byte_length_mismatch := "Input buffers must have the same byte length";
  msg_not_a_string :=
    "The first argument must be of type string or an instance of Buffer"
|}.

(** Sample inputs. *)

(** identifiers of the sample documents *)
Definition root_id : string := "65a0f1c29b3e4d7a8c1b2e00".
Definition alice_id : string := "65a1f1c29b3e4d7a8c1b2e01".
Definition bob_id : string := "65a2f1c29b3e4d7a8c1b2e02".
Definition carol_id : string := "65a3f1c29b3e4d7a8c1b2e03".
Definition dave_id : string := "65a4f1c29b3e4d7a8c1b2e04".
Definition flagged_id : string := "6600d4a17c5e2b9f30a86c00".

Definition alice_data : UserData :=
  {| ud_userId := alice_id; ud_username := "alice"; ud_email := None;
     ud_role := None; ud_deviceLimit := None; ud_expiresAt := None;
     ud_permissions := None;
     ud_others := [("keyId", "chosen-by-the-caller")] |}.

Definition root_data : UserData :=
  {| ud_userId := root_id; ud_username := "root";
     ud_email := Some "root@example.org"; ud_role := Some "superadmin";
     ud_deviceLimit := Some 5; ud_expiresAt := Some 2000;
     ud_permissions := Some ["read"; "write"; "admin"]; ud_others := [] |}.

Definition entropy : Entropy :=
  {| randomBytes := fun n => stream (5 * Z.of_nat n) n;
     randomUUID := "0b0e7a1c-3f5d-4c2a-9d51-6f1f2f3a4b5c" |}.

Definition alice_session : SessionData :=
  {| sd_userId := alice_id; sd_username := "alice"; sd_role := "user";
     sd_permissions := ["read"; "write"]; sd_deviceFingerprint := "fp-a" |}.

Definition root_session : SessionData :=
  {| sd_userId := root_id; sd_username := "root"; sd_role := "superadmin";
     sd_permissions := ["read"; "write"; "admin"];
     sd_deviceFingerprint := "fp-r" |}.

Definition entropy_b : Entropy :=
  {| randomBytes := fun n => stream (9 * Z.of_nat n + 1) n;
     randomUUID := "7c9e6679-7425-40de-944b-e07fc1f90ae7" |}.

Definition entropy_c : Entropy :=
  {| randomBytes := fun n => stream (3 * Z.of_nat n + 2) n;
     randomUUID := "16fd2706-8baf-433b-82eb-8c7fada847da" |}.

Definition bob_data : UserData :=
  {| ud_userId := bob_id; ud_username := "bob"; ud_email := None;
     ud_role := Some "user"; ud_deviceLimit := Some 1;
     ud_expiresAt := None; ud_permissions := None; ud_others := [] |}.

Definition root_user : User.t :=
  {| User._id := root_id; User.username := "root";
     User.email := Some "root@example.org"; User.role := "superadmin";
     User.permissions := ["read"; "write"; "admin"];
     User.keyFileId := Some (randomUUID entropy);
     User.keyFileRevoked := false; User.deviceLimit := 5;
     User.passwordHash := None; User.isActive := true;
     User.lastLoginAt := None; User.loginCount := 0 |}.

Definition bob_user : User.t :=
  {| User._id := bob_id; User.username := "bob"; User.email := None;
     User.role := "user"; User.permissions := ["read"; "write"];
     User.keyFileId := Some (randomUUID entropy_b);
     User.keyFileRevoked := false; User.deviceLimit := 1;
     User.passwordHash := None; User.isActive := true;
     User.lastLoginAt := None; User.loginCount := 0 |}.

Definition db0 : AuthController.Db :=
  {| AuthController.users := [root_user; bob_user];
     AuthController.sessions := [] |}.

Definition laptop : DeviceInfo :=
  {| di_userAgent := Some "Mozilla/5.0 (X11; Linux x86_64) Firefox/121.0";
     di_platform := Some "Linux x86_64"; di_language := Some "en-GB";
     di_screenRes := Some "1920x1080"; di_timezone := Some "Asia/Colombo" |}.

Definition phone : DeviceInfo :=
  {| di_userAgent := Some "Mozilla/5.0 (Android 14) Chrome/120.0";
     di_platform := Some "Linux armv8l"; di_language := Some "si-LK";
     di_screenRes := Some "412x915"; di_timezone := Some "Asia/Colombo" |}.

(** a login request with the key file issued at time 1000 *)
Definition key_request (e : Entropy) (userData : UserData)
  (deviceInfo : DeviceInfo) : AuthController.LoginRequest :=
  {| AuthController.req_keyFile :=
       Some (to_base64url (CryptoService.generateKeyFile 1000 e userData));
     AuthController.req_deviceInfo := Some deviceInfo;
     AuthController.req_ip := Some "10.0.0.7" |}.

Definition raw_request (keyFile : string) : AuthController.LoginRequest :=
  {| AuthController.req_keyFile := Some keyFile;
     AuthController.req_deviceInfo := None;
     AuthController.req_ip := None |}.

Definition draw1 : AuthController.LoginDraw :=
  {| AuthController.draw_token := entropy;
     AuthController.draw_session_id := "6601d4a17c5e2b9f30a86c01" |}.

Definition draw2 : AuthController.LoginDraw :=
  {| AuthController.draw_token := entropy_b;
     AuthController.draw_session_id := "6602d4a17c5e2b9f30a86c02" |}.

Definition draw3 : AuthController.LoginDraw :=
  {| AuthController.draw_token := entropy_c;
     AuthController.draw_session_id := "6603d4a17c5e2b9f30a86c03" |}.

(** a record as the schema allows it: the never-expires flag is on and
    [expiresAt] is 5000 *)
Definition flagged_session : Session.t :=
  {| Session._id := flagged_id; Session.user := root_id;
     Session.sessionToken :=
       CryptoService.generateSessionToken 1000 entropy root_session None;
     Session.deviceFingerprint := "fp-r";
     Session.deviceInfo := AuthController.parseDeviceInfo (Some laptop);
     Session.isActive := true; Session.createdAt := 1000;
     Session.lastActivityAt := 1000; Session.expiresAt := 5000;
     Session.neverExpires := true; Session.terminatedAt := None;
     Session.terminatedReason := None |}.

(** an admin with a password, and a record whose stored hash has no
    colon *)
Definition carol_user : User.t :=
  {| User._id := carol_id; User.username := "carol"; User.email := None;
     User.role := "admin"; User.permissions := ["read"; "write"; "admin"];
     User.keyFileId := Some "5f2b1c9e-8a47-4d13-b6e0-2c4d6e8fa1b3";
     User.keyFileRevoked := false; User.deviceLimit := 2;
     User.passwordHash :=
       Some (CryptoService.hashPassword entropy_c "correct horse");
     User.isActive := true; User.lastLoginAt := None;
     User.loginCount := 0 |}.

(** every optional field supplied, and a [keyId] that is ignored *)
Definition carol_data : UserData :=
  {| ud_userId := carol_id; ud_username := "carol";
     ud_email := Some "carol@example.org"; ud_role := Some "admin";
     ud_deviceLimit := Some 2; ud_expiresAt := Some 9000;
     ud_permissions := Some ["read"; "write"; "admin"];
     ud_others := [("keyId", "chosen-by-the-caller")] |}.

Definition dave_user : User.t :=
  {| User._id := dave_id; User.username := "dave"; User.email := None;
     User.role := "admin"; User.permissions := ["read"];
     User.keyFileId := None; User.keyFileRevoked := false;
     User.deviceLimit := 3; User.passwordHash := Some "imported-hash";
     User.isActive := true; User.lastLoginAt := None;
     User.loginCount := 0 |}.

Definition db1 : AuthController.Db :=
  {| AuthController.users := [root_user; bob_user; carol_user; dave_user];
     AuthController.sessions := [flagged_session] |}.

Definition password_request (username password : string)
  : AuthController.PasswordRequest :=
  {| AuthController.pw_username := Some username;
     AuthController.pw_password := Some password;
     AuthController.pw_deviceInfo := Some laptop;
     AuthController.pw_ip := Some "10.0.0.7" |}.

Definition caught : AuthController.CaughtMessages :=
  {| AuthController.msg_invalid_time := "Invalid time value";
     AuthController.msg_no_data :=
       "Cannot read properties of undefined (reading 'keyId')";
     AuthController.msg_duplicate_key := "E11000 duplicate key error" |}.

(** the limiter's map after nine requests from one address *)
Definition busy_map : AuthMiddleware.RateLimitMap :=
  [("10.0.0.7", {| AuthMiddleware.count := 9;
                   AuthMiddleware.resetAt := 61000 |})].

End SampleRuntime.

(** ** Contracts of the runtime and tampering

    What the real primitives guarantee, stated at the arguments of one
    call. *)

Section Contracts.
Context {RT : NodeRuntime}.

(** [randomBytes(n)] hands out [n] bytes. *)
Definition entropy_contract (e : Entropy) (n : nat) : Prop :=
  List.length (randomBytes e n) = n.

(** Counter mode is its own inverse and keeps the length; the tag has 16
    bytes. *)
Definition gcm_contract (key iv plaintext : Buffer) : Prop :=
  gcm_ctr key iv (gcm_ctr key iv plaintext) = plaintext
  /\ List.length (gcm_ctr key iv plaintext) = List.length plaintext
  /\ List.length (gcm_tag key iv (gcm_ctr key iv plaintext)) = 16%nat.

(** HMAC-SHA-256 has 32 bytes. *)
Definition hmac_contract (key data : Buffer) : Prop :=
  List.length (hmac_sha256 key data) = 32%nat.

(** HMAC-SHA-256 under [key] does not collide on [data] and [data']. *)
Definition hmac_separates (key data data' : Buffer) : Prop :=
  hmac_contract key data'
  /\ hmac_sha256 key data' <> hmac_sha256 key data.

(** JSON text is not empty and parses back to the object it was made
    from. *)
Definition keyfile_json_contract (p : KeyFilePayload) : Prop :=
  keyfile_json p <> [] /\ keyfile_parse (keyfile_json p) = Return p.

Definition token_json_contract (p : TokenPayload) : Prop :=
  token_parse (token_json p) = Return p.

(** base64url decodes what it encoded. *)
Definition base64url_contract (buf : Buffer) : Prop :=
  base64url_decode (base64url_encode buf) = buf.

(** The contracts that one call [generateKeyFile now e userData] and the
    validation of its result rely on. *)
Definition keyfile_contracts (now : Z) (e : Entropy) (userData : UserData)
  : Prop :=
  let payload := CryptoService.key_payload now (randomUUID e) userData in
  let salt := randomBytes e CryptoService.SALT_LENGTH in
  let iv := randomBytes e CryptoService.IV_LENGTH in
  let key := CryptoService.deriveKey salt in
  entropy_contract e CryptoService.SALT_LENGTH
  /\ entropy_contract e CryptoService.IV_LENGTH
  /\ keyfile_json_contract payload
  /\ gcm_contract key iv (keyfile_json payload)
  /\ hmac_contract (CryptoService.deriveKey (salt ++ utf8 "hmac"))
       (gcm_ctr key iv (keyfile_json payload)).

(** The contracts that one call [generateSessionToken now e sessionData
    expiresIn] and the validation of its result rely on. *)
Definition token_contracts (now : Z) (e : Entropy) (sessionData : SessionData)
  (expiresIn : option Z) : Prop :=
  let payload :=
    CryptoService.token_payload now (randomUUID e) sessionData expiresIn in
  let iv := randomBytes e CryptoService.IV_LENGTH in
  let sealed := CryptoService.cipher_gcm CryptoService.session_key iv
                  (token_json payload) in
  entropy_contract e CryptoService.IV_LENGTH
  /\ token_json_contract payload
  /\ gcm_contract CryptoService.session_key iv (token_json payload)
  /\ base64url_contract (iv ++ snd sealed ++ fst sealed).

End Contracts.

(** The buffer with the byte at index [i] replaced by [b]. *)
Definition flip_byte (i : nat) (b : byte) (buf : Buffer) : Buffer :=
  firstn i buf ++ b :: skipn (S i) buf.

(** ** The state the device limit is stated on *)

(** the filter [{ user, isActive: true }] of [terminateOldestSession] *)
Definition own_active (userId : string) (s : Session.t) : bool :=
  String.eqb (Session.user s) userId && Session.isActive s.

Fixpoint all_different (l : list string) : bool :=
  match l with
  | [] => true
  | x :: rest => negb (existsb (String.eqb x) rest) && all_different rest
  end.

(** The records of the collection have different [_id]s; the records of
    [userId] with the active flag are unexpired at [now], sit on different
    devices, and are at most [limit]. *)
Definition device_slots_ok (userId : string) (now limit : Z)
  (c : Session.Collection) : bool :=
  all_different (map Session._id c)
  && forallb (fun s => now <? Session.expiresAt s)
       (filter (own_active userId) c)
  && all_different
       (map Session.deviceFingerprint (filter (own_active userId) c))
  && (Z.of_nat (List.length (filter (own_active userId) c)) <=? limit).

(** no active record of [userId] sits on [deviceFingerprint] *)
Definition new_device (userId deviceFingerprint : string)
  (c : Session.Collection) : bool :=
  negb (existsb (String.eqb deviceFingerprint)
          (map Session.deviceFingerprint (filter (own_active userId) c))).

(** the number of sessions of [userId] that are active at [now] *)
Definition active_count (userId : string) (now : Z) (c : Session.Collection)
  : Z :=
  Z.of_nat (List.length (Session.getActiveSessionsForUser userId now c)).

Section Admissions.
Context {RT : NodeRuntime}.

(** the fingerprint [loginWithKeyFile] computes for a request *)
Definition request_fingerprint (req : AuthController.LoginRequest) : string :=
  CryptoService.generateDeviceFingerprint
    (or_value (AuthController.req_deviceInfo req)
       AuthController.no_deviceInfo).

(** The session collection after the admission steps of a login of [user]
    (the checks of the credential passed): room is made, then the record
    is created, unless [Session.create] throws. *)
Definition admission (user : User.t) (now : Z) (d : AuthController.LoginDraw)
  (req : AuthController.LoginRequest) (c : Session.Collection)
  : Session.Collection :=
  let fp := request_fingerprint req in
  let c1 := AuthController.check_device_limit user fp now c in
  match Session.create now (AuthController.draw_session_id d)
          (AuthController.new_session user fp now d req) c1 with
  | Some (_, c2) => c2
  | None => c1
  end.

(** one login after the other *)
Fixpoint admissions (user : User.t)
  (logins : list (Z * AuthController.LoginDraw * AuthController.LoginRequest))
  (c : Session.Collection) : Session.Collection :=
  match logins with
  | [] => c
  | (now, d, req) :: rest => admissions user rest (admission user now d req c)
  end.

End Admissions.

(** * Properties *)

(** ** Buffers and hexadecimal transport *)

Lemma buffer_eqb_refl (a : Buffer) : buffer_eqb a a = true.
Proof.
  induction a as [|x a IH]; simpl; [reflexivity|].
  rewrite IH, andb_true_r. now apply Byte.byte_dec_lb.
Qed.

Lemma buffer_eqb_eq (a b : Buffer) : buffer_eqb a b = true <-> a = b.
Proof.
  split; [|intros ->; apply buffer_eqb_refl].
  revert b; induction a as [|x a IH]; intros [|y b]; simpl;
    try discriminate; [reflexivity|].
  intros H; apply andb_true_iff in H as [Hx Hr].
  apply Byte.byte_dec_bl in Hx. apply IH in Hr. now subst.
Qed.

Lemma buffer_eqb_neq (a b : Buffer) : a <> b -> buffer_eqb a b = false.
Proof.
  intros H. destruct (buffer_eqb a b) eqn:E; [|reflexivity].
  now apply buffer_eqb_eq in E.
Qed.

Lemma hex_digit_not_colon (n : Z) : Ascii.eqb (hex_digit n) ":" = false.
Proof.
  unfold hex_digit. generalize (Z.to_nat n). intros k.
  do 17 (try destruct k as [|k]; try reflexivity).
Qed.

Lemma hex_pair_roundtrip (b : byte) :
  hex_value (hex_digit (Z_of_byte b / 16)) = Some (Z_of_byte b / 16)
  /\ hex_value (hex_digit (Z_of_byte b mod 16)) = Some (Z_of_byte b mod 16)
  /\ byte_of_Z (16 * (Z_of_byte b / 16) + Z_of_byte b mod 16) = b.
Proof. destruct b; vm_compute; repeat split. Qed.

Lemma from_hex_to_hex (buf : Buffer) : from_hex (to_hex buf) = buf.
Proof.
  induction buf as [|b rest IH]; [reflexivity|].
  cbn [to_hex from_hex].
  destruct (hex_pair_roundtrip b) as (-> & -> & ->).
  now rewrite IH.
Qed.

Lemma split_on_hex_prefix (buf : Buffer) (s : string) :
  split_on ":" (String.append (to_hex buf) (String ":" s))
  = to_hex buf :: split_on ":" s.
Proof.
  induction buf as [|b rest IH]; [reflexivity|].
  cbn [to_hex String.append split_on].
  rewrite !hex_digit_not_colon, IH. reflexivity.
Qed.

Lemma split_on_hex (buf : Buffer) : split_on ":" (to_hex buf) = [to_hex buf].
Proof.
  induction buf as [|b rest IH]; [reflexivity|].
  cbn [to_hex split_on].
  rewrite !hex_digit_not_colon, IH. reflexivity.
Qed.

(** ** Password vault *)

Section PasswordVault.
Context {RT : NodeRuntime}.

(** C9. With the salt that [randomBytes(16)] hands out and the 64-byte
    digest of PBKDF2, [hashPassword] returns [hex(salt):hex(digest)], the
    salt has at least 16 bytes and the digest at least 64,
    [verifyPassword] accepts the password that was hashed, and it rejects
    every password whose digest under the stored salt differs. *)
Theorem hashPassword_verifyPassword (e : Entropy) (p : string) :
  let salt := randomBytes e 16 in
  let digest := pbkdf2Sync p salt 100000 64 in
  List.length salt = 16%nat ->
  List.length digest = 64%nat ->
  CryptoService.hashPassword e p
    = String.append (to_hex salt) (String ":" (to_hex digest))
  /\ (16 <= List.length salt)%nat
  /\ (64 <= List.length digest)%nat
  /\ CryptoService.verifyPassword p (CryptoService.hashPassword e p)
     = Return true
  /\ forall p' : string,
       List.length (pbkdf2Sync p' salt 100000 64) = 64%nat ->
       pbkdf2Sync p' salt 100000 64 <> digest ->
       CryptoService.verifyPassword p' (CryptoService.hashPassword e p)
       = Return false.
Proof.
  intros salt digest Hsalt Hdigest.
  assert (Hsplit : split_on ":" (CryptoService.hashPassword e p)
                   = [to_hex salt; to_hex digest]).
  { unfold CryptoService.hashPassword. fold salt. fold digest.
    now rewrite split_on_hex_prefix, split_on_hex. }
  split; [reflexivity|].
  split; [lia|]. split; [lia|].
  unfold CryptoService.verifyPassword. rewrite Hsplit, !from_hex_to_hex.
  fold digest. unfold CryptoService.timingSafeEqual.
  split.
  - now rewrite Nat.eqb_refl, buffer_eqb_refl.
  - intros p' Hlen Hneq.
    rewrite Hlen, Hdigest, Nat.eqb_refl.
    now rewrite buffer_eqb_neq.
Qed.

End PasswordVault.


(** ** Key files *)

Lemma slice_middle (pre x post : Buffer) (n m : nat) :
  List.length pre = n -> List.length x = (m - n)%nat ->
  slice (pre ++ x ++ post) n m = x.
Proof.
  intros Hn Hm. unfold slice. subst n.
  rewrite skipn_app, skipn_all, Nat.sub_diag. cbn [skipn app].
  rewrite <- Hm, firstn_app, Nat.sub_diag, firstn_all. cbn [firstn].
  now rewrite app_nil_r.
Qed.

Lemma skipn_prefix (pre post : Buffer) (n : nat) :
  List.length pre = n -> skipn n (pre ++ post) = post.
Proof.
  intros <-. now rewrite skipn_app, skipn_all, Nat.sub_diag.
Qed.

Section KeyFiles.
Context {RT : NodeRuntime}.

Lemma validateKeyFile_try_unfold (now : Z) (buf : Buffer) :
  CryptoService.validateKeyFile_try now buf =
  (_ <- throw_if (List.length buf <? 107)%nat "Invalid key file: Too small" ;;
   _ <- throw_if (negb (buffer_eqb (slice buf 0 8) (utf8 "ARECAKEY")))
          "Invalid key file: Bad magic" ;;
   _ <- throw_if (negb (readUInt16BE buf 8 =? 1))
          "Invalid key file: Unsupported version" ;;
   ok <- CryptoService.verifyHMAC (skipn 106 buf) (slice buf 74 106)
           (CryptoService.deriveKey (slice buf 10 42 ++ utf8 "hmac")) ;;
   _ <- throw_if (negb ok) "Invalid key file: Signature mismatch" ;;
   decrypted <- CryptoService.decipher_gcm
                  (CryptoService.deriveKey (slice buf 10 42))
                  (slice buf 42 58) (slice buf 58 74) (skipn 106 buf) ;;
   payload <- keyfile_parse decrypted ;;
   _ <- throw_if (negb (String.eqb (kp_role payload) "superadmin")
                  && (kp_expiresAt payload <? now)) "Key file has expired" ;;
   Return payload).
Proof. reflexivity. Qed.

(** Validation of a buffer that has the layout of a key file. *)
Lemma validateKeyFile_try_layout (now : Z)
  (salt iv authTag signature encrypted : Buffer) :
  List.length salt = 32%nat -> List.length iv = 16%nat ->
  List.length authTag = 16%nat -> List.length signature = 32%nat ->
  encrypted <> [] ->
  CryptoService.validateKeyFile_try now
    (utf8 "ARECAKEY" ++ writeUInt16BE 1 ++ salt ++ iv ++ authTag
       ++ signature ++ encrypted) =
  (ok <- CryptoService.verifyHMAC encrypted signature
           (CryptoService.deriveKey (salt ++ utf8 "hmac")) ;;
   _ <- throw_if (negb ok) "Invalid key file: Signature mismatch" ;;
   decrypted <- CryptoService.decipher_gcm (CryptoService.deriveKey salt)
                  iv authTag encrypted ;;
   payload <- keyfile_parse decrypted ;;
   _ <- throw_if (negb (String.eqb (kp_role payload) "superadmin")
                  && (kp_expiresAt payload <? now)) "Key file has expired" ;;
   Return payload).
Proof.
  intros Hs Hi Ht Hg He.
  rewrite validateKeyFile_try_unfold.
  set (header := utf8 "ARECAKEY" ++ writeUInt16BE 1).
  assert (Hh : List.length header = 10%nat) by reflexivity.
  set (tail3 := authTag ++ signature ++ encrypted).
  set (buf := utf8 "ARECAKEY" ++ _).
  assert (Hbuf : buf = header ++ salt ++ iv ++ tail3) by reflexivity.
  assert (Hlen : (List.length buf <? 107)%nat = false).
  { apply Nat.ltb_ge. rewrite Hbuf. unfold tail3.
    rewrite !length_app, Hh, Hs, Hi, Ht, Hg.
    destruct encrypted; [congruence|]. cbn. lia. }
  assert (Hsalt : slice buf 10 42 = salt).
  { rewrite Hbuf. now apply slice_middle. }
  assert (Hiv : slice buf 42 58 = iv).
  { rewrite Hbuf, (app_assoc header salt).
    apply slice_middle; [|assumption]. rewrite length_app. lia. }
  assert (Htag : slice buf 58 74 = authTag).
  { rewrite Hbuf. unfold tail3.
    rewrite (app_assoc header salt), (app_assoc _ iv).
    apply slice_middle; [|assumption]. rewrite !length_app. lia. }
  assert (Hsig : slice buf 74 106 = signature).
  { rewrite Hbuf. unfold tail3.
    rewrite (app_assoc header salt), (app_assoc _ iv), (app_assoc _ authTag).
    apply slice_middle; [|assumption]. rewrite !length_app. lia. }
  assert (Henc : skipn 106 buf = encrypted).
  { rewrite Hbuf. unfold tail3.
    rewrite (app_assoc header salt), (app_assoc _ iv), (app_assoc _ authTag),
      (app_assoc _ signature).
    apply skipn_prefix. rewrite !length_app. lia. }
  rewrite Hlen, Hsalt, Hiv, Htag, Hsig, Henc.
  reflexivity.
Qed.

Lemma generateKeyFile_layout (now : Z) (e : Entropy) (userData : UserData) :
  let payload := CryptoService.key_payload now (randomUUID e) userData in
  let salt := randomBytes e 32 in
  let iv := randomBytes e 16 in
  let encrypted := gcm_ctr (CryptoService.deriveKey salt) iv
                     (keyfile_json payload) in
  CryptoService.generateKeyFile now e userData
  = utf8 "ARECAKEY" ++ writeUInt16BE 1 ++ salt ++ iv
      ++ gcm_tag (CryptoService.deriveKey salt) iv encrypted
      ++ hmac_sha256 (CryptoService.deriveKey (salt ++ utf8 "hmac")) encrypted
      ++ encrypted.
Proof. reflexivity. Qed.

Lemma keyfile_contracts_encrypted (now : Z) (e : Entropy)
  (userData : UserData) :
  keyfile_contracts now e userData ->
  gcm_ctr (CryptoService.deriveKey (randomBytes e 32)) (randomBytes e 16)
    (keyfile_json (CryptoService.key_payload now (randomUUID e) userData))
  <> [].
Proof.
  intros (_ & _ & (Hne & _) & (_ & Hlen & _) & _) Hnil.
  change CryptoService.SALT_LENGTH with 32%nat in Hlen.
  change CryptoService.IV_LENGTH with 16%nat in Hlen.
  rewrite Hnil in Hlen. cbn in Hlen.
  destruct (keyfile_json _); [now apply Hne|discriminate].
Qed.

Lemma verifyHMAC_own (data key : Buffer) :
  CryptoService.verifyHMAC data (hmac_sha256 key data) key = Return true.
Proof.
  unfold CryptoService.verifyHMAC, CryptoService.generateHMAC,
    CryptoService.timingSafeEqual.
  now rewrite Nat.eqb_refl, buffer_eqb_refl.
Qed.

Lemma decipher_gcm_own (key iv encrypted : Buffer) :
  List.length iv = 16%nat ->
  List.length (gcm_tag key iv encrypted) = 16%nat ->
  CryptoService.decipher_gcm key iv (gcm_tag key iv encrypted) encrypted
  = Return (gcm_ctr key iv encrypted).
Proof.
  intros Hiv Htag. unfold CryptoService.decipher_gcm.
  destruct iv; [discriminate|].
  rewrite Htag. cbn [existsb Nat.eqb orb negb].
  rewrite <- Htag, firstn_all, buffer_eqb_refl. reflexivity.
Qed.

Lemma decipher_gcm_wrong_tag (key iv authTag encrypted : Buffer) :
  List.length iv = 16%nat ->
  List.length authTag = 16%nat ->
  List.length (gcm_tag key iv encrypted) = 16%nat ->
  authTag <> gcm_tag key iv encrypted ->
  CryptoService.decipher_gcm key iv authTag encrypted
  = Throw msg_unable_to_authenticate.
Proof.
  intros Hiv Hlen Htag Hneq. unfold CryptoService.decipher_gcm.
  destruct iv; [discriminate|].
  rewrite Hlen. cbn [existsb Nat.eqb orb negb].
  rewrite <- Htag, firstn_all, buffer_eqb_neq; [reflexivity|assumption].
Qed.

(** What validation does with a file it generated: only the expiry check
    is left. *)
Lemma validateKeyFile_try_generated (now now' : Z) (e : Entropy)
  (userData : UserData) :
  keyfile_contracts now e userData ->
  let payload := CryptoService.key_payload now (randomUUID e) userData in
  CryptoService.validateKeyFile_try now'
    (CryptoService.generateKeyFile now e userData)
  = (_ <- throw_if (negb (String.eqb (kp_role payload) "superadmin")
                    && (kp_expiresAt payload <? now'))
            "Key file has expired" ;;
     Return payload).
Proof.
  intros HC payload.
  pose proof (keyfile_contracts_encrypted _ _ _ HC) as Hne.
  destruct HC as (Hs & Hi & (_ & Hparse) & (Hinv & _ & Htag) & Hmac).
  change CryptoService.SALT_LENGTH with 32%nat in *.
  change CryptoService.IV_LENGTH with 16%nat in *.
  unfold entropy_contract, hmac_contract in *.
  rewrite generateKeyFile_layout, validateKeyFile_try_layout by assumption.
  rewrite verifyHMAC_own. cbn [bind negb throw_if].
  rewrite decipher_gcm_own by assumption. cbn [bind].
  rewrite Hinv, Hparse. reflexivity.
Qed.

End KeyFiles.

Section KeyFileClaims.
Context {RT : NodeRuntime}.

(** C2. A field set whose expiry has not passed when the file is parsed (or
    whose role is superadmin) round-trips: [validateKeyFile] accepts what
    [generateKeyFile] produced, and the claims carry the caller's userId
    and username, and its email, role, deviceLimit, permissions and
    expiresAt when it supplied them: an omitted one gets its default (no
    email, the role user, three devices, the permissions read and write,
    a year from the issue), and so do an empty role and a deviceLimit of
    zero.  The version is 1.0.  The keyId is the UUID the call drew and
    the creation time is the time of the call, whatever the caller
    passed. *)
Theorem keyfile_roundtrip (now now' : Z) (e : Entropy) (userData : UserData) :
  keyfile_contracts now e userData ->
  let role :=
    match ud_role userData with
    | Some r => if String.eqb r "" then "user" else r
    | None => "user"
    end in
  let expiresAt :=
    match ud_expiresAt userData with
    | Some t => t
    | None => now + 365 * 24 * 60 * 60 * 1000
    end in
  role = "superadmin" \/ now' <= expiresAt ->
  exists claims : KeyFilePayload,
    CryptoService.validateKeyFile now'
      (CryptoService.generateKeyFile now e userData)
    = CryptoService.Valid claims
    /\ kp_userId claims = ud_userId userData
    /\ kp_username claims = ud_username userData
    /\ kp_email claims
       = match ud_email userData with
         | Some m => m
         | None => ""
         end
    /\ kp_role claims = role
    /\ kp_deviceLimit claims
       = match ud_deviceLimit userData with
         | Some n => if n =? 0 then 3 else n
         | None => 3
         end
    /\ kp_permissions claims
       = match ud_permissions userData with
         | Some l => l
         | None => ["read"; "write"]
         end
    /\ kp_expiresAt claims = expiresAt
    /\ kp_version claims = "1.0"
    /\ kp_keyId claims = randomUUID e
    /\ kp_createdAt claims = now.
Proof.
  intros HC role expiresAt Hlive.
  exists (CryptoService.key_payload now (randomUUID e) userData).
  assert (Hrole : kp_role (CryptoService.key_payload now (randomUUID e)
                             userData) = role) by reflexivity.
  assert (Hexp : kp_expiresAt (CryptoService.key_payload now (randomUUID e)
                                 userData) = expiresAt) by reflexivity.
  split; [|repeat split].
  - unfold CryptoService.validateKeyFile.
    rewrite (validateKeyFile_try_generated now now' e userData HC).
    rewrite Hrole, Hexp.
    destruct Hlive as [-> | Hlive].
    + reflexivity.
    + replace (expiresAt <? now') with false
        by (symmetry; apply Z.ltb_ge; exact Hlive).
      now rewrite andb_false_r.
  - unfold CryptoService.key_payload, or_string. cbn [kp_email].
    destruct (ud_email userData) as [m|]; [|reflexivity].
    destruct (String.eqb_spec m "") as [Hm|Hm]; [now rewrite Hm|reflexivity].
Qed.

(** Opening a token that [generateSessionToken] minted gives back its
    payload. *)
Lemma open_generated_session_token (now : Z) (e : Entropy)
  (sessionData : SessionData) (expiresIn : option Z) :
  token_contracts now e sessionData expiresIn ->
  CryptoService.open_session_token
    (CryptoService.generateSessionToken now e sessionData expiresIn)
  = Return (CryptoService.token_payload now (randomUUID e) sessionData
              expiresIn).
Proof.
  intros (Hiv & Hparse & (Hinv & _ & Htag) & H64).
  unfold entropy_contract, token_json_contract, base64url_contract in *.
  unfold CryptoService.open_session_token, CryptoService.generateSessionToken.
  cbn [CryptoService.cipher_gcm fst snd] in *.
  change CryptoService.IV_LENGTH with 16%nat in *.
  change CryptoService.AUTH_TAG_LENGTH with 16%nat.
  rewrite H64.
  set (iv := randomBytes e 16) in *.
  set (pt := token_json _) in *.
  set (enc := gcm_ctr CryptoService.session_key iv pt) in *.
  set (tag := gcm_tag CryptoService.session_key iv enc) in *.
  assert (H1 : slice (iv ++ tag ++ enc) 0 16 = iv).
  { apply (slice_middle [] iv (tag ++ enc)); [reflexivity|exact Hiv]. }
  assert (H2 : slice (iv ++ tag ++ enc) 16 (16 + 16) = tag).
  { apply (slice_middle iv tag enc); [exact Hiv|exact Htag]. }
  assert (H3 : skipn (16 + 16) (iv ++ tag ++ enc) = enc).
  { rewrite app_assoc. apply skipn_prefix. rewrite length_app, Hiv, Htag.
    reflexivity. }
  rewrite H1, H2, H3.
  subst tag. rewrite decipher_gcm_own by assumption. cbn [bind].
  subst enc. now rewrite Hinv.
Qed.

Lemma getSessionDuration_plain (role : string) :
  role <> "superadmin" -> ~ In role CryptoService.Object_prototype ->
  CryptoService.getSessionDuration role
  = CryptoService.Millis (30 * 24 * 60 * 60 * 1000).
Proof.
  intros Hrole Hown.
  unfold CryptoService.getSessionDuration, CryptoService.SESSION_DURATIONS.
  apply String.eqb_neq in Hrole. rewrite Hrole.
  destruct (String.eqb role "admin"); [reflexivity|].
  destruct (String.eqb role "user"); [reflexivity|].
  destruct (existsb _ _) eqn:E; [|reflexivity].
  apply existsb_exists in E as (x & Hin & Hx).
  apply String.eqb_eq in Hx. now subst x.
Qed.

Lemma getSessionDuration_inherited (role : string) :
  In role CryptoService.Object_prototype ->
  CryptoService.getSessionDuration role = CryptoService.Inherited role.
Proof.
  intros H. unfold CryptoService.Object_prototype in H.
  repeat (destruct H as [<-|H]; [reflexivity|]). destruct H.
Qed.

Lemma validateSessionToken_opened (now : Z) (token : string)
  (payload : TokenPayload) :
  CryptoService.open_session_token token = Return payload ->
  CryptoService.validateSessionToken now token
  = if tp_neverExpires payload
       || negb (CryptoService.exp_before (tp_exp payload) now)
    then Some payload else None.
Proof.
  intros Hopen. unfold CryptoService.validateSessionToken. rewrite Hopen.
  destruct (tp_neverExpires payload); [reflexivity|].
  now destruct (CryptoService.exp_before _ _).
Qed.

(** C5. A generated key file whose role is not superadmin is rejected as
    expired once its expiresAt has passed, and one whose role is
    superadmin is accepted at every time.  A token without the
    never-expires marker whose expiry is a time that has passed is
    rejected, whether it was minted here or not; so a minted token whose
    role is not superadmin is rejected once the duration it was given has
    passed, or 30 days when it was given none.  A minted token whose role
    is superadmin is accepted at every time, and so is every token that
    opens to a payload carrying the marker.  (A role that names a property
    every object inherits, minted without a duration, gets an expiry that
    is no time at all: such a token has no expiry to lie in the past, and
    is accepted at every time.) *)
Theorem expiry_enforced (nowK nowT now' : Z) (eK eT : Entropy)
  (userData : UserData) (sessionData : SessionData) (expiresIn : option Z) :
  keyfile_contracts nowK eK userData ->
  token_contracts nowT eT sessionData expiresIn ->
  let file := CryptoService.generateKeyFile nowK eK userData in
  let payload := CryptoService.key_payload nowK (randomUUID eK) userData in
  let token :=
    CryptoService.generateSessionToken nowT eT sessionData expiresIn in
  let claims :=
    CryptoService.token_payload nowT (randomUUID eT) sessionData expiresIn in
  (kp_role payload <> "superadmin" -> kp_expiresAt payload < now' ->
   CryptoService.validateKeyFile now' file
   = CryptoService.Invalid "Key file has expired")
  /\ (kp_role payload = "superadmin" ->
      CryptoService.validateKeyFile now' file = CryptoService.Valid payload)
  /\ (forall (t : string) (p : TokenPayload) (exp : Z),
        CryptoService.open_session_token t = Return p ->
        tp_neverExpires p = false ->
        tp_exp p = ExpAt exp -> exp < now' ->
        CryptoService.validateSessionToken now' t = None)
  /\ (sd_role sessionData <> "superadmin" ->
      forall exp : Z, tp_exp claims = ExpAt exp -> exp < now' ->
      CryptoService.validateSessionToken now' token = None)
  /\ (sd_role sessionData <> "superadmin" ->
      forall ms : Z, expiresIn = Some ms -> nowT + ms < now' ->
      CryptoService.validateSessionToken now' token = None)
  /\ (sd_role sessionData <> "superadmin" ->
      expiresIn = None ->
      ~ In (sd_role sessionData) CryptoService.Object_prototype ->
      nowT + 30 * 24 * 60 * 60 * 1000 < now' ->
      CryptoService.validateSessionToken now' token = None)
  /\ (expiresIn = None ->
      In (sd_role sessionData) CryptoService.Object_prototype ->
      tp_exp claims = ExpText nowT (sd_role sessionData)
      /\ CryptoService.validateSessionToken now' token = Some claims)
  /\ (sd_role sessionData = "superadmin" ->
      CryptoService.validateSessionToken now' token = Some claims)
  /\ (forall (t : string) (p : TokenPayload),
        CryptoService.open_session_token t = Return p ->
        tp_neverExpires p = true ->
        CryptoService.validateSessionToken now' t = Some p).
Proof.
  intros HK HT file payload token claims.
  pose proof (open_generated_session_token _ _ _ _ HT) as Hopen.
  fold token in Hopen. fold claims in Hopen.
  assert (Hpast : forall (t : string) (p : TokenPayload) (exp : Z),
             CryptoService.open_session_token t = Return p ->
             tp_neverExpires p = false ->
             tp_exp p = ExpAt exp -> exp < now' ->
             CryptoService.validateSessionToken now' t = None).
  { intros t p exp Ht Hmark Hexp Hlt.
    rewrite (validateSessionToken_opened now' t p Ht), Hmark, Hexp.
    cbn [CryptoService.exp_before orb].
    apply Z.ltb_lt in Hlt. now rewrite Hlt. }
  assert (Hmark : sd_role sessionData <> "superadmin" ->
                  tp_neverExpires claims = false).
  { intros Hrole. now apply String.eqb_neq in Hrole. }
  split; [|split; [|split; [exact Hpast|]]].
  - intros Hrole Hexp. unfold CryptoService.validateKeyFile, file.
    rewrite (validateKeyFile_try_generated nowK now' eK userData HK).
    fold payload. apply String.eqb_neq in Hrole. rewrite Hrole.
    apply Z.ltb_lt in Hexp. rewrite Hexp. reflexivity.
  - intros Hrole. unfold CryptoService.validateKeyFile, file.
    rewrite (validateKeyFile_try_generated nowK now' eK userData HK).
    fold payload. rewrite Hrole. reflexivity.
  - split; [|split; [|split; [|split; [|split]]]].
    + intros Hrole exp Hexp Hlt.
      exact (Hpast token claims exp Hopen (Hmark Hrole) Hexp Hlt).
    + intros Hrole ms -> Hlt.
      exact (Hpast token claims (nowT + ms) Hopen (Hmark Hrole) eq_refl Hlt).
    + intros Hrole -> Hown Hlt.
      apply (Hpast token claims (nowT + 30 * 24 * 60 * 60 * 1000) Hopen
               (Hmark Hrole)); [|exact Hlt].
      unfold claims. cbn [CryptoService.token_payload tp_exp].
      now rewrite (getSessionDuration_plain _ Hrole Hown).
    + intros -> Hin.
      assert (Hexp : tp_exp claims = ExpText nowT (sd_role sessionData)).
      { unfold claims. cbn [CryptoService.token_payload tp_exp].
        now rewrite (getSessionDuration_inherited _ Hin). }
      split; [exact Hexp|].
      rewrite (validateSessionToken_opened now' token claims Hopen), Hexp.
      cbn [CryptoService.exp_before negb]. now rewrite orb_true_r.
    + intros Hrole.
      rewrite (validateSessionToken_opened now' token claims Hopen).
      replace (tp_neverExpires claims) with true; [reflexivity|].
      cbn. rewrite Hrole. reflexivity.
    + intros t p Ht Hm.
      now rewrite (validateSessionToken_opened now' t p Ht), Hm.
Qed.

End KeyFileClaims.

(** ** Tampering *)

Lemma flip_byte_app_l (i : nat) (b : byte) (a c : Buffer) :
  (i < List.length a)%nat ->
  flip_byte i b (a ++ c) = flip_byte i b a ++ c.
Proof.
  intros Hi. unfold flip_byte.
  rewrite firstn_app, skipn_app.
  replace (i - List.length a)%nat with 0%nat by lia.
  replace (S i - List.length a)%nat with 0%nat by lia.
  cbn [firstn skipn]. rewrite app_nil_r, <- app_assoc. reflexivity.
Qed.

Lemma flip_byte_app_r (i : nat) (b : byte) (a c : Buffer) :
  (List.length a <= i)%nat ->
  flip_byte i b (a ++ c) = a ++ flip_byte (i - List.length a) b c.
Proof.
  intros Hi. unfold flip_byte.
  rewrite firstn_app, skipn_app, firstn_all2, skipn_all2 by lia.
  replace (S i - List.length a)%nat with (S (i - List.length a)) by lia.
  cbn [app]. rewrite <- app_assoc. reflexivity.
Qed.

Lemma flip_byte_length (i : nat) (b : byte) (a : Buffer) :
  (i < List.length a)%nat ->
  List.length (flip_byte i b a) = List.length a.
Proof.
  intros Hi. unfold flip_byte.
  rewrite length_app. cbn [List.length].
  rewrite length_firstn, length_skipn. lia.
Qed.

Lemma flip_byte_nth (i : nat) (b : byte) (a : Buffer) :
  (i < List.length a)%nat -> nth i (flip_byte i b a) x00 = b.
Proof.
  intros Hi. unfold flip_byte.
  rewrite app_nth2; rewrite length_firstn; [|lia].
  replace (i - Nat.min i (List.length a))%nat with 0%nat by lia.
  reflexivity.
Qed.

Lemma flip_byte_neq (i : nat) (b : byte) (a : Buffer) :
  (i < List.length a)%nat -> b <> nth i a x00 -> flip_byte i b a <> a.
Proof.
  intros Hi Hb Heq. apply Hb.
  rewrite <- Heq at 1. symmetry. now apply flip_byte_nth.
Qed.

Lemma nth_app_skip (i : nat) (a c : Buffer) :
  (List.length a <= i)%nat ->
  nth i (a ++ c) x00 = nth (i - List.length a) c x00.
Proof. intros Hi. now apply app_nth2. Qed.

Lemma nth_app_keep (i : nat) (a c : Buffer) :
  (i < List.length a)%nat -> nth i (a ++ c) x00 = nth i a x00.
Proof. intros Hi. now apply app_nth1. Qed.

Section Tampering.
Context {RT : NodeRuntime}.

(** C3. In a key file that [generateKeyFile] produced, replacing one byte
    of the GCM tag (offsets 58 to 73), of the HMAC (74 to 105) or of the
    ciphertext (from 106) by a different byte makes [validateKeyFile]
    fail: with the decipher's authentication error for the tag and with
    the signature mismatch for the HMAC and the ciphertext, the latter
    provided HMAC-SHA-256 does not collide on the two ciphertexts.  It
    never returns [valid: true]. *)
Theorem tampered_keyfile_rejected (now now' : Z) (e : Entropy)
  (userData : UserData) (i : nat) (b : byte) :
  let file := CryptoService.generateKeyFile now e userData in
  let hmacKey :=
    CryptoService.deriveKey
      (randomBytes e CryptoService.SALT_LENGTH ++ utf8 "hmac") in
  keyfile_contracts now e userData ->
  (58 <= i < List.length file)%nat ->
  b <> nth i file x00 ->
  ((106 <= i)%nat ->
   hmac_separates hmacKey (skipn 106 file) (skipn 106 (flip_byte i b file))) ->
  CryptoService.validateKeyFile now' (flip_byte i b file)
  = CryptoService.Invalid
      (if (i <? 74)%nat then msg_unable_to_authenticate
       else "Invalid key file: Signature mismatch").
Proof.
  intros file hmacKey HC Hi Hb Hsep.
  pose proof (keyfile_contracts_encrypted _ _ _ HC) as Hne.
  destruct HC as (Hs & Hiv & _ & (_ & _ & Htag) & Hmac).
  unfold entropy_contract, hmac_contract in *.
  subst file hmacKey.
  change CryptoService.SALT_LENGTH with 32%nat in *.
  change CryptoService.IV_LENGTH with 16%nat in *.
  rewrite generateKeyFile_layout in *.
  assert (Hm : List.length (utf8 "ARECAKEY") = 8%nat) by reflexivity.
  assert (Hv : List.length (writeUInt16BE 1) = 2%nat) by reflexivity.
  remember (randomBytes e 32) as salt eqn:Esalt.
  remember (randomBytes e 16) as iv eqn:Eiv.
  remember (gcm_ctr (CryptoService.deriveKey salt) iv
              (keyfile_json
                 (CryptoService.key_payload now (randomUUID e) userData)))
    as enc eqn:Eenc.
  remember (gcm_tag (CryptoService.deriveKey salt) iv enc) as tag eqn:Etag.
  remember (CryptoService.deriveKey (salt ++ utf8 "hmac")) as hk eqn:Ehk.
  remember (hmac_sha256 hk enc) as sig eqn:Esig.
  remember (utf8 "ARECAKEY") as magic eqn:Emagic.
  remember (writeUInt16BE 1) as ver eqn:Ever.
  assert (Hskip : forall x,
             skipn 106 (magic ++ ver ++ salt ++ iv ++ tag ++ sig ++ x) = x).
  { intros x.
    rewrite (app_assoc magic), (app_assoc _ salt), (app_assoc _ iv),
      (app_assoc _ tag), (app_assoc _ sig).
    apply skipn_prefix. rewrite !length_app. lia. }
  rewrite !length_app in Hi.
  rewrite 4 flip_byte_app_r in * by lia.
  rewrite 4 nth_app_skip in Hb by lia.
  unfold CryptoService.validateKeyFile.
  destruct (Nat.ltb_spec i 74) as [Hlt | Hge].
  - (* the tag *)
    rewrite flip_byte_app_l by lia.
    rewrite nth_app_keep in Hb by lia.
    subst magic ver.
    rewrite validateKeyFile_try_layout;
      try assumption; [|rewrite flip_byte_length; lia].
    rewrite <- Ehk, Esig, verifyHMAC_own. cbn [bind negb throw_if].
    rewrite decipher_gcm_wrong_tag; rewrite <- ?Etag; try assumption.
    + reflexivity.
    + rewrite flip_byte_length; lia.
    + apply flip_byte_neq; [lia|assumption].
  - rewrite flip_byte_app_r by lia.
    rewrite nth_app_skip in Hb by lia.
    destruct (Nat.ltb_spec i 106) as [Hlt | Hge'].
    + (* the HMAC *)
      rewrite flip_byte_app_l by lia.
      rewrite nth_app_keep in Hb by lia.
      subst magic ver.
      rewrite validateKeyFile_try_layout;
        try assumption; [|rewrite flip_byte_length; lia].
      rewrite <- Ehk.
      unfold CryptoService.verifyHMAC, CryptoService.generateHMAC,
        CryptoService.timingSafeEqual.
      rewrite <- Esig, flip_byte_length, Nat.eqb_refl by lia.
      rewrite buffer_eqb_neq; [reflexivity|].
      intros Heq. symmetry in Heq. revert Heq.
      apply flip_byte_neq; [lia|assumption].
    + (* the ciphertext *)
      rewrite flip_byte_app_r in * by lia.
      rewrite nth_app_skip in Hb by lia.
      specialize (Hsep Hge').
      rewrite ?flip_byte_app_r in Hsep by lia. rewrite !Hskip in Hsep.
      destruct Hsep as (Hlen' & Hneq').
      unfold hmac_contract in Hlen'.
      assert (Hi' : (i - List.length magic - List.length ver
                     - List.length salt - List.length iv - List.length tag
                     - List.length sig < List.length enc)%nat) by lia.
      subst magic ver.
      rewrite validateKeyFile_try_layout; try assumption.
      * rewrite <- Ehk.
        unfold CryptoService.verifyHMAC, CryptoService.generateHMAC,
          CryptoService.timingSafeEqual.
        rewrite <- Esig in Hneq'.
        rewrite Hlen'. rewrite Hmac in Hneq' |- *. cbn [Nat.eqb].
        rewrite buffer_eqb_neq by assumption. reflexivity.
      * intros Hnil.
        pose proof (flip_byte_length _ b _ Hi') as Hl.
        rewrite Hnil in Hl. cbn in Hl. lia.
Qed.

End Tampering.

(** ** The session collection *)

Lemma existsb_eqb_In (x : string) (l : list string) :
  existsb (String.eqb x) l = true <-> In x l.
Proof.
  rewrite existsb_exists. split.
  - intros (y & Hy & Heq). apply String.eqb_eq in Heq. now subst.
  - intros Hx. exists x. split; [assumption|apply String.eqb_refl].
Qed.

Lemma all_different_NoDup (l : list string) :
  all_different l = true <-> NoDup l.
Proof.
  induction l as [|x l IH]; cbn [all_different].
  - split; [constructor|reflexivity].
  - rewrite andb_true_iff, negb_true_iff, IH. split.
    + intros (Hx & Hl). constructor; [|assumption].
      intros Hin. apply existsb_eqb_In in Hin. congruence.
    + intros H. inversion H as [|? ? Hx Hl]; subst. split; [|assumption].
      destruct (existsb (String.eqb x) l) eqn:E; [|reflexivity].
      apply existsb_eqb_In in E. contradiction.
Qed.

Lemma field_in_filter (field : Session.t -> string) (keep : Session.t -> bool)
  (c : Session.Collection) (v : string) :
  In v (map field (filter keep c)) -> In v (map field c).
Proof.
  rewrite !in_map_iff. intros (s & Hv & Hs).
  apply filter_In in Hs as (Hs & _). now exists s.
Qed.

(** Records kept by a query differ in a field in which all records
    differ. *)
Lemma NoDup_map_filter (field : Session.t -> string)
  (keep : Session.t -> bool) (c : Session.Collection) :
  NoDup (map field c) -> NoDup (map field (filter keep c)).
Proof.
  induction c as [|s c IH]; cbn [map filter]; [trivial|].
  rewrite NoDup_cons_iff. intros (Hfresh & Hrest).
  destruct (keep s); [|now apply IH].
  cbn [map]. apply NoDup_cons; [|now apply IH].
  intros Hin. apply Hfresh. now apply field_in_filter in Hin.
Qed.

(** Two records of a collection with the same [_id] are one record. *)
Lemma same_id_same_record (c : Session.Collection) (a b : Session.t) :
  NoDup (map Session._id c) -> In a c -> In b c ->
  Session._id a = Session._id b -> a = b.
Proof.
  induction c as [|s c IH]; cbn [map]; [contradiction|].
  rewrite NoDup_cons_iff. intros (Hfresh & Hrest) Ha Hb Hid.
  destruct Ha as [-> | Ha], Hb as [-> | Hb]; try reflexivity.
  - exfalso. apply Hfresh. rewrite Hid. now apply in_map.
  - exfalso. apply Hfresh. rewrite <- Hid. now apply in_map.
  - now apply IH.
Qed.

Lemma map_id_save (s : Session.t) (c : Session.Collection) :
  map Session._id (Session.save s c) = map Session._id c.
Proof.
  unfold Session.save. rewrite map_map. apply map_ext.
  intros x. destruct (String.eqb (Session._id x) (Session._id s)) eqn:E;
    [|reflexivity].
  apply String.eqb_eq in E. now symmetry.
Qed.

Lemma filter_active_own (userId : string) (now : Z) (c : Session.Collection) :
  forallb (fun s => now <? Session.expiresAt s)
    (filter (own_active userId) c) = true ->
  filter (Session.active_for_user userId now) c
  = filter (own_active userId) c.
Proof.
  induction c as [|x c IH]; cbn [filter]; [reflexivity|].
  unfold Session.active_for_user at 1. fold (own_active userId x).
  destruct (own_active userId x) eqn:E; cbn [andb forallb].
  - intros H. apply andb_true_iff in H as (Hx & Hc).
    rewrite Hx, orb_true_r. f_equal. now apply IH.
  - now apply IH.
Qed.

Lemma first_by_createdAt_spec (l : list Session.t) :
  l <> [] ->
  exists o, Session.first_by_createdAt l = Some o /\ In o l
            /\ forall s, In s l -> Session.createdAt o <= Session.createdAt s.
Proof.
  induction l as [|x l IH]; [congruence|]. intros _.
  cbn [Session.first_by_createdAt].
  destruct l as [|y l'].
  - exists x. cbn. repeat split; [now left|].
    intros s [<- | []]. lia.
  - destruct IH as (o & -> & Ho & Hmin); [discriminate|].
    destruct (Z.leb_spec (Session.createdAt x) (Session.createdAt o)).
    + exists x. repeat split; [now left|].
      intros s [<- | Hs]; [lia|]. specialize (Hmin s Hs). lia.
    + exists o. repeat split; [now right|].
      intros s [<- | Hs]; [lia|]. now apply Hmin.
Qed.

Lemma filter_own_save_terminated (userId : string) (now : Z)
  (r : Session.Reason) (o : Session.t) (c : Session.Collection) :
  filter (own_active userId) (Session.save (Session.terminate now r o) c)
  = filter (fun s => negb (String.eqb (Session._id s) (Session._id o)))
      (filter (own_active userId) c).
Proof.
  induction c as [|x c IH]; [reflexivity|].
  cbn [Session.save map filter].
  fold (Session.save (Session.terminate now r o) c).
  cbn [Session.terminate Session._id].
  destruct (String.eqb (Session._id x) (Session._id o)) eqn:E.
  - replace (own_active userId (Session.terminate now r o)) with false
      by (unfold own_active; cbn; now rewrite andb_false_r).
    rewrite IH. destruct (own_active userId x); [|reflexivity].
    cbn [filter]. now rewrite E.
  - rewrite IH. destruct (own_active userId x); [|reflexivity].
    cbn [filter]. now rewrite E.
Qed.

Lemma length_filter_without (o : Session.t) (l : list Session.t) :
  NoDup (map Session._id l) -> In o l ->
  S (List.length
       (filter (fun s => negb (String.eqb (Session._id s) (Session._id o))) l))
  = List.length l.
Proof.
  induction l as [|x l IH]; [contradiction|].
  cbn [map]. intros H Hin. inversion H as [|? ? Hx Hl]; subst.
  cbn [filter].
  destruct (String.eqb (Session._id x) (Session._id o)) eqn:E; cbn [negb].
  - apply String.eqb_eq in E. cbn [List.length]. f_equal.
    rewrite <- (filter_ext_in (fun _ => true)).
    + clear. induction l as [|y l IH]; [reflexivity|]. cbn. now rewrite IH.
    + intros y Hy. symmetry. apply negb_true_iff, String.eqb_neq.
      intros Heq. apply Hx. rewrite E, <- Heq. now apply in_map.
  - destruct Hin as [-> | Hin]; [now rewrite String.eqb_refl in E|].
    cbn [List.length]. f_equal. now apply IH.
Qed.


(** ** The device limit *)

Lemma device_slots_ok_spec (userId : string) (now limit : Z)
  (c : Session.Collection) :
  device_slots_ok userId now limit c = true <->
  NoDup (map Session._id c)
  /\ forallb (fun s => now <? Session.expiresAt s)
       (filter (own_active userId) c) = true
  /\ NoDup (map Session.deviceFingerprint (filter (own_active userId) c))
  /\ Z.of_nat (List.length (filter (own_active userId) c)) <= limit.
Proof.
  unfold device_slots_ok.
  rewrite !andb_true_iff, !all_different_NoDup, Z.leb_le. tauto.
Qed.

Lemma new_device_spec (userId deviceFingerprint : string)
  (c : Session.Collection) :
  new_device userId deviceFingerprint c = true <->
  ~ In deviceFingerprint
      (map Session.deviceFingerprint (filter (own_active userId) c)).
Proof.
  unfold new_device. rewrite negb_true_iff, <- existsb_eqb_In.
  destruct (existsb _ _); split; congruence.
Qed.

Lemma active_count_own (userId : string) (now limit : Z)
  (c : Session.Collection) :
  device_slots_ok userId now limit c = true ->
  active_count userId now c
  = Z.of_nat (List.length (filter (own_active userId) c)).
Proof.
  intros H. apply device_slots_ok_spec in H as (_ & Hexp & _).
  unfold active_count, Session.getActiveSessionsForUser.
  now rewrite filter_active_own.
Qed.

Lemma forallb_filter_keep {A : Type} (p q : A -> bool) (l : list A) :
  forallb p l = true -> forallb p (filter q l) = true.
Proof.
  rewrite !forallb_forall. intros H x Hx. apply H.
  now apply filter_In in Hx.
Qed.

Lemma existingSession_new_device (userId deviceFingerprint : string) (now : Z)
  (c : Session.Collection) :
  new_device userId deviceFingerprint c = true ->
  AuthController.existingSession userId deviceFingerprint now c = None.
Proof.
  intros Hnew. apply new_device_spec in Hnew.
  unfold AuthController.existingSession.
  destruct (find _ c) as [s|] eqn:E; [|reflexivity].
  apply find_some in E as (Hin & Hp).
  apply andb_true_iff in Hp as (Hp & _).
  apply andb_true_iff in Hp as (Hp & Hact).
  apply andb_true_iff in Hp as (Huser & Hfp).
  exfalso. apply Hnew. apply String.eqb_eq in Hfp. rewrite <- Hfp.
  apply in_map, filter_In. split; [assumption|].
  unfold own_active. now rewrite Huser, Hact.
Qed.

(** Making room keeps the slots in order and leaves one free. *)
Lemma check_device_limit_room (user : User.t) (fp : string) (now : Z)
  (c : Session.Collection) :
  let u := User._id user in
  let N := User.deviceLimit user in
  let c1 := AuthController.check_device_limit user fp now c in
  1 <= N ->
  device_slots_ok u now N c = true ->
  new_device u fp c = true ->
  device_slots_ok u now (N - 1) c1 = true
  /\ new_device u fp c1 = true
  /\ ((active_count u now c < N /\ c1 = c)
      \/ (active_count u now c = N
          /\ exists o,
               In o c /\ own_active u o = true
               /\ (forall s, In s c -> own_active u s = true ->
                             Session.createdAt o <= Session.createdAt s)
               /\ c1 = Session.save
                         (Session.terminate now Session.device_limit o) c
               /\ (forall s, In s c -> s <> o -> In s c1)
               /\ active_count u now c1 = N - 1)).
Proof.
  intros u N c1 HN Hok Hnew.
  pose proof (active_count_own _ _ _ _ Hok) as Hcount.
  pose proof Hok as Hok'.
  apply device_slots_ok_spec in Hok' as (Hids & Hexp & Hfps & Hlen).
  assert (Hdev : List.length (Session.countActiveDevices u now c)
                 = List.length (filter (own_active u) c)).
  { unfold Session.countActiveDevices, Session.distinct.
    rewrite filter_active_own by assumption.
    rewrite nodup_fixed_point by assumption. apply length_map. }
  subst c1. unfold AuthController.check_device_limit.
  fold u N. rewrite Hdev.
  destruct (Z.geb_spec (Z.of_nat (List.length (filter (own_active u) c))) N)
    as [Hfull | Hfree].
  - rewrite existingSession_new_device by assumption.
    unfold Session.terminateOldestSession. fold (own_active u).
    destruct (first_by_createdAt_spec (filter (own_active u) c))
      as (o & -> & Ho & Hmin).
    { intros Hnil. rewrite Hnil in Hfull. cbn in Hfull. lia. }
    cbn [snd].
    set (c1 := Session.save (Session.terminate now Session.device_limit o) c).
    assert (Hown1 : filter (own_active u) c1
                    = filter (fun s => negb (String.eqb (Session._id s)
                                                        (Session._id o)))
                        (filter (own_active u) c))
      by apply filter_own_save_terminated.
    assert (Hlen1 : S (List.length (filter (own_active u) c1))
                    = List.length (filter (own_active u) c)).
    { rewrite Hown1. apply length_filter_without; [|assumption].
      now apply NoDup_map_filter. }
    assert (Hok1 : device_slots_ok u now (N - 1) c1 = true).
    { apply device_slots_ok_spec. repeat split.
      - unfold c1. now rewrite map_id_save.
      - rewrite Hown1. now apply forallb_filter_keep.
      - rewrite Hown1. now apply NoDup_map_filter.
      - lia. }
    split; [assumption|]. split.
    { apply new_device_spec. apply new_device_spec in Hnew.
      intros Hin. apply Hnew. rewrite Hown1 in Hin.
      apply in_map_iff in Hin as (s & Hs & Hin).
      apply filter_In in Hin as (Hin & _). apply in_map_iff. now exists s. }
    right. split; [lia|]. exists o.
    apply filter_In in Ho as (Hoc & Hoo).
    repeat split; try assumption.
    + intros s Hs Hso. apply Hmin. now apply filter_In.
    + intros s Hs Hneq. unfold c1, Session.save. apply in_map_iff.
      exists s. split; [|assumption].
      cbn [Session.terminate Session._id].
      destruct (String.eqb (Session._id s) (Session._id o)) eqn:E;
        [|reflexivity].
      exfalso. apply Hneq. apply String.eqb_eq in E.
      now apply (same_id_same_record c).
    + rewrite (active_count_own _ _ _ _ Hok1). lia.
  - split.
    { apply device_slots_ok_spec. repeat split; try assumption. lia. }
    split; [assumption|]. left. split; [lia|reflexivity].
Qed.

Lemma NoDup_snoc (l : list string) (x : string) :
  NoDup l -> ~ In x l -> NoDup (l ++ [x]).
Proof.
  intros Hl Hx. apply NoDup_app; [assumption|repeat constructor; intros []|].
  intros a Ha [<- | []]. contradiction.
Qed.

Section DeviceLimit.
Context {RT : NodeRuntime}.

(** Creating the record into a collection with a free slot. *)
Lemma create_after_room (user : User.t) (fp : string) (now : Z)
  (d : AuthController.LoginDraw) (req : AuthController.LoginRequest)
  (c1 c2 : Session.Collection) (s : Session.t) :
  let u := User._id user in
  let N := User.deviceLimit user in
  device_slots_ok u now (N - 1) c1 = true ->
  new_device u fp c1 = true ->
  Session.create now (AuthController.draw_session_id d)
    (AuthController.new_session user fp now d req) c1 = Some (s, c2) ->
  c2 = c1 ++ [s]
  /\ Session.isActive s = true
  /\ Session.user s = u
  /\ Session.deviceFingerprint s = fp
  /\ Session.createdAt s = now
  /\ Session.expiresAt s = now + 24 * 60 * 60 * 1000
  /\ active_count u now c2 = active_count u now c1 + 1
  /\ device_slots_ok u now N c2 = true.
Proof.
  intros u N Hok Hnew Hcreate.
  pose proof (active_count_own _ _ _ _ Hok) as Hcount1.
  apply device_slots_ok_spec in Hok as (Hids & Hexp & Hfps & Hlen).
  apply new_device_spec in Hnew.
  unfold Session.create in Hcreate.
  destruct (_ || _) eqn:Hcheck in Hcreate; [discriminate|].
  apply orb_false_iff in Hcheck as (_ & Hid).
  injection Hcreate as <- <-.
  set (s := {| Session._id := AuthController.draw_session_id d |}).
  assert (Hown : filter (own_active u) (c1 ++ [s])
                 = filter (own_active u) c1 ++ [s]).
  { rewrite filter_app. f_equal. cbn [filter].
    replace (own_active u s) with true; [reflexivity|].
    unfold own_active, s, u. cbn. now rewrite String.eqb_refl. }
  assert (Hok2 : device_slots_ok u now N (c1 ++ [s]) = true).
  { apply device_slots_ok_spec. rewrite Hown. repeat split.
    - rewrite map_app. apply NoDup_snoc; [assumption|].
      cbn. intros Hin. apply in_map_iff in Hin as (x & Hx & Hin).
      assert (existsb (fun s0 => String.eqb (Session._id s0)
                                   (AuthController.draw_session_id d)) c1
              = true) as Habs; [|congruence].
      apply existsb_exists. exists x. split; [assumption|].
      now apply String.eqb_eq.
    - rewrite forallb_app, Hexp. cbn. rewrite andb_true_r.
      apply Z.ltb_lt. lia.
    - rewrite map_app. now apply NoDup_snoc.
    - rewrite length_app. cbn [List.length]. lia. }
  repeat split; try assumption.
  rewrite (active_count_own _ _ _ _ Hok2), Hcount1, Hown, length_app.
  cbn [List.length]. lia.
Qed.

(** C1, as amended.  Take a principal with device limit [N >= 1] whose
    records with the active flag are unexpired, sit on pairwise different
    devices and are at most [N], and an admission from a device without an
    active record.  Then at most [N] sessions are active before the
    admission, once room has been made, and after the record is created.
    With fewer than [N] nothing is evicted; with [N] exactly one record is
    terminated before the new one is created: an active one of least
    creation time, with reason [device_limit].  The new record is appended
    and the state again satisfies the assumptions. *)
Theorem device_limit_admission (user : User.t) (fp : string) (now : Z)
  (d : AuthController.LoginDraw) (req : AuthController.LoginRequest)
  (c : Session.Collection) :
  let u := User._id user in
  let N := User.deviceLimit user in
  let c1 := AuthController.check_device_limit user fp now c in
  let created :=
    Session.create now (AuthController.draw_session_id d)
      (AuthController.new_session user fp now d req) c1 in
  1 <= N ->
  device_slots_ok u now N c = true ->
  new_device u fp c = true ->
  active_count u now c <= N
  /\ active_count u now c1 <= N
  /\ (active_count u now c < N -> c1 = c)
  /\ (active_count u now c = N ->
      exists o,
        In o c /\ own_active u o = true
        /\ (forall s, In s c -> own_active u s = true ->
                      Session.createdAt o <= Session.createdAt s)
        /\ c1 = Session.save (Session.terminate now Session.device_limit o) c
        /\ Session.terminatedReason
             (Session.terminate now Session.device_limit o)
           = Some Session.device_limit
        /\ (forall s, In s c -> s <> o -> In s c1)
        /\ active_count u now c1 = N - 1)
  /\ (forall s c2,
        created = Some (s, c2) ->
        c2 = c1 ++ [s]
        /\ Session.deviceFingerprint s = fp
        /\ active_count u now c2 = active_count u now c1 + 1
        /\ active_count u now c2 <= N
        /\ device_slots_ok u now N c2 = true).
Proof.
  intros u N c1 created HN Hok Hnew.
  destruct (check_device_limit_room user fp now c HN Hok Hnew)
    as (Hok1 & Hnew1 & Hcases).
  fold u N c1 in Hok1, Hnew1, Hcases.
  pose proof (active_count_own _ _ _ _ Hok) as Hcount.
  pose proof (active_count_own _ _ _ _ Hok1) as Hcount1.
  pose proof Hok as Hlen.
  apply device_slots_ok_spec in Hlen as (_ & _ & _ & Hlen).
  pose proof Hok1 as Hlen1.
  apply device_slots_ok_spec in Hlen1 as (_ & _ & _ & Hlen1).
  split; [lia|]. split; [lia|]. split; [|split].
  - intros Hlt. destruct Hcases as [(_ & ->) | (Heq & _)]; [reflexivity|lia].
  - intros Heq. destruct Hcases as [(Hlt & _) | (_ & o & H1 & H2 & H3 & H4 & H5 & H6)];
      [lia|].
    exists o. repeat split; assumption.
  - intros s c2 Hcreate.
    destruct (create_after_room user fp now d req c1 c2 s Hok1 Hnew1 Hcreate)
      as (H1 & _ & _ & H4 & _ & _ & H6 & H7).
    fold u in H6. fold u N in H7.
    repeat split; try assumption. lia.
Qed.

(** ** Runs of admissions *)

Lemma device_slots_ok_earlier (userId : string) (now later limit : Z)
  (c : Session.Collection) :
  now <= later ->
  device_slots_ok userId later limit c = true ->
  device_slots_ok userId now limit c = true.
Proof.
  intros Hle H. apply device_slots_ok_spec in H as (Hids & Hexp & Hfps & Hlen).
  apply device_slots_ok_spec. repeat split; try assumption.
  rewrite forallb_forall in *. intros s Hs. specialize (Hexp s Hs).
  apply Z.ltb_lt in Hexp. apply Z.ltb_lt. lia.
Qed.

Lemma own_active_after_room (user : User.t) (fp : string) (now : Z)
  (c : Session.Collection) (s : Session.t) :
  In s (filter (own_active (User._id user))
          (AuthController.check_device_limit user fp now c)) ->
  In s (filter (own_active (User._id user)) c).
Proof.
  unfold AuthController.check_device_limit.
  destruct (_ >=? _); [|trivial].
  destruct (AuthController.existingSession _ _ _ _); [trivial|].
  unfold Session.terminateOldestSession.
  destruct (Session.first_by_createdAt _) as [o|]; [|trivial].
  cbn [snd]. rewrite filter_own_save_terminated. intros H.
  now apply filter_In in H.
Qed.

(** One admission from a new device, seen from a later time [horizon] at
    which the new record is still unexpired. *)
Lemma admission_keeps_slots (user : User.t) (now horizon : Z)
  (d : AuthController.LoginDraw) (req : AuthController.LoginRequest)
  (c : Session.Collection) :
  let u := User._id user in
  let N := User.deviceLimit user in
  1 <= N ->
  now <= horizon < now + 24 * 60 * 60 * 1000 ->
  device_slots_ok u horizon N c = true ->
  new_device u (request_fingerprint req) c = true ->
  device_slots_ok u horizon N (admission user now d req c) = true
  /\ forall fp', fp' <> request_fingerprint req ->
                 new_device u fp' c = true ->
                 new_device u fp' (admission user now d req c) = true.
Proof.
  intros u N HN Hwin Hok Hnew.
  pose proof (device_slots_ok_earlier u now horizon N c (proj1 Hwin) Hok)
    as Hok0.
  destruct (check_device_limit_room user (request_fingerprint req) now c
              HN Hok0 Hnew) as (Hok1 & Hnew1 & _).
  fold u N in Hok1, Hnew1.
  pose proof (own_active_after_room user (request_fingerprint req) now c)
    as Hsub.
  fold u in Hsub.
  apply device_slots_ok_spec in Hok as (_ & Hexp & _).
  rewrite forallb_forall in Hexp.
  unfold admission.
  set (c1 := AuthController.check_device_limit user _ now c) in *.
  destruct (Session.create _ _ _ c1) as [[s c2]|] eqn:Hcreate.
  - destruct (create_after_room user (request_fingerprint req) now d req
                c1 c2 s Hok1 Hnew1 Hcreate)
      as (-> & Hact & Huser & Hfp & _ & Hexps & _ & Hok2).
    fold u N in Hok2.
    assert (Hown : filter (own_active u) (c1 ++ [s])
                   = filter (own_active u) c1 ++ [s]).
    { rewrite filter_app. f_equal. cbn [filter].
      unfold own_active. now rewrite Huser, String.eqb_refl, Hact. }
    split.
    + apply device_slots_ok_spec in Hok2 as (Hids & _ & Hfps & Hlen).
      apply device_slots_ok_spec. repeat split; try assumption.
      rewrite Hown, forallb_app. apply andb_true_iff. split.
      * apply forallb_forall. intros x Hx. apply Hexp. now apply Hsub.
      * cbn. rewrite andb_true_r. apply Z.ltb_lt. lia.
    + intros fp' Hneq Hfree. apply new_device_spec.
      apply new_device_spec in Hfree. rewrite Hown, map_app.
      intros Hin. apply in_app_or in Hin as [Hin | [Hin | []]].
      * apply Hfree. apply in_map_iff in Hin as (x & Hx & Hin).
        apply in_map_iff. exists x. split; [assumption|now apply Hsub].
      * congruence.
  - split.
    + apply device_slots_ok_spec in Hok1 as (Hids & _ & Hfps & Hlen).
      apply device_slots_ok_spec. repeat split; try assumption; [|lia].
      apply forallb_forall. intros x Hx. apply Hexp. now apply Hsub.
    + intros fp' _ Hfree. apply new_device_spec.
      apply new_device_spec in Hfree.
      intros Hin. apply Hfree. apply in_map_iff in Hin as (x & Hx & Hin).
      apply in_map_iff. exists x. split; [assumption|now apply Hsub].
Qed.

(** Logins of one principal from pairwise different devices, all within 24
    hours before [horizon], keep the slots in order: in particular at most
    [N] sessions are active after each of them. *)
Lemma admissions_keep_slots (user : User.t) (horizon : Z)
  (logins : list (Z * AuthController.LoginDraw * AuthController.LoginRequest))
  (c : Session.Collection) :
  let u := User._id user in
  let N := User.deviceLimit user in
  1 <= N ->
  Forall (fun l => fst (fst l) <= horizon < fst (fst l) + 24 * 60 * 60 * 1000)
    logins ->
  NoDup (map (fun l => request_fingerprint (snd l)) logins) ->
  Forall (fun l => new_device u (request_fingerprint (snd l)) c = true)
    logins ->
  device_slots_ok u horizon N c = true ->
  device_slots_ok u horizon N (admissions user logins c) = true
  /\ active_count u horizon (admissions user logins c) <= N.
Proof.
  intros u N HN. revert c.
  induction logins as [|[[now d] req] rest IH]; intros c Hwin Hfps Hfree Hok.
  - cbn [admissions]. split; [assumption|].
    rewrite (active_count_own _ _ _ _ Hok).
    now apply device_slots_ok_spec in Hok.
  - cbn [admissions].
    apply Forall_cons_iff in Hwin as (Hnow & Hwin).
    apply Forall_cons_iff in Hfree as (Hnew & Hfree).
    cbn [map fst snd] in *. apply NoDup_cons_iff in Hfps as (Hfresh & Hfps).
    destruct (admission_keeps_slots user now horizon d req c HN Hnow Hok Hnew)
      as (Hok' & Hkeep).
    apply IH; try assumption.
    rewrite Forall_forall in *. intros l Hl. apply Hkeep; [|now apply Hfree].
    intros Heq. apply Hfresh. rewrite <- Heq.
    now apply (in_map (fun l => request_fingerprint (snd l))).
Qed.

(** The sessions a login leaves behind are those of [admission], once the key
    file is accepted and its principal is found. *)
Lemma loginWithKeyFile_admits (now : Z) (d : AuthController.LoginDraw)
  (req : AuthController.LoginRequest) (db : AuthController.Db)
  (keyFile : string) (keyData : KeyFilePayload) (user : User.t) :
  AuthController.req_keyFile req = Some keyFile ->
  keyFile <> EmptyString ->
  CryptoService.validateKeyFile now (base64_decode keyFile)
  = CryptoService.Valid keyData ->
  User.findByKeyFileId (kp_keyId keyData) (AuthController.users db)
  = Some user ->
  AuthController.sessions
    (snd (AuthController.loginWithKeyFile now d req db))
  = admission user now d req (AuthController.sessions db).
Proof.
  intros Hreq Hne Hvalid Hfind.
  unfold AuthController.loginWithKeyFile, admission, request_fingerprint.
  apply String.eqb_neq in Hne. rewrite Hreq, Hne, Hvalid, Hfind.
  apply find_some in Hfind as (_ & Hp).
  apply andb_true_iff in Hp as (_ & Hact). rewrite Hact. cbn [negb].
  destruct (Session.create _ _ _ _) as [[s c2]|]; reflexivity.
Qed.

End DeviceLimit.

(** ** Bearer validation *)

Lemma substring_all (s : string) : substring 0 (String.length s) s = s.
Proof. induction s as [|a s IH]; cbn; [reflexivity|now rewrite IH]. Qed.

Lemma strip_bearer_token (token : string) :
  AuthMiddleware.strip_bearer (String.append "Bearer " token) = token.
Proof.
  unfold AuthMiddleware.strip_bearer. cbn. rewrite Nat.sub_0_r.
  apply substring_all.
Qed.

Lemma prefix_bearer_nonempty (h : string) :
  String.prefix "Bearer " h = true -> String.eqb h EmptyString = false.
Proof. destruct h; [discriminate|reflexivity]. Qed.

Section Bearer.
Context {RT : NodeRuntime}.

Lemma find_live_session_spec (token : string) (now : Z)
  (c : Session.Collection) (s : Session.t) :
  AuthMiddleware.find_live_session token now c = Some s ->
  In s c /\ Session.sessionToken s = token /\ Session.isActive s = true
  /\ now < Session.expiresAt s.
Proof.
  intros H. apply find_some in H as (Hin & Hp).
  apply andb_true_iff in Hp as (Hp & Hexp).
  apply andb_true_iff in Hp as (Htok & Hact).
  apply String.eqb_eq in Htok. apply Z.ltb_lt in Hexp. now repeat split.
Qed.

Lemma find_live_session_none (token : string) (now : Z)
  (c : Session.Collection) :
  (forall s, In s c -> Session.sessionToken s = token ->
             Session.isActive s = false \/ Session.expiresAt s <= now) ->
  AuthMiddleware.find_live_session token now c = None.
Proof.
  intros H. destruct (AuthMiddleware.find_live_session token now c) as [s|] eqn:E;
    [|reflexivity].
  apply find_live_session_spec in E as (Hin & Htok & Hact & Hexp).
  destruct (H s Hin Htok); [congruence|lia].
Qed.

Lemma protect_without_live_record (now : Z) (authHeader : string)
  (c : Session.Collection) (decoded : TokenPayload) :
  String.prefix "Bearer " authHeader = true ->
  CryptoService.validateSessionToken now
    (AuthMiddleware.strip_bearer authHeader) = Some decoded ->
  AuthMiddleware.find_live_session
    (AuthMiddleware.strip_bearer authHeader) now c = None ->
  AuthMiddleware.protect now (Some authHeader) c
  = (AuthMiddleware.Respond
       {| status := 401;
          body := ErrorBody "Session expired or invalidated" |}, c).
Proof.
  intros Hprefix Hvalid Hnone.
  unfold AuthMiddleware.protect.
  rewrite (prefix_bearer_nonempty _ Hprefix), Hprefix. cbn [negb orb].
  now rewrite Hvalid, Hnone.
Qed.

(** C4. On a request that carries a bearer token, [protect] answers 401
    when the token fails [validateSessionToken], whatever the session
    records say; it answers 401 when the token validates but no record
    with that token is active and unexpired; and it lets a request pass
    only if the token validates and such a record exists. *)
Theorem protect_requires_both (now : Z) (authHeader : string)
  (c : Session.Collection) :
  String.prefix "Bearer " authHeader = true ->
  let token := AuthMiddleware.strip_bearer authHeader in
  (CryptoService.validateSessionToken now token = None ->
   AuthMiddleware.protect now (Some authHeader) c
   = (AuthMiddleware.Respond
        {| status := 401; body := ErrorBody "Invalid or expired token" |}, c))
  /\ (forall decoded,
        CryptoService.validateSessionToken now token = Some decoded ->
        (forall s, In s c -> Session.sessionToken s = token ->
                   Session.isActive s = false \/ Session.expiresAt s <= now) ->
        AuthMiddleware.protect now (Some authHeader) c
        = (AuthMiddleware.Respond
             {| status := 401;
                body := ErrorBody "Session expired or invalidated" |}, c))
  /\ (forall user session c',
        AuthMiddleware.protect now (Some authHeader) c
        = (AuthMiddleware.Next user session, c') ->
        CryptoService.validateSessionToken now token = Some user
        /\ exists s,
             In s c /\ Session.sessionToken s = token
             /\ Session.isActive s = true /\ now < Session.expiresAt s
             /\ session = Session.updateActivity now s
             /\ c' = Session.save session c).
Proof.
  intros Hprefix token.
  pose proof (prefix_bearer_nonempty _ Hprefix) as Hne.
  unfold AuthMiddleware.protect. rewrite Hne, Hprefix. cbn [negb orb].
  fold token. split; [|split].
  - intros ->. reflexivity.
  - intros decoded -> Hnone.
    now rewrite (find_live_session_none token now c Hnone).
  - intros user session c'.
    destruct (CryptoService.validateSessionToken now token) as [decoded|];
      [|discriminate].
    destruct (AuthMiddleware.find_live_session token now c) as [s|] eqn:E;
      [|discriminate].
    intros Hnext. injection Hnext as <- <- <-.
    apply find_live_session_spec in E as (Hin & Htok & Hact & Hexp).
    split; [reflexivity|]. exists s. now repeat split.
Qed.

(** C10. When every record that carries the request's token has an
    [expiresAt] that is not after the current time, the live lookup of
    [protect] finds nothing and the request is answered 401 and the
    collection is left alone, whatever the [neverExpires] flag of the
    records; for a token that validates, the answer is "Session expired or
    invalidated". *)
Theorem protect_rejects_past_expiresAt (now : Z) (authHeader : string)
  (c : Session.Collection) :
  let token := AuthMiddleware.strip_bearer authHeader in
  (forall s, In s c -> Session.sessionToken s = token ->
             Session.expiresAt s <= now) ->
  AuthMiddleware.find_live_session token now c = None
  /\ (exists message,
        AuthMiddleware.protect now (Some authHeader) c
        = (AuthMiddleware.Respond
             {| status := 401; body := ErrorBody message |}, c))
  /\ (forall decoded,
        String.prefix "Bearer " authHeader = true ->
        CryptoService.validateSessionToken now token = Some decoded ->
        AuthMiddleware.protect now (Some authHeader) c
        = (AuthMiddleware.Respond
             {| status := 401;
                body := ErrorBody "Session expired or invalidated" |}, c)).
Proof.
  intros token Hpast.
  assert (Hnone : AuthMiddleware.find_live_session token now c = None).
  { apply find_live_session_none. intros s Hin Htok. right. now apply Hpast. }
  split; [assumption|]. split.
  - unfold AuthMiddleware.protect.
    destruct (_ || _); [eexists; reflexivity|].
    fold token.
    destruct (CryptoService.validateSessionToken now token);
      [rewrite Hnone|]; eexists; reflexivity.
  - intros decoded Hprefix Hvalid.
    now apply (protect_without_live_record now authHeader c decoded).
Qed.

End Bearer.

(** ** Login with a key file *)

Section Login.
Context {RT : NodeRuntime}.

Lemma findByKeyFileId_active (keyId : string) (users : list User.t)
  (user : User.t) :
  User.findByKeyFileId keyId users = Some user ->
  In user users /\ User.isActive user = true.
Proof.
  intros H. apply find_some in H as (Hin & Hp).
  apply andb_true_iff in Hp as (_ & Hact). now split.
Qed.

(** C6, as amended.  The failure modes of [validateKeyFile] carry their
    own messages: four different fixed ones for a file that is too small,
    has a bad magic, an unsupported version or a signature mismatch, and
    the message of the decipher's own error for a failed authentication;
    and [loginWithKeyFile] answers a failed validation with status 401 and
    that very message (the generic "Invalid key file" stands in only for
    an empty message), leaving the database alone. *)
Theorem keyfile_failure_surfaced (now : Z) (d : AuthController.LoginDraw)
  (req : AuthController.LoginRequest) (db : AuthController.Db)
  (keyFile : string) :
  AuthController.req_keyFile req = Some keyFile ->
  keyFile <> EmptyString ->
  let buf := base64_decode keyFile in
  let signed :=
    CryptoService.verifyHMAC (skipn 106 buf) (slice buf 74 106)
      (CryptoService.deriveKey (slice buf 10 42 ++ utf8 "hmac")) in
  (forall error,
     CryptoService.validateKeyFile now buf = CryptoService.Invalid error ->
     AuthController.loginWithKeyFile now d req db
     = (AuthController.error_response 401
          (if String.eqb error EmptyString then "Invalid key file" else error),
        db))
  /\ ((List.length buf < 107)%nat ->
      CryptoService.validateKeyFile now buf
      = CryptoService.Invalid "Invalid key file: Too small")
  /\ ((107 <= List.length buf)%nat ->
      slice buf 0 8 <> utf8 "ARECAKEY" ->
      CryptoService.validateKeyFile now buf
      = CryptoService.Invalid "Invalid key file: Bad magic")
  /\ ((107 <= List.length buf)%nat ->
      slice buf 0 8 = utf8 "ARECAKEY" ->
      readUInt16BE buf 8 <> 1 ->
      CryptoService.validateKeyFile now buf
      = CryptoService.Invalid "Invalid key file: Unsupported version")
  /\ ((107 <= List.length buf)%nat ->
      slice buf 0 8 = utf8 "ARECAKEY" ->
      readUInt16BE buf 8 = 1 ->
      signed = Return false ->
      CryptoService.validateKeyFile now buf
      = CryptoService.Invalid "Invalid key file: Signature mismatch")
  /\ (forall message,
        (107 <= List.length buf)%nat ->
        slice buf 0 8 = utf8 "ARECAKEY" ->
        readUInt16BE buf 8 = 1 ->
        signed = Return true ->
        CryptoService.decipher_gcm
          (CryptoService.deriveKey (slice buf 10 42))
          (slice buf 42 58) (slice buf 58 74) (skipn 106 buf)
        = Throw message ->
        CryptoService.validateKeyFile now buf
        = CryptoService.Invalid message)
  /\ NoDup ["Invalid key file: Too small"; "Invalid key file: Bad magic";
            "Invalid key file: Unsupported version";
            "Invalid key file: Signature mismatch"].
Proof.
  intros Hreq Hne buf signed.
  assert (Hk : String.eqb keyFile EmptyString = false)
    by now apply String.eqb_neq.
  assert (Hdiff : NoDup ["Invalid key file: Too small";
                         "Invalid key file: Bad magic";
                         "Invalid key file: Unsupported version";
                         "Invalid key file: Signature mismatch"])
    by (apply all_different_NoDup; reflexivity).
  split; [|unfold CryptoService.validateKeyFile;
           rewrite validateKeyFile_try_unfold; repeat split; try exact Hdiff].
  - intros error Hinvalid.
    unfold AuthController.loginWithKeyFile. rewrite Hreq, Hk.
    fold buf. rewrite Hinvalid. reflexivity.
  - intros Hlen. apply Nat.ltb_lt in Hlen. now rewrite Hlen.
  - intros Hlen Hmagic. apply Nat.ltb_ge in Hlen. rewrite Hlen.
    now rewrite (buffer_eqb_neq _ _ Hmagic).
  - intros Hlen Hmagic Hver. apply Nat.ltb_ge in Hlen.
    rewrite Hlen, Hmagic, buffer_eqb_refl.
    apply Z.eqb_neq in Hver. now rewrite Hver.
  - intros Hlen Hmagic Hver Hsig. apply Nat.ltb_ge in Hlen.
    rewrite Hlen, Hmagic, buffer_eqb_refl, Hver. cbn [throw_if negb bind Z.eqb].
    fold buf signed. now rewrite Hsig.
  - intros message Hlen Hmagic Hver Hsig Hdec. apply Nat.ltb_ge in Hlen.
    rewrite Hlen, Hmagic, buffer_eqb_refl, Hver. cbn [throw_if negb bind Z.eqb].
    fold buf signed. rewrite Hsig. cbn [throw_if negb bind].
    now rewrite Hdec.
Qed.

(** C7, on the code.  The record [loginWithKeyFile] creates on success
    holds the device fingerprint, the parsed device metadata with the
    network address of the request, and an expiry 24 hours after its
    creation; its never-expires flag is off for every role of the
    principal, superadmin included. *)
Theorem login_session_record (now : Z) (d : AuthController.LoginDraw)
  (req : AuthController.LoginRequest) (db : AuthController.Db)
  (resp : Response) (db' : AuthController.Db) :
  AuthController.loginWithKeyFile now d req db = (resp, db') ->
  status resp = 200 ->
  let fp :=
    CryptoService.generateDeviceFingerprint
      (or_value (AuthController.req_deviceInfo req)
         AuthController.no_deviceInfo) in
  exists (user : User.t) (s : Session.t),
    In user (AuthController.users db)
    /\ AuthController.sessions db'
       = AuthController.check_device_limit user fp now
           (AuthController.sessions db) ++ [s]
    /\ Session.user s = User._id user
    /\ Session.deviceFingerprint s = fp
    /\ Session.deviceInfo s
       = AuthController.with_ip
           (AuthController.parseDeviceInfo (AuthController.req_deviceInfo req))
           (AuthController.req_ip req)
    /\ Session.createdAt s = now
    /\ Session.expiresAt s = now + 24 * 60 * 60 * 1000
    /\ Session.isActive s = true
    /\ Session.neverExpires s = false.
Proof.
  intros Hlogin Hstatus fp. revert Hlogin Hstatus.
  unfold AuthController.loginWithKeyFile.
  destruct (AuthController.req_keyFile req) as [keyFile|];
    [|intros [= <- _]; discriminate].
  destruct (String.eqb keyFile EmptyString); [intros [= <- _]; discriminate|].
  destruct (CryptoService.validateKeyFile now (base64_decode keyFile))
    as [keyData|error]; [|intros [= <- _]; discriminate].
  destruct (User.findByKeyFileId (kp_keyId keyData) (AuthController.users db))
    as [user|] eqn:Hfind; [|intros [= <- _]; discriminate].
  apply findByKeyFileId_active in Hfind as (Hin & Hact).
  rewrite Hact. cbn [negb].
  fold fp.
  set (c1 := AuthController.check_device_limit user fp now _).
  unfold Session.create.
  destruct (_ || _); [intros [= <- _]; discriminate|].
  intros [= _ <-] _. cbn [AuthController.sessions].
  exists user. eexists. split; [exact Hin|].
  split; [reflexivity|]. cbn. repeat split.
Qed.

(** ** Termination *)

(** Terminating a second time overwrites the reason and the time of the
    first. *)
Lemma terminate_twice (now1 now2 : Z) (r1 r2 : Session.Reason)
  (s : Session.t) :
  Session.terminate now2 r2 (Session.terminate now1 r1 s)
  = Session.terminate now2 r2 s.
Proof. reflexivity. Qed.

(** C8, on the code.  The administrator's [terminateSession] on a record
    that was already terminated at [now1] for [r1] is not an error: it
    answers 200; but it stores the record with the new time [now2] and the
    reason [admin_action] in place of [now1] and [r1]. *)
Theorem terminateSession_overwrites (now1 now2 : Z) (r1 : Session.Reason)
  (role id : string) (s : Session.t) (c : Session.Collection) :
  AuthController.is_admin role = true ->
  Session.findById id c = Return (Some (Session.terminate now1 r1 s)) ->
  let terminated := Session.terminate now2 Session.admin_action s in
  AuthController.terminateSession now2 role id c
  = ({| status := 200; body := MessageBody "Session terminated" |},
     Session.save terminated c)
  /\ Session.isActive terminated = false
  /\ Session.terminatedAt terminated = Some now2
  /\ Session.terminatedReason terminated = Some Session.admin_action.
Proof.
  intros Hadmin Hfind terminated.
  unfold AuthController.terminateSession. rewrite Hadmin, Hfind.
  cbn [negb]. rewrite terminate_twice. repeat split.
Qed.

(** The sibling operations look only for records with the active flag, and
    leave a terminated record as it is. *)
Lemma logout_terminated (now : Z) (token : string) (c : Session.Collection) :
  (forall s, In s c -> Session.sessionToken s = token ->
             Session.isActive s = false) ->
  AuthController.logout now (Some token) c
  = ({| status := 200; body := MessageBody "Logged out successfully" |}, c).
Proof.
  intros H. unfold AuthController.logout.
  destruct (String.eqb token EmptyString); [reflexivity|].
  destruct (find _ c) as [s|] eqn:E; [|reflexivity].
  apply find_some in E as (Hin & Hp).
  apply andb_true_iff in Hp as (Htok & Hact).
  apply String.eqb_eq in Htok. rewrite (H s Hin Htok) in Hact. discriminate.
Qed.

Lemma terminateAllForUser_twice (userId : string) (r1 r2 : Session.Reason)
  (now1 now2 : Z) (c : Session.Collection) :
  Session.terminateAllForUser userId r2 now2
    (Session.terminateAllForUser userId r1 now1 c)
  = Session.terminateAllForUser userId r1 now1 c.
Proof.
  unfold Session.terminateAllForUser. rewrite map_map. apply map_ext.
  intros s. destruct (String.eqb (Session.user s) userId) eqn:Eu;
    destruct (Session.isActive s) eqn:Ea; cbn [andb].
  - cbn. now rewrite andb_false_r.
  - now rewrite Eu, Ea.
  - now rewrite Eu.
  - now rewrite Eu.
Qed.

End Login.

(** * Further properties *)

(** ** Session tokens *)

Section SessionTokens.
Context {RT : NodeRuntime}.

(** A minted token opens to its claims: the session data, the time of
    issue, the UUID drawn, the never-expires marker exactly for the role
    superadmin, and an expiry.  The expiry lies the given duration after
    the issue; without a duration it lies 100 years after the issue for a
    superadmin and 30 days after it for every other role, except a role
    that names a property every object inherits ([constructor],
    [toString], ...): the expiry of that one is a string and no time.  The
    token validates to its claims at every time that is not past its
    expiry, so at every time when the expiry is no time or the role is
    superadmin. *)
Theorem session_token_roundtrip (now now' : Z) (e : Entropy)
  (sessionData : SessionData) (expiresIn : option Z) :
  token_contracts now e sessionData expiresIn ->
  let role := sd_role sessionData in
  let token :=
    CryptoService.generateSessionToken now e sessionData expiresIn in
  exists claims : TokenPayload,
    CryptoService.open_session_token token = Return claims
    /\ tp_data claims = sessionData
    /\ tp_iat claims = now
    /\ tp_jti claims = randomUUID e
    /\ tp_neverExpires claims = String.eqb role "superadmin"
    /\ (forall ms : Z, expiresIn = Some ms -> tp_exp claims = ExpAt (now + ms))
    /\ (expiresIn = None -> role = "superadmin" ->
        tp_exp claims = ExpAt (now + 100 * 365 * 24 * 60 * 60 * 1000))
    /\ (expiresIn = None -> role <> "superadmin" ->
        ~ In role CryptoService.Object_prototype ->
        tp_exp claims = ExpAt (now + 30 * 24 * 60 * 60 * 1000))
    /\ (expiresIn = None -> In role CryptoService.Object_prototype ->
        tp_exp claims = ExpText now role)
    /\ (role = "superadmin"
        \/ (forall exp : Z, tp_exp claims = ExpAt exp -> now' <= exp) ->
        CryptoService.validateSessionToken now' token = Some claims).
Proof.
  intros HT role token.
  pose proof (open_generated_session_token _ _ _ _ HT) as Hopen.
  fold token in Hopen.
  exists (CryptoService.token_payload now (randomUUID e) sessionData expiresIn).
  split; [exact Hopen|]. do 4 (split; [reflexivity|]).
  split; [|split; [|split; [|split]]].
  - intros ms ->. reflexivity.
  - intros -> Hrole. cbn [CryptoService.token_payload tp_exp].
    fold role. now rewrite Hrole.
  - intros -> Hrole Hown. cbn [CryptoService.token_payload tp_exp].
    fold role. now rewrite (getSessionDuration_plain _ Hrole Hown).
  - intros -> Hin. cbn [CryptoService.token_payload tp_exp].
    fold role. now rewrite (getSessionDuration_inherited _ Hin).
  - intros Hlive.
    rewrite (validateSessionToken_opened now' token _ Hopen).
    destruct Hlive as [Hrole | Hlive].
    + cbn [CryptoService.token_payload tp_neverExpires]. fold role.
      now rewrite Hrole.
    + destruct (tp_exp _) as [exp|t property] eqn:Eexp.
      * cbn [CryptoService.exp_before].
        replace (exp <? now') with false; [now rewrite orb_true_r|].
        symmetry. apply Z.ltb_ge. now apply Hlive.
      * cbn [CryptoService.exp_before negb]. now rewrite orb_true_r.
Qed.

Lemma length_slice (buf : Buffer) (start stop : nat) :
  List.length (slice buf start stop)
  = Nat.min (stop - start) (List.length buf - start).
Proof. unfold slice. now rewrite length_firstn, length_skipn. Qed.

Lemma token_buffer_parts (iv tag enc : Buffer) :
  List.length iv = 16%nat -> List.length tag = 16%nat ->
  slice (iv ++ tag ++ enc) 0 16 = iv
  /\ slice (iv ++ tag ++ enc) 16 (16 + 16) = tag
  /\ skipn (16 + 16) (iv ++ tag ++ enc) = enc.
Proof.
  intros Hiv Htag. repeat split.
  - apply (slice_middle [] iv (tag ++ enc)); [reflexivity|exact Hiv].
  - apply (slice_middle iv tag enc); [exact Hiv|exact Htag].
  - rewrite app_assoc. apply skipn_prefix. rewrite length_app, Hiv, Htag.
    reflexivity.
Qed.

(** A token that decodes to fewer than 20 bytes is rejected: there is no
    IV, or the bytes left for the tag are fewer than any tag GCM knows. *)
Theorem short_session_token_rejected (now : Z) (token : string) :
  (List.length (base64url_decode token) < 20)%nat ->
  CryptoService.validateSessionToken now token = None.
Proof.
  intros Hlen.
  unfold CryptoService.validateSessionToken, CryptoService.open_session_token.
  set (buffer := base64url_decode token) in *.
  unfold CryptoService.decipher_gcm.
  destruct (slice buffer 0 CryptoService.IV_LENGTH); [reflexivity|].
  pose proof (length_slice buffer CryptoService.IV_LENGTH
                (CryptoService.IV_LENGTH + CryptoService.AUTH_TAG_LENGTH))
    as Htag.
  change CryptoService.IV_LENGTH with 16%nat in *.
  change CryptoService.AUTH_TAG_LENGTH with 16%nat in *.
  assert (Hsmall : (List.length (slice buffer 16 (16 + 16)) < 4)%nat) by lia.
  destruct (List.length (slice buffer 16 (16 + 16))) as [|[|[|[|n]]]];
    try reflexivity.
  lia.
Qed.

(** A minted token with one byte of its tag changed is rejected; so is one
    with a byte of its ciphertext changed, provided the GCM tag tells the
    two ciphertexts apart. *)
Theorem tampered_session_token_rejected (now now' : Z) (e : Entropy)
  (sessionData : SessionData) (expiresIn : option Z) (token' : string)
  (i : nat) (b : byte) :
  let iv := randomBytes e CryptoService.IV_LENGTH in
  let sealed :=
    CryptoService.cipher_gcm CryptoService.session_key iv
      (token_json (CryptoService.token_payload now (randomUUID e)
                     sessionData expiresIn)) in
  let buffer := iv ++ snd sealed ++ fst sealed in
  token_contracts now e sessionData expiresIn ->
  (16 <= i < List.length buffer)%nat ->
  b <> nth i buffer x00 ->
  base64url_decode token' = flip_byte i b buffer ->
  ((32 <= i)%nat ->
   let encrypted' := skipn 32 (flip_byte i b buffer) in
   List.length (gcm_tag CryptoService.session_key iv encrypted') = 16%nat
   /\ gcm_tag CryptoService.session_key iv encrypted' <> snd sealed) ->
  CryptoService.validateSessionToken now' token' = None.
Proof.
  intros iv sealed buffer (Hiv & _ & (_ & _ & Htag) & _) Hi Hb Hdec Hsep.
  unfold entropy_contract in Hiv.
  subst buffer sealed. cbn [CryptoService.cipher_gcm fst snd] in *.
  change CryptoService.IV_LENGTH with 16%nat in *.
  fold iv in Hiv, Htag.
  remember (gcm_ctr CryptoService.session_key iv
              (token_json (CryptoService.token_payload now (randomUUID e)
                             sessionData expiresIn))) as enc eqn:Eenc.
  remember (gcm_tag CryptoService.session_key iv enc) as tag eqn:Etag.
  unfold CryptoService.validateSessionToken, CryptoService.open_session_token.
  rewrite Hdec.
  change CryptoService.IV_LENGTH with 16%nat.
  change CryptoService.AUTH_TAG_LENGTH with 16%nat.
  rewrite !length_app in Hi.
  rewrite flip_byte_app_r in * by lia.
  rewrite nth_app_skip in Hb by lia.
  assert (Hnil : iv <> []) by (intros E0; rewrite E0 in Hiv; discriminate).
  destruct (Nat.ltb_spec i 32) as [Hlt | Hge].
  - rewrite flip_byte_app_l by lia.
    rewrite nth_app_keep in Hb by lia.
    set (tag' := flip_byte (i - List.length iv) b tag).
    assert (Htag' : List.length tag' = 16%nat)
      by (unfold tag'; rewrite flip_byte_length; lia).
    destruct (token_buffer_parts iv tag' enc Hiv Htag') as (-> & -> & ->).
    rewrite decipher_gcm_wrong_tag; rewrite <- ?Etag; try assumption.
    + reflexivity.
    + apply flip_byte_neq; [lia|assumption].
  - rewrite flip_byte_app_r in * by lia.
    specialize (Hsep Hge). cbn zeta in Hsep.
    set (enc' := flip_byte (i - List.length iv - List.length tag) b enc) in *.
    destruct (token_buffer_parts iv tag enc' Hiv Htag) as (-> & -> & Hskip).
    rewrite Hskip.
    change (16 + 16)%nat with 32%nat in Hskip. rewrite Hskip in Hsep.
    destruct Hsep as (Hlen' & Hneq').
    rewrite decipher_gcm_wrong_tag; try assumption; [reflexivity|].
    intros Heq. apply Hneq'. now symmetry.
Qed.

End SessionTokens.

(** ** The key-file format *)

Lemma Z_of_byte_low (b : byte) :
  (Z_of_byte b = 0 -> b = x00) /\ (Z_of_byte b = 1 -> b = x01)
  /\ 0 <= Z_of_byte b < 256.
Proof.
  destruct b; vm_compute; repeat split;
    first [reflexivity | discriminate | intros; discriminate].
Qed.

Lemma slice_head (x post : Buffer) (n : nat) :
  List.length x = n -> slice (x ++ post) 0 n = x.
Proof. intros H. apply (slice_middle [] x post 0 n); [reflexivity|lia]. Qed.

Section KeyFileFormat.
Context {RT : NodeRuntime}.

(** A generated key file is the magic, version 1, the salt and the IV that
    were drawn, 16 bytes of tag, 32 bytes of HMAC and a ciphertext as long
    as the JSON text: 106 bytes more than the text, so never below the
    minimum of 107. *)
Theorem generateKeyFile_shape (now : Z) (e : Entropy) (userData : UserData) :
  keyfile_contracts now e userData ->
  let file := CryptoService.generateKeyFile now e userData in
  let text :=
    keyfile_json (CryptoService.key_payload now (randomUUID e) userData) in
  List.length file = (106 + List.length text)%nat
  /\ (107 <= List.length file)%nat
  /\ slice file 0 8 = utf8 "ARECAKEY"
  /\ readUInt16BE file 8 = 1
  /\ slice file 10 42 = randomBytes e 32
  /\ slice file 42 58 = randomBytes e 16
  /\ List.length (slice file 58 74) = 16%nat
  /\ List.length (slice file 74 106) = 32%nat
  /\ List.length (skipn 106 file) = List.length text.
Proof.
  intros HC file text.
  destruct HC as (Hs & Hi & (Hne & _) & (_ & Hlen & Htag) & Hmac).
  unfold entropy_contract, hmac_contract in *.
  change CryptoService.SALT_LENGTH with 32%nat in *.
  change CryptoService.IV_LENGTH with 16%nat in *.
  fold text in Hne, Hlen, Htag, Hmac.
  assert (Htext : (1 <= List.length text)%nat).
  { destruct text; [congruence|cbn; lia]. }
  subst file. rewrite generateKeyFile_layout. fold text.
  remember (randomBytes e 32) as salt eqn:Esalt.
  remember (randomBytes e 16) as iv eqn:Eiv.
  remember (gcm_ctr (CryptoService.deriveKey salt) iv text) as enc eqn:Eenc.
  remember (gcm_tag (CryptoService.deriveKey salt) iv enc) as tag eqn:Etag.
  remember (hmac_sha256 (CryptoService.deriveKey (salt ++ utf8 "hmac")) enc)
    as sig eqn:Esig.
  set (header := utf8 "ARECAKEY" ++ writeUInt16BE 1).
  assert (Hh : List.length header = 10%nat) by reflexivity.
  change (utf8 "ARECAKEY" ++ writeUInt16BE 1 ++ salt ++ iv ++ tag ++ sig ++ enc)
    with (header ++ salt ++ iv ++ tag ++ sig ++ enc).
  assert (Hskip : skipn 106 (header ++ salt ++ iv ++ tag ++ sig ++ enc) = enc).
  { rewrite (app_assoc header), (app_assoc _ iv), (app_assoc _ tag),
      (app_assoc _ sig).
    apply skipn_prefix. rewrite !length_app. lia. }
  repeat split.
  - rewrite !length_app. lia.
  - rewrite !length_app. lia.
  - now apply slice_middle.
  - rewrite (app_assoc header salt). apply slice_middle; [|lia].
    rewrite length_app. lia.
  - rewrite length_slice, !length_app. lia.
  - rewrite length_slice, !length_app. lia.
  - rewrite Hskip. exact Hlen.
Qed.

(** In a generated key file, replacing one byte of the magic (offsets 0 to
    7) is answered "Bad magic", and one byte of the version (8 and 9)
    "Unsupported version". *)
Theorem tampered_header_rejected (now now' : Z) (e : Entropy)
  (userData : UserData) (i : nat) (b : byte) :
  let file := CryptoService.generateKeyFile now e userData in
  keyfile_contracts now e userData ->
  (i < 10)%nat ->
  b <> nth i file x00 ->
  CryptoService.validateKeyFile now' (flip_byte i b file)
  = CryptoService.Invalid
      (if (i <? 8)%nat then "Invalid key file: Bad magic"
       else "Invalid key file: Unsupported version").
Proof.
  intros file HC Hi Hb.
  destruct (generateKeyFile_shape now e userData HC) as (_ & Hlen & _).
  fold file in Hlen. subst file.
  rewrite generateKeyFile_layout in *.
  set (rest := randomBytes e 32 ++ _) in *.
  assert (Hsize : (List.length (flip_byte i b
                     (utf8 "ARECAKEY" ++ writeUInt16BE 1 ++ rest)) <? 107)%nat
                  = false).
  { apply Nat.ltb_ge. rewrite flip_byte_length; lia. }
  unfold CryptoService.validateKeyFile.
  rewrite validateKeyFile_try_unfold, Hsize. clear Hsize Hlen.
  cbn [throw_if bind].
  assert (Hm : List.length (utf8 "ARECAKEY") = 8%nat) by reflexivity.
  remember (utf8 "ARECAKEY") as magic eqn:Emagic.
  destruct (Nat.ltb_spec i 8) as [Hlt | Hge].
  - rewrite flip_byte_app_l by lia.
    rewrite nth_app_keep in Hb by lia.
    rewrite slice_head by (rewrite flip_byte_length; lia).
    rewrite buffer_eqb_neq; [reflexivity|].
    apply flip_byte_neq; [lia|assumption].
  - rewrite flip_byte_app_r by lia.
    rewrite nth_app_skip in Hb by lia.
    rewrite slice_head by lia.
    rewrite buffer_eqb_refl. cbn [negb throw_if bind].
    unfold readUInt16BE. rewrite !nth_app_skip by lia.
    rewrite Hm in *. change (S 8 - 8)%nat with 1%nat.
    change (8 - 8)%nat with 0%nat.
    change (writeUInt16BE 1) with [x00; x01] in *.
    destruct (Z_of_byte_low b) as (H0 & H1 & Hr).
    assert (Hcase : (i - 8 = 0 \/ i - 8 = 1)%nat) by lia.
    unfold flip_byte.
    destruct Hcase as [Hc | Hc]; rewrite Hc in Hb |- *;
      cbn [firstn skipn app nth] in Hb |- *.
    + destruct (256 * Z_of_byte b + Z_of_byte x01 =? 1) eqn:E; [|reflexivity].
      apply Z.eqb_eq in E. change (Z_of_byte x01) with 1 in E.
      exfalso. apply Hb, H0. lia.
    + destruct (256 * Z_of_byte x00 + Z_of_byte b =? 1) eqn:E; [|reflexivity].
      apply Z.eqb_eq in E. change (Z_of_byte x00) with 0 in E.
      exfalso. apply Hb, H1. lia.
Qed.

(** [validateKeyFile] accepts nothing it has not checked: an accepted
    buffer has at least 107 bytes, the magic and version 1; its HMAC field
    is the HMAC of its ciphertext under the key derived from its salt, its
    tag field is the GCM tag of the ciphertext, the claims are what the
    deciphered text parses to, and they are unexpired unless the role is
    superadmin. *)
Theorem validateKeyFile_sound (now : Z) (buf : Buffer) (claims : KeyFilePayload) :
  CryptoService.validateKeyFile now buf = CryptoService.Valid claims ->
  let salt := slice buf 10 42 in
  let iv := slice buf 42 58 in
  let encrypted := skipn 106 buf in
  let key := CryptoService.deriveKey salt in
  (107 <= List.length buf)%nat
  /\ slice buf 0 8 = utf8 "ARECAKEY"
  /\ readUInt16BE buf 8 = 1
  /\ slice buf 74 106
     = hmac_sha256 (CryptoService.deriveKey (salt ++ utf8 "hmac")) encrypted
  /\ slice buf 58 74 = firstn 16 (gcm_tag key iv encrypted)
  /\ keyfile_parse (gcm_ctr key iv encrypted) = Return claims
  /\ (kp_role claims = "superadmin" \/ now <= kp_expiresAt claims).
Proof.
  intros Hvalid salt iv encrypted key. revert Hvalid.
  subst salt iv encrypted key.
  unfold CryptoService.validateKeyFile.
  rewrite validateKeyFile_try_unfold.
  destruct (Nat.ltb_spec (List.length buf) 107) as [|Hlen];
    [discriminate|].
  cbn [throw_if bind].
  destruct (buffer_eqb (slice buf 0 8) (utf8 "ARECAKEY")) eqn:Hmagic;
    [|discriminate].
  apply buffer_eqb_eq in Hmagic. cbn [negb throw_if bind].
  destruct (Z.eqb_spec (readUInt16BE buf 8) 1) as [Hver|]; [|discriminate].
  cbn [negb throw_if bind].
  unfold CryptoService.verifyHMAC, CryptoService.generateHMAC,
    CryptoService.timingSafeEqual.
  destruct (Nat.eqb _ _); [|discriminate].
  cbn [bind].
  destruct (buffer_eqb _ (slice buf 74 106)) eqn:Hsig; [|discriminate].
  apply buffer_eqb_eq in Hsig. cbn [negb throw_if bind].
  unfold CryptoService.decipher_gcm.
  assert (Htaglen : List.length (slice buf 58 74) = 16%nat)
    by (rewrite length_slice; lia).
  destruct (slice buf 42 58) as [|b0 iv'] eqn:Hiv; [discriminate|].
  rewrite Htaglen. cbn [existsb Nat.eqb orb negb].
  destruct (buffer_eqb (slice buf 58 74) _) eqn:Htag; [|discriminate].
  apply buffer_eqb_eq in Htag. cbn [bind].
  destruct (keyfile_parse _) as [payload|] eqn:Hparse; [|discriminate].
  cbn [bind].
  destruct (String.eqb (kp_role payload) "superadmin") eqn:Hrole;
    cbn [negb andb throw_if bind].
  - intros [= <-]. apply String.eqb_eq in Hrole.
    repeat split; auto.
  - destruct (Z.ltb_spec (kp_expiresAt payload) now); [discriminate|].
    cbn [throw_if bind]. intros [= <-].
    repeat split; auto.
Qed.

End KeyFileFormat.

(** ** Passwords of principals *)

Lemma split_on_absent (sep : ascii) (s : string) :
  ~ In sep (list_ascii_of_string s) -> split_on sep s = [s].
Proof.
  induction s as [|c s IH]; cbn [list_ascii_of_string split_on];
    [reflexivity|].
  intros Hnot. destruct (Ascii.eqb_spec c sep) as [->|_].
  - exfalso. apply Hnot. now left.
  - rewrite IH; [reflexivity|]. intros Hin. apply Hnot. now right.
Qed.

Lemma append_colon_nonempty (a b : string) :
  String.eqb (String.append a (String ":" b)) EmptyString = false.
Proof. destruct a; reflexivity. Qed.

Section Passwords.
Context {RT : NodeRuntime}.

(** Verification against a stored form [hex(salt):hex(digest)] compares
    the digest of the password under that salt with the stored digest. *)
Lemma verifyPassword_stored (password : string) (salt digest : Buffer) :
  CryptoService.verifyPassword password
    (String.append (to_hex salt) (String ":" (to_hex digest)))
  = CryptoService.timingSafeEqual (pbkdf2Sync password salt 100000 64) digest.
Proof.
  unfold CryptoService.verifyPassword.
  now rewrite split_on_hex_prefix, split_on_hex, !from_hex_to_hex.
Qed.

Lemma validatePassword_after_setPassword (e : Entropy) (p p' : string)
  (u : User.t) :
  User.validatePassword p' (User.setPassword e p u)
  = CryptoService.timingSafeEqual
      (pbkdf2Sync p' (randomBytes e 16) 100000 64)
      (pbkdf2Sync p (randomBytes e 16) 100000 64).
Proof.
  unfold User.validatePassword, User.setPassword.
  cbn [User.with_passwordHash User.passwordHash].
  unfold CryptoService.hashPassword. rewrite append_colon_nonempty.
  apply verifyPassword_stored.
Qed.

(** [setPassword] then [validatePassword]: the password that was set is
    accepted, a password with another digest under the stored salt is
    refused, and nothing but the hash of the record changes.  A record
    without a hash refuses every password. *)
Theorem setPassword_validatePassword (e : Entropy) (p : string) (u : User.t) :
  let salt := randomBytes e 16 in
  let digest := pbkdf2Sync p salt 100000 64 in
  let u' := User.setPassword e p u in
  List.length digest = 64%nat ->
  User.validatePassword p u' = Return true
  /\ (forall p' : string,
        List.length (pbkdf2Sync p' salt 100000 64) = 64%nat ->
        pbkdf2Sync p' salt 100000 64 <> digest ->
        User.validatePassword p' u' = Return false)
  /\ u' = User.with_passwordHash (User.passwordHash u') u
  /\ (forall p' : string,
        User.validatePassword p' (User.with_passwordHash None u)
        = Return false).
Proof.
  intros salt digest u' Hlen.
  assert (Hval : forall p', User.validatePassword p' u'
                            = CryptoService.timingSafeEqual
                                (pbkdf2Sync p' salt 100000 64) digest).
  { intros p'. apply validatePassword_after_setPassword. }
  repeat split.
  - rewrite Hval. unfold CryptoService.timingSafeEqual.
    fold digest. now rewrite Nat.eqb_refl, buffer_eqb_refl.
  - intros p' Hlen' Hneq. rewrite Hval. unfold CryptoService.timingSafeEqual.
    rewrite Hlen', Hlen, Nat.eqb_refl. now rewrite buffer_eqb_neq.
Qed.

End Passwords.

(** ** Device attributes *)

Lemma length_substring_le (n m : nat) (s : string) :
  (String.length (substring n m s) <= m)%nat.
Proof.
  revert n m. induction s as [|c s IH]; intros n m.
  - destruct n, m; cbn; lia.
  - destruct n as [|n].
    + destruct m as [|m]; cbn; [lia|]. specialize (IH 0%nat m). lia.
    + cbn. apply IH.
Qed.

Section Devices.
Context {RT : NodeRuntime}.

(** The fingerprint has at most 32 characters, and an absent attribute
    counts as an empty one: a request without [deviceInfo] gets the
    fingerprint of a device whose five attributes are all empty. *)
Theorem fingerprint_of_absent_attributes (deviceInfo : DeviceInfo) :
  (String.length (CryptoService.generateDeviceFingerprint deviceInfo) <= 32)%nat
  /\ CryptoService.generateDeviceFingerprint AuthController.no_deviceInfo
     = CryptoService.generateDeviceFingerprint
         {| di_userAgent := Some ""; di_platform := Some "";
            di_language := Some ""; di_screenRes := Some "";
            di_timezone := Some "" |}
  /\ CryptoService.generateDeviceFingerprint deviceInfo
     = CryptoService.generateDeviceFingerprint
         {| di_userAgent := Some (or_string (di_userAgent deviceInfo) "");
            di_platform := Some (or_string (di_platform deviceInfo) "");
            di_language := Some (or_string (di_language deviceInfo) "");
            di_screenRes := Some (or_string (di_screenRes deviceInfo) "");
            di_timezone := Some (or_string (di_timezone deviceInfo) "") |}.
Proof.
  split; [apply length_substring_le|]. split; [reflexivity|].
  unfold CryptoService.generateDeviceFingerprint.
  cbn [di_userAgent di_platform di_language di_screenRes di_timezone].
  assert (H : forall o, or_string (Some (or_string o "")) "" = or_string o "").
  { intros [s|]; cbn; [|reflexivity]. destruct (String.eqb s "") eqn:E; cbn;
      now rewrite ?E. }
  now rewrite !H.
Qed.

End Devices.


(** ** Login with a password *)

Lemma or_string_given (s d : string) : s <> "" -> or_string (Some s) d = s.
Proof. intros H. cbn. apply String.eqb_neq in H. now rewrite H. Qed.

Section PasswordLogin.
Context {RT : NodeRuntime}.

(** A wrong password is answered like a name nobody has: 401 with the same
    message, and the database is left alone.  A principal without a
    password hash gets another message. *)
Theorem password_login_rejections (cast : string -> string) (now : Z)
  (d : AuthController.LoginDraw) (req : AuthController.PasswordRequest)
  (db : AuthController.Db) (username password : string) :
  AuthController.pw_username req = Some username ->
  AuthController.pw_password req = Some password ->
  username <> "" -> password <> "" ->
  let found :=
    find (fun u => String.eqb (User.username u) (cast username)
                   && User.isActive u) (AuthController.users db) in
  let refused :=
    (AuthController.error_response 401 "Invalid username or password", db) in
  (found = None ->
   AuthController.loginWithPassword cast now d req db = refused)
  /\ (forall user,
        found = Some user ->
        User.validatePassword password user = Return false ->
        User.passwordHash user <> None ->
        User.passwordHash user <> Some "" ->
        AuthController.loginWithPassword cast now d req db = refused)
  /\ (forall user,
        found = Some user ->
        User.passwordHash user = None ->
        AuthController.loginWithPassword cast now d req db
        = (AuthController.error_response 401
             "Password login not enabled for this account. Use key file.",
           db)).
Proof.
  intros Hu Hp Hune Hpne found refused.
  unfold AuthController.loginWithPassword.
  rewrite Hu, Hp, !or_string_given by assumption.
  apply String.eqb_neq in Hune, Hpne. rewrite Hune, Hpne. cbn [orb].
  fold found. repeat split.
  - intros ->. reflexivity.
  - intros user -> Hval Hsome Hnonempty.
    destruct (User.passwordHash user) as [h|]; [|congruence].
    destruct (String.eqb_spec h ""); [congruence|].
    now rewrite Hval.
  - intros user -> ->. reflexivity.
Qed.

(** A stored hash without a colon makes the verification throw: the login
    is answered 500, whatever the password, and nothing is stored. *)
Theorem password_login_malformed_hash (cast : string -> string) (now : Z)
  (d : AuthController.LoginDraw) (req : AuthController.PasswordRequest)
  (db : AuthController.Db) (username password h : string) (user : User.t) :
  AuthController.pw_username req = Some username ->
  AuthController.pw_password req = Some password ->
  username <> "" -> password <> "" ->
  find (fun u => String.eqb (User.username u) (cast username)
                 && User.isActive u) (AuthController.users db) = Some user ->
  User.passwordHash user = Some h ->
  h <> "" ->
  ~ In ":"%char (list_ascii_of_string h) ->
  CryptoService.verifyPassword password h = Throw msg_not_a_string
  /\ AuthController.loginWithPassword cast now d req db
     = (AuthController.error_response 500 "Authentication failed", db).
Proof.
  intros Hu Hp Hune Hpne Hfind Hhash Hne Hcolon.
  assert (Hthrow : CryptoService.verifyPassword password h
                   = Throw msg_not_a_string).
  { unfold CryptoService.verifyPassword.
    now rewrite (split_on_absent _ _ Hcolon). }
  split; [assumption|].
  unfold AuthController.loginWithPassword.
  rewrite Hu, Hp, !or_string_given by assumption.
  apply String.eqb_neq in Hune, Hpne, Hne. rewrite Hune, Hpne. cbn [orb].
  rewrite Hfind, Hhash, Hne.
  unfold User.validatePassword. now rewrite Hhash, Hne, Hthrow.
Qed.

(** With the right password, a principal whose key file is revoked is
    answered 403 and gets no session; any other is admitted by the very
    steps of a key-file login, so the device limit holds on this path as
    on the other. *)
Theorem password_login_admission (cast : string -> string) (now : Z)
  (d : AuthController.LoginDraw) (req : AuthController.PasswordRequest)
  (db : AuthController.Db) (username password : string) (user : User.t) :
  AuthController.pw_username req = Some username ->
  AuthController.pw_password req = Some password ->
  username <> "" -> password <> "" ->
  find (fun u => String.eqb (User.username u) (cast username)
                 && User.isActive u) (AuthController.users db) = Some user ->
  User.validatePassword password user = Return true ->
  let result := AuthController.loginWithPassword cast now d req db in
  (User.keyFileRevoked user = true ->
   result = (AuthController.error_response 403
               "Account access has been revoked", db))
  /\ (User.keyFileRevoked user = false ->
      AuthController.sessions (snd result)
      = admission user now d (AuthController.device_request req)
          (AuthController.sessions db)
      /\ (status (fst result) = 200 \/ status (fst result) = 500)).
Proof.
  intros Hu Hp Hune Hpne Hfind Hval result. subst result.
  unfold AuthController.loginWithPassword.
  rewrite Hu, Hp, !or_string_given by assumption.
  apply String.eqb_neq in Hune, Hpne. rewrite Hune, Hpne. cbn [orb].
  rewrite Hfind.
  assert (Hhash : match User.passwordHash user with
                  | Some h => String.eqb h ""
                  | None => true
                  end = false).
  { unfold User.validatePassword in Hval.
    destruct (User.passwordHash user) as [h|]; [|discriminate].
    destruct (String.eqb h ""); [discriminate|reflexivity]. }
  rewrite Hhash, Hval. split.
  - intros ->. reflexivity.
  - intros ->. unfold admission, request_fingerprint.
    cbn [AuthController.device_request AuthController.req_deviceInfo].
    destruct (Session.create _ _ _ _) as [[s c2]|]; cbn; auto.
Qed.

End PasswordLogin.

(** ** Records of the session collection *)

(** Two records of a collection with the same token are one record. *)
Lemma same_token_same_record (c : Session.Collection) (a b : Session.t) :
  NoDup (map Session.sessionToken c) -> In a c -> In b c ->
  Session.sessionToken a = Session.sessionToken b -> a = b.
Proof.
  induction c as [|s c IH]; cbn [map]; [contradiction|].
  rewrite NoDup_cons_iff. intros (Hfresh & Hrest) Ha Hb Htok.
  destruct Ha as [-> | Ha], Hb as [-> | Hb]; try reflexivity.
  - exfalso. apply Hfresh. rewrite Htok. now apply in_map.
  - exfalso. apply Hfresh. rewrite <- Htok. now apply in_map.
  - now apply IH.
Qed.

Lemma map_token_save (s o : Session.t) (c : Session.Collection) :
  NoDup (map Session._id c) -> In o c ->
  Session._id s = Session._id o ->
  Session.sessionToken s = Session.sessionToken o ->
  map Session.sessionToken (Session.save s c) = map Session.sessionToken c.
Proof.
  intros Hids Ho Hid Htok. unfold Session.save. rewrite map_map.
  apply map_ext_in. intros x Hx.
  destruct (String.eqb_spec (Session._id x) (Session._id s)) as [E|];
    [|reflexivity].
  rewrite Htok. f_equal. symmetry.
  apply (same_id_same_record c); try assumption. congruence.
Qed.

Lemma in_save (s x : Session.t) (c : Session.Collection) :
  In x (Session.save s c) ->
  x = s \/ (In x c /\ Session._id x <> Session._id s).
Proof.
  unfold Session.save. rewrite in_map_iff. intros (y & Hy & Hin).
  destruct (String.eqb_spec (Session._id y) (Session._id s)) as [E|E].
  - now left.
  - right. subst x. now split.
Qed.


(** Making room changes neither the [_id]s nor the tokens of the
    collection. *)
Lemma check_device_limit_keys (user : User.t) (fp : string) (now : Z)
  (c : Session.Collection) :
  NoDup (map Session._id c) ->
  let c1 := AuthController.check_device_limit user fp now c in
  map Session._id c1 = map Session._id c
  /\ map Session.sessionToken c1 = map Session.sessionToken c.
Proof.
  intros Hids c1. subst c1. unfold AuthController.check_device_limit.
  destruct (_ >=? _); [|now split].
  destruct (AuthController.existingSession _ _ _ _); [now split|].
  unfold Session.terminateOldestSession.
  destruct (Session.first_by_createdAt _) as [o|] eqn:E; [|now split].
  cbn [snd]. split; [apply map_id_save|].
  assert (Ho : In o c).
  { destruct (first_by_createdAt_spec
                (filter (fun s => String.eqb (Session.user s) (User._id user)
                                  && Session.isActive s) c))
      as (o' & E' & Hin & _).
    - intros Hnil. rewrite Hnil in E. discriminate.
    - rewrite E in E'. injection E' as <-. now apply filter_In in Hin. }
  now apply (map_token_save _ o).
Qed.

Section Records.
Context {RT : NodeRuntime}.

Lemma admission_records (user : User.t) (now : Z)
  (d : AuthController.LoginDraw) (req : AuthController.LoginRequest)
  (c : Session.Collection) :
  NoDup (map Session._id c) ->
  NoDup (map Session.sessionToken c) ->
  let c' := admission user now d req c in
  NoDup (map Session._id c')
  /\ NoDup (map Session.sessionToken c')
  /\ exists extra,
       map Session._id c' = map Session._id c ++ map Session._id extra
       /\ (List.length extra <= 1)%nat.
Proof.
  intros Hids Htoks c'. subst c'. unfold admission.
  destruct (check_device_limit_keys user (request_fingerprint req) now c Hids)
    as (Hid1 & Htok1).
  set (c1 := AuthController.check_device_limit user _ now c) in *.
  unfold Session.create.
  destruct (_ || _) eqn:Hcheck.
  - rewrite Hid1, Htok1. repeat split; try assumption.
    exists []. cbn. rewrite app_nil_r. split; [reflexivity|lia].
  - apply orb_false_iff in Hcheck as (Hcheck & Hid).
    apply orb_false_iff in Hcheck as (_ & Htok).
    rewrite !map_app, Hid1, Htok1. cbn [map].
    repeat split.
    + apply NoDup_snoc; [assumption|]. rewrite <- Hid1.
      intros Hin. apply in_map_iff in Hin as (x & Hx & Hin).
      cbn [Session._id] in Hx.
      assert (existsb (fun s0 => String.eqb (Session._id s0)
                                   (AuthController.draw_session_id d)) c1
              = true) as Habs; [|congruence].
      apply existsb_exists. exists x. split; [assumption|].
      now apply String.eqb_eq.
    + apply NoDup_snoc; [assumption|]. rewrite <- Htok1.
      intros Hin. apply in_map_iff in Hin as (x & Hx & Hin).
      cbn [Session.sessionToken] in Hx.
      match type of Htok with
      | existsb ?f c1 = false =>
          assert (existsb f c1 = true) as Habs; [|congruence]
      end.
      apply existsb_exists. exists x. split; [assumption|].
      now apply String.eqb_eq.
    + eexists [_]. cbn [map List.length]. split; [reflexivity|lia].
Qed.

(** Neither login deletes a record or reuses an [_id] or a token: after a
    login by key file or by password, the [_id]s of the collection are the
    old ones followed by at most one new one, and [_id]s and tokens are
    still pairwise different. *)
Theorem logins_keep_records (cast : string -> string) (now : Z)
  (d : AuthController.LoginDraw) (req : AuthController.LoginRequest)
  (preq : AuthController.PasswordRequest) (db : AuthController.Db) :
  let c := AuthController.sessions db in
  NoDup (map Session._id c) ->
  NoDup (map Session.sessionToken c) ->
  forall c',
    c' = AuthController.sessions
           (snd (AuthController.loginWithKeyFile now d req db))
    \/ c' = AuthController.sessions
              (snd (AuthController.loginWithPassword cast now d preq db)) ->
    NoDup (map Session._id c')
    /\ NoDup (map Session.sessionToken c')
    /\ exists extra,
         map Session._id c' = map Session._id c ++ map Session._id extra
         /\ (List.length extra <= 1)%nat.
Proof.
  intros c Hids Htoks c' Hc'.
  assert (Hsame : NoDup (map Session._id c)
                  /\ NoDup (map Session.sessionToken c)
                  /\ exists extra,
                       map Session._id c
                       = map Session._id c ++ map Session._id extra
                       /\ (List.length extra <= 1)%nat).
  { repeat split; try assumption. exists []. cbn. rewrite app_nil_r.
    split; [reflexivity|lia]. }
  destruct Hc' as [-> | ->].
  - unfold AuthController.loginWithKeyFile.
    destruct (AuthController.req_keyFile req) as [keyFile|]; [|exact Hsame].
    destruct (String.eqb keyFile ""); [exact Hsame|].
    destruct (CryptoService.validateKeyFile _ _) as [keyData|];
      [|exact Hsame].
    destruct (User.findByKeyFileId _ _) as [user|]; [|exact Hsame].
    destruct (negb (User.isActive user)); [exact Hsame|].
    pose proof (admission_records user now d req c Hids Htoks) as H.
    unfold admission, request_fingerprint in H. fold c.
    destruct (Session.create _ _ _ _) as [[s c2]|]; exact H.
  - unfold AuthController.loginWithPassword.
    destruct (_ || _); [exact Hsame|].
    destruct (find _ _) as [user|]; [|exact Hsame].
    destruct (match User.passwordHash user with
              | Some h => String.eqb h ""
              | None => true
              end); [exact Hsame|].
    destruct (User.validatePassword _ user) as [[|]|]; try exact Hsame.
    destruct (User.keyFileRevoked user); [exact Hsame|].
    pose proof (admission_records user now d
                  (AuthController.device_request preq) c Hids Htoks) as H.
    unfold admission, request_fingerprint in H. fold c.
    cbn [AuthController.device_request AuthController.req_deviceInfo] in H.
    destruct (Session.create _ _ _ _) as [[s c2]|]; exact H.
Qed.


End Records.

(** ** Termination and the bearer check *)

Section Invalidation.
Context {RT : NodeRuntime}.

Lemma protect_rejects_without_live_record (now : Z) (authHeader : string)
  (c : Session.Collection) :
  AuthMiddleware.find_live_session (AuthMiddleware.strip_bearer authHeader)
    now c = None ->
  exists message,
    AuthMiddleware.protect now (Some authHeader) c
    = (AuthMiddleware.Respond
         {| status := 401; body := ErrorBody message |}, c).
Proof.
  intros Hnone. unfold AuthMiddleware.protect.
  destruct (_ || _); [eexists; reflexivity|].
  destruct (CryptoService.validateSessionToken _ _);
    [rewrite Hnone|]; eexists; reflexivity.
Qed.

(** After [terminateAllForUser] no session of the principal is active, at
    any time; the records of other principals and the records that were
    already terminated are left as they were, and every record that was
    active carries the new reason and time.  No record is added or
    removed. *)
Theorem terminateAllForUser_clears (userId : string) (reason : Session.Reason)
  (now : Z) (c : Session.Collection) :
  let c' := Session.terminateAllForUser userId reason now c in
  map Session._id c' = map Session._id c
  /\ (forall now', active_count userId now' c' = 0)
  /\ (forall s, In s c' -> Session.user s = userId ->
                Session.isActive s = false)
  /\ (forall s, In s c ->
                Session.user s <> userId \/ Session.isActive s = false ->
                In s c')
  /\ (forall s, In s c -> Session.user s = userId ->
                Session.isActive s = true ->
                In (Session.terminate now reason s) c').
Proof.
  intros c'. subst c'. unfold Session.terminateAllForUser.
  assert (Hinactive : forall s,
             In s (map (fun s => if String.eqb (Session.user s) userId
                                    && Session.isActive s
                                 then Session.terminate now reason s else s) c)
             -> Session.user s = userId -> Session.isActive s = false).
  { intros s Hin Hu. apply in_map_iff in Hin as (x & Hx & _).
    destruct (String.eqb (Session.user x) userId && Session.isActive x) eqn:E.
    - now subst s.
    - subst s. apply String.eqb_eq in Hu. rewrite Hu in E.
      exact E. }
  repeat split.
  - rewrite map_map. apply map_ext. intros s.
    now destruct (_ && _).
  - intros now'. unfold active_count, Session.getActiveSessionsForUser.
    rewrite (filter_ext_in _ (fun _ => false)).
    + clear. induction (map _ c) as [|x l IH]; [reflexivity|exact IH].
    + intros s Hin. unfold Session.active_for_user.
      destruct (String.eqb_spec (Session.user s) userId) as [Hu|];
        [|reflexivity].
      now rewrite (Hinactive s Hin Hu).
  - exact Hinactive.
  - intros s Hin Hother. apply in_map_iff. exists s. split; [|assumption].
    destruct Hother as [Hu | ->].
    + apply String.eqb_neq in Hu. now rewrite Hu.
    + now rewrite andb_false_r.
  - intros s Hin Hu Hact. apply in_map_iff. exists s. split; [|assumption].
    apply String.eqb_eq in Hu. now rewrite Hu, Hact.
Qed.

(** After a logout with a (non-empty) token, a request that bears the
    token is answered 401 at every time: no record with the token has the
    active flag any more. *)
Theorem logout_invalidates_token (now now' : Z) (token : string)
  (c : Session.Collection) :
  NoDup (map Session._id c) ->
  NoDup (map Session.sessionToken c) ->
  token <> "" ->
  let c' := snd (AuthController.logout now (Some token) c) in
  (forall s, In s c' -> Session.sessionToken s = token ->
             Session.isActive s = false)
  /\ exists message,
       AuthMiddleware.protect now' (Some (String.append "Bearer " token)) c'
       = (AuthMiddleware.Respond
            {| status := 401; body := ErrorBody message |}, c').
Proof.
  intros Hids Htoks Hne c'.
  assert (Hdead : forall s, In s c' -> Session.sessionToken s = token ->
                            Session.isActive s = false).
  { subst c'. unfold AuthController.logout.
    destruct (String.eqb_spec token "") as [|_]; [contradiction|].
    - destruct (find _ c) as [session|] eqn:E; cbn [snd].
      + apply find_some in E as (Hsin & Hp).
        apply andb_true_iff in Hp as (Hst & _). apply String.eqb_eq in Hst.
        intros s Hin Htok. apply in_save in Hin as [-> | (Hin & Hid)];
          [reflexivity|].
        exfalso. apply Hid. cbn [Session.terminate Session._id].
        f_equal. apply (same_token_same_record c); congruence.
      + intros s Hin Htok.
        pose proof (find_none _ _ E s Hin) as Hp. cbn beta in Hp.
        apply String.eqb_eq in Htok. rewrite Htok in Hp.
        exact Hp. }
  split; [exact Hdead|].
  apply protect_rejects_without_live_record.
  rewrite strip_bearer_token.
  apply find_live_session_none. intros s Hin Htok. left. now apply Hdead.
Qed.

End Invalidation.

(** ** The middleware chain *)


Section Chain.
Context {RT : NodeRuntime}.


(** [optionalAuth] attaches a user exactly when [protect] lets the request
    pass, with the same user, record and collection; when [protect] would
    answer 401 it attaches nothing and leaves the collection alone. *)
Theorem optionalAuth_agrees_with_protect (now : Z)
  (authorization : option string) (c : Session.Collection) :
  match AuthMiddleware.protect now authorization c with
  | (AuthMiddleware.Next user session, c') =>
      AuthMiddleware.optionalAuth now authorization c
      = (Some (user, session), c')
  | (AuthMiddleware.Respond r, _) =>
      status r = 401
      /\ AuthMiddleware.optionalAuth now authorization c = (None, c)
  end.
Proof.
  unfold AuthMiddleware.protect, AuthMiddleware.optionalAuth.
  destruct authorization as [authHeader|]; [|now split].
  destruct (String.eqb authHeader ""); cbn [negb andb orb]; [now split|].
  destruct (String.prefix "Bearer " authHeader); cbn [negb]; [|now split].
  destruct (CryptoService.validateSessionToken _ _); [|now split].
  destruct (AuthMiddleware.find_live_session _ _ _); [reflexivity|now split].
Qed.

(** The gate [requireRole('admin', 'superadmin')] of the administrative
    routes lets a user pass exactly when the role is one of the two, as
    any [requireRole] does exactly for the roles it lists; a request
    without a user is answered 401.  Behind the gate, [terminateSession]
    and [revokeUserKeyFile] never answer 403. *)
Theorem requireRole_admin_gate (user : TokenPayload) (roles : list string) :
  let role := sd_role (tp_data user) in
  (AuthMiddleware.requireRole ["admin"; "superadmin"] (Some user)
   = AuthMiddleware.Pass <-> AuthController.is_admin role = true)
  /\ (AuthMiddleware.requireRole roles (Some user) = AuthMiddleware.Pass
      <-> In role roles)
  /\ (exists r, AuthMiddleware.requireRole roles None = AuthMiddleware.Deny r
                /\ status r = 401)
  /\ (AuthMiddleware.requireRole ["admin"; "superadmin"] (Some user)
      = AuthMiddleware.Pass ->
      forall now id c db,
        status (fst (AuthController.terminateSession now role id c)) <> 403
        /\ AuthController.admin_status
             (fst (AuthController.revokeUserKeyFile now role id db)) <> 403).
Proof.
  intros role.
  assert (Hgen : forall l, AuthMiddleware.requireRole l (Some user)
                           = AuthMiddleware.Pass <-> In role l).
  { intros l. unfold AuthMiddleware.requireRole, AuthMiddleware.includes_string.
    fold role. rewrite <- existsb_eqb_In.
    destruct (existsb _ l); cbn [negb]; split; congruence. }
  assert (Hadmin : AuthController.is_admin role = true
                   <-> In role ["admin"; "superadmin"]).
  { unfold AuthController.is_admin. rewrite orb_true_iff, !String.eqb_eq.
    cbn [In]. intuition congruence. }
  split; [rewrite Hgen; symmetry; exact Hadmin|].
  split; [apply Hgen|].
  split; [eexists; split; reflexivity|].
  intros Hpass now id c db.
  apply Hgen, Hadmin in Hpass.
  unfold AuthController.terminateSession, AuthController.revokeUserKeyFile.
  rewrite Hpass. cbn [negb]. split.
  - destruct (Session.findById id c) as [[?|]|]; cbn; discriminate.
  - destruct (User.findById id _) as [[?|]|]; cbn; discriminate.
Qed.

(** [requirePermission] lets a user pass exactly when the user holds at
    least one of the listed permissions. *)
Theorem requirePermission_any (user : TokenPayload)
  (permissions : list string) :
  AuthMiddleware.requirePermission permissions (Some user)
  = AuthMiddleware.Pass
  <-> exists p, In p permissions /\ In p (sd_permissions (tp_data user)).
Proof.
  unfold AuthMiddleware.requirePermission, AuthMiddleware.includes_string.
  destruct (existsb _ permissions) eqn:E; cbn [negb].
  - split; [intros _|reflexivity].
    apply existsb_exists in E as (p & Hp & Hin).
    exists p. split; [assumption|]. now apply existsb_eqb_In.
  - split; [discriminate|]. intros (p & Hp & Hin). exfalso.
    assert (existsb (fun p => existsb (String.eqb p)
                                (sd_permissions (tp_data user))) permissions
            = true) as Habs; [|congruence].
    apply existsb_exists. exists p. split; [assumption|].
    now apply existsb_eqb_In.
Qed.

End Chain.

(** ** Rate limiting *)

Lemma rate_get_set (ip : string) (r : AuthMiddleware.RateRecord)
  (m : AuthMiddleware.RateLimitMap) :
  AuthMiddleware.rate_get ip (AuthMiddleware.rate_set ip r m) = Some r.
Proof.
  induction m as [|[k r'] m IH]; cbn; [now rewrite String.eqb_refl|].
  destruct (String.eqb k ip) eqn:E; cbn; now rewrite E.
Qed.

Lemma rate_get_set_other (ip ip' : string) (r : AuthMiddleware.RateRecord)
  (m : AuthMiddleware.RateLimitMap) :
  ip' <> ip ->
  AuthMiddleware.rate_get ip' (AuthMiddleware.rate_set ip r m)
  = AuthMiddleware.rate_get ip' m.
Proof.
  intros Hneq. induction m as [|[k r'] m IH]; cbn.
  - destruct (String.eqb_spec ip ip'); [congruence|reflexivity].
  - destruct (String.eqb_spec k ip) as [->|]; cbn.
    + destruct (String.eqb_spec ip ip'); [congruence|reflexivity].
    + now rewrite IH.
Qed.

Lemma rateLimit_in_window (maxRequests windowMs now n r : Z)
  (address : option string) (m : AuthMiddleware.RateLimitMap) :
  let ip := or_string address "unknown" in
  AuthMiddleware.rate_get ip m
  = Some {| AuthMiddleware.count := n; AuthMiddleware.resetAt := r |} ->
  now <= r ->
  AuthMiddleware.rateLimit maxRequests windowMs address now m
  = (if n + 1 <=? maxRequests
     then AuthMiddleware.Pass else AuthMiddleware.too_many,
     AuthMiddleware.rate_set ip
       {| AuthMiddleware.count := n + 1; AuthMiddleware.resetAt := r |} m).
Proof.
  intros ip Hget Hnow. unfold AuthMiddleware.rateLimit. fold ip.
  rewrite Hget. cbn [AuthMiddleware.resetAt AuthMiddleware.count].
  replace (r <? now) with false by (symmetry; apply Z.ltb_ge; exact Hnow).
  rewrite Z.leb_antisym. destruct (maxRequests <? n + 1); reflexivity.
Qed.

(** Requests inside an open window: the [k]-th of them raises the count to
    [n + k] and passes exactly when that is within its own limit. *)
Lemma rateLimit_run_counts (requests : list (Z * Z * Z))
  (address : option string) (m : AuthMiddleware.RateLimitMap) (n r : Z) :
  let ip := or_string address "unknown" in
  AuthMiddleware.rate_get ip m
  = Some {| AuthMiddleware.count := n; AuthMiddleware.resetAt := r |} ->
  Forall (fun q => snd q <= r) requests ->
  let result := AuthMiddleware.rateLimit_run requests address m in
  AuthMiddleware.rate_get ip (snd result)
  = Some {| AuthMiddleware.count := n + Z.of_nat (List.length requests);
            AuthMiddleware.resetAt := r |}
  /\ (forall ip', ip' <> ip ->
        AuthMiddleware.rate_get ip' (snd result)
        = AuthMiddleware.rate_get ip' m)
  /\ forall k q,
       nth_error requests k = Some q ->
       nth_error (fst result) k
       = Some (if n + Z.of_nat k + 1 <=? fst (fst q)
               then AuthMiddleware.Pass else AuthMiddleware.too_many).
Proof.
  intros ip. revert m n.
  induction requests as [|[[maxRequests windowMs] now] rest IH];
    intros m n Hget Hwin result; subst result.
  - cbn. rewrite Z.add_0_r. repeat split; try assumption.
    intros [|k] q; discriminate.
  - apply Forall_cons_iff in Hwin as (Hnow & Hwin). cbn [snd] in Hnow.
    cbn [AuthMiddleware.rateLimit_run].
    rewrite (rateLimit_in_window maxRequests windowMs now n r address m
               Hget Hnow).
    fold ip.
    set (m1 := AuthMiddleware.rate_set ip _ m).
    assert (Hget1 : AuthMiddleware.rate_get ip m1
                    = Some {| AuthMiddleware.count := n + 1;
                              AuthMiddleware.resetAt := r |})
      by apply rate_get_set.
    destruct (IH m1 (n + 1) Hget1 Hwin) as (Hfinal & Hother & Hgates).
    destruct (AuthMiddleware.rateLimit_run rest address m1) as [gs m2].
    cbn [fst snd] in *. repeat split.
    + rewrite Hfinal. cbn [List.length]. do 2 f_equal. lia.
    + intros ip' Hneq. rewrite (Hother ip' Hneq).
      now apply rate_get_set_other.
    + intros [|k] q Hq; cbn [nth_error] in *.
      * injection Hq as <-. cbn [fst]. now rewrite Z.add_0_r.
      * rewrite (Hgates k q Hq). do 2 f_equal.
        replace (n + 1 + Z.of_nat k + 1) with (n + Z.of_nat (S k) + 1) by lia.
        reflexivity.
Qed.

(** A window of one address.  The first request from an address without a
    record opens a window and passes, whatever its limit; while the window
    is open every limiter counts on the one record of the address, and the
    request that makes the count [k] passes exactly when [k] is within the
    limit of its own limiter; the other addresses are not touched. *)
Theorem rateLimit_window (maxRequests windowMs now : Z)
  (rest : list (Z * Z * Z)) (address : option string)
  (m : AuthMiddleware.RateLimitMap) :
  let ip := or_string address "unknown" in
  AuthMiddleware.rate_get ip m = None ->
  Forall (fun q => snd q <= now + windowMs) rest ->
  let result :=
    AuthMiddleware.rateLimit_run ((maxRequests, windowMs, now) :: rest)
      address m in
  nth_error (fst result) 0 = Some AuthMiddleware.Pass
  /\ (forall k q,
        nth_error rest k = Some q ->
        nth_error (fst result) (S k)
        = Some (if Z.of_nat k + 2 <=? fst (fst q)
                then AuthMiddleware.Pass else AuthMiddleware.too_many))
  /\ AuthMiddleware.rate_get ip (snd result)
     = Some {| AuthMiddleware.count := 1 + Z.of_nat (List.length rest);
               AuthMiddleware.resetAt := now + windowMs |}
  /\ (forall ip', ip' <> ip ->
        AuthMiddleware.rate_get ip' (snd result)
        = AuthMiddleware.rate_get ip' m).
Proof.
  intros ip Hnone Hwin result. subst result.
  cbn [AuthMiddleware.rateLimit_run].
  assert (Hfirst : AuthMiddleware.rateLimit maxRequests windowMs address now m
                   = (AuthMiddleware.Pass,
                      AuthMiddleware.rate_set ip
                        {| AuthMiddleware.count := 1;
                           AuthMiddleware.resetAt := now + windowMs |} m)).
  { unfold AuthMiddleware.rateLimit. fold ip. now rewrite Hnone. }
  rewrite Hfirst.
  set (m1 := AuthMiddleware.rate_set ip _ m).
  assert (Hget1 : AuthMiddleware.rate_get ip m1
                  = Some {| AuthMiddleware.count := 1;
                            AuthMiddleware.resetAt := now + windowMs |})
    by apply rate_get_set.
  destruct (rateLimit_run_counts rest address m1 1 (now + windowMs)
              Hget1 Hwin) as (Hfinal & Hother & Hgates).
  destruct (AuthMiddleware.rateLimit_run rest address m1) as [gs m2].
  cbn [fst snd nth_error] in *. repeat split.
  - intros k q Hq. rewrite (Hgates k q Hq).
    replace (1 + Z.of_nat k + 1) with (Z.of_nat k + 2) by lia. reflexivity.
  - exact Hfinal.
  - intros ip' Hneq. rewrite (Hother ip' Hneq).
    now apply rate_get_set_other.
Qed.

(** Once the window of an address is over, its next request passes and
    opens a new window with a count of one, however many requests were
    counted or refused before. *)
Theorem rateLimit_reopens (maxRequests windowMs now : Z)
  (address : option string) (m : AuthMiddleware.RateLimitMap)
  (record : AuthMiddleware.RateRecord) :
  let ip := or_string address "unknown" in
  AuthMiddleware.rate_get ip m = Some record ->
  AuthMiddleware.resetAt record < now ->
  let result := AuthMiddleware.rateLimit maxRequests windowMs address now m in
  fst result = AuthMiddleware.Pass
  /\ AuthMiddleware.rate_get ip (snd result)
     = Some {| AuthMiddleware.count := 1;
               AuthMiddleware.resetAt := now + windowMs |}
  /\ List.length (snd result) = List.length m.
Proof.
  intros ip Hget Hover result. subst result.
  unfold AuthMiddleware.rateLimit. fold ip. rewrite Hget.
  apply Z.ltb_lt in Hover. rewrite Hover. cbn [fst snd].
  split; [reflexivity|]. split; [apply rate_get_set|].
  clear Hover. revert Hget. generalize {| AuthMiddleware.count := 1;
    AuthMiddleware.resetAt := now + windowMs |}.
  intros r. induction m as [|[k r'] m IH]; [discriminate|].
  cbn. destruct (String.eqb k ip); [reflexivity|].
  intros Hget. cbn. f_equal. now apply IH.
Qed.

(** ** Administration of principals *)

(** the record a query by identifier finds is one of the collection, and
    its [_id] is what the identifier is cast to *)
Lemma findById_spec {RT : NodeRuntime} (id : string) (l : list User.t)
  (user : User.t) :
  User.findById id l = Return (Some user) ->
  In user l /\ cast_ObjectId id = Some (User._id user).
Proof.
  unfold User.findById. destruct (cast_ObjectId id) as [oid|]; [|discriminate].
  intros H. injection H as H. apply find_some in H as (Hin & Hp).
  apply String.eqb_eq in Hp. now subst oid.
Qed.

Lemma findById_save {RT : NodeRuntime} (id : string) (l : list User.t)
  (user u' : User.t) :
  User.findById id l = Return (Some user) -> User._id u' = User._id user ->
  User.findById id (User.save u' l) = Return (Some u').
Proof.
  intros Hfind Hid.
  destruct (findById_spec _ _ _ Hfind) as (_ & Hcast).
  unfold User.findById in *. rewrite Hcast in *. f_equal.
  injection Hfind as Hfind. unfold User.save. rewrite Hid.
  induction l as [|x l IH]; [discriminate|].
  cbn [map find] in *.
  destruct (String.eqb (User._id x) (User._id user)) eqn:E.
  - now rewrite Hid, String.eqb_refl.
  - rewrite E. now apply IH.
Qed.

Lemma in_user_save (u' x : User.t) (l : list User.t) :
  In x (User.save u' l) ->
  x = u' \/ (In x l /\ User._id x <> User._id u').
Proof.
  intros Hin. apply in_map_iff in Hin as (y & Hy & Hin).
  destruct (String.eqb_spec (User._id y) (User._id u')) as [E|E].
  - now left.
  - right. subst x. now split.
Qed.

Lemma user_save_keeps (u' x : User.t) (l : list User.t) :
  In x l -> User._id x <> User._id u' -> In x (User.save u' l).
Proof.
  intros Hin Hneq. apply in_map_iff. exists x. split; [|assumption].
  apply String.eqb_neq in Hneq. now rewrite Hneq.
Qed.

Lemma find_only {A : Type} (p : A -> bool) (l : list A) (x y : A) :
  In x l -> p x = true ->
  (forall z, In z l -> p z = true -> z = y) ->
  find p l = Some y.
Proof.
  intros Hin Hp Honly.
  destruct (find p l) as [z|] eqn:E.
  - apply find_some in E as (Hz & Hpz). f_equal. now apply Honly.
  - now rewrite (find_none _ _ E x Hin) in Hp.
Qed.

Lemma no_active_after_terminateAll (userId : string) (reason : Session.Reason)
  (now now' : Z) (c : Session.Collection) :
  active_count userId now'
    (Session.terminateAllForUser userId reason now c) = 0.
Proof.
  unfold active_count, Session.getActiveSessionsForUser,
    Session.terminateAllForUser.
  induction c as [|s c IH]; [reflexivity|].
  cbn [map filter].
  replace (Session.active_for_user userId now' _) with false; [exact IH|].
  unfold Session.active_for_user.
  destruct (String.eqb (Session.user s) userId) eqn:Eu;
    destruct (Session.isActive s) eqn:Ea; cbn [andb];
    cbn [Session.terminate Session.user Session.isActive];
    rewrite ?Eu, ?Ea; reflexivity.
Qed.

Section Administration.
Context {RT : NodeRuntime}.

(** who a key-file login answers 200 for: a record of the collection that
    is not revoked *)
Lemma loginWithKeyFile_subject (now : Z) (d : AuthController.LoginDraw)
  (req : AuthController.LoginRequest) (db : AuthController.Db)
  (token : string) (u : User.t) (expiresAt : Z) :
  body (fst (AuthController.loginWithKeyFile now d req db))
  = LoginBody token u expiresAt ->
  exists user, In user (AuthController.users db)
               /\ User.keyFileRevoked user = false
               /\ User._id u = User._id user.
Proof.
  unfold AuthController.loginWithKeyFile.
  destruct (AuthController.req_keyFile req) as [keyFile|]; [|discriminate].
  destruct (String.eqb keyFile ""); [discriminate|].
  destruct (CryptoService.validateKeyFile _ _) as [data|]; [|discriminate].
  destruct (User.findByKeyFileId _ _) as [user|] eqn:Efind; [|discriminate].
  destruct (negb (User.isActive user)); [discriminate|].
  destruct (Session.create _ _ _ _) as [[? ?]|]; [|discriminate].
  cbn [fst body]. intros H. injection H as _ <- _.
  apply find_some in Efind as (Hin & Hp).
  exists user. repeat split; [assumption|].
  apply andb_true_iff in Hp as (Hp & _).
  apply andb_true_iff in Hp as (_ & Hp).
  now destruct (User.keyFileRevoked user).
Qed.

(** who a password login answers 200 for: a record of the collection that
    is not revoked and has a password hash *)
Lemma loginWithPassword_subject (cast : string -> string) (now : Z)
  (d : AuthController.LoginDraw) (req : AuthController.PasswordRequest)
  (db : AuthController.Db) (token : string) (u : User.t) (expiresAt : Z) :
  body (fst (AuthController.loginWithPassword cast now d req db))
  = LoginBody token u expiresAt ->
  exists user, In user (AuthController.users db)
               /\ User.keyFileRevoked user = false
               /\ User.passwordHash user <> None
               /\ User._id u = User._id user.
Proof.
  unfold AuthController.loginWithPassword.
  destruct (_ || _); [discriminate|].
  destruct (find _ _) as [user|] eqn:Efind; [|discriminate].
  destruct (User.passwordHash user) as [h|] eqn:Eh; [|discriminate].
  destruct (String.eqb h ""); [discriminate|].
  destruct (User.validatePassword _ _) as [[|]|]; try discriminate.
  destruct (User.keyFileRevoked user) eqn:Erev; [discriminate|].
  destruct (Session.create _ _ _ _) as [[? ?]|]; [|discriminate].
  cbn [fst body]. intros H. injection H as _ <- _.
  apply find_some in Efind as (Hin & _).
  exists user. repeat split; try assumption. congruence.
Qed.

(** What the operations on a principal answer before they touch
    anything: 403 without the admin or superadmin role; to an admin, 500
    with the message of the cast error for an identifier that is no
    [ObjectId], and 404 for an [ObjectId] no record has.  In each case the
    database is left as it was. *)
Theorem admin_operations_guarded (caught : AuthController.CaughtMessages)
  (now : Z) (e : Entropy) (role id : string) (expiresInDays : option Z)
  (password : option string) (removePassword : bool)
  (db : AuthController.Db) (code : Z) (message : string) :
  (AuthController.is_admin role = false
   /\ code = 403 /\ message = "Admin access required")
  \/ (AuthController.is_admin role = true
      /\ cast_ObjectId id = None
      /\ code = 500 /\ message = msg_cast_failed id "User")
  \/ (AuthController.is_admin role = true
      /\ (exists oid, cast_ObjectId id = Some oid
                      /\ forall u, In u (AuthController.users db) ->
                                   User._id u <> oid)
      /\ code = 404 /\ message = "User not found") ->
  AuthController.revokeUserKeyFile now role id db
  = (AuthController.admin_error code message, db)
  /\ AuthController.regenerateKeyFile caught now e role id expiresInDays db
     = (AuthController.admin_error code message, db)
  /\ AuthController.updateUserPassword e role id password removePassword db
     = (AuthController.admin_error code message, db).
Proof.
  intros Hcase.
  unfold AuthController.revokeUserKeyFile, AuthController.regenerateKeyFile,
    AuthController.updateUserPassword, User.findById.
  destruct Hcase as [(Hrole & -> & ->)
                    |[(Hrole & Hcast & -> & ->)
                     |(Hrole & (oid & Hcast & Hnone) & -> & ->)]];
    rewrite Hrole; cbn [negb]; [repeat split| |].
  - rewrite Hcast. repeat split.
  - rewrite Hcast.
    replace (find _ _) with (@None User.t); [repeat split|].
    symmetry. destruct (find _ _) as [u|] eqn:E; [|reflexivity].
    apply find_some in E as (Hin & Hp). apply String.eqb_eq in Hp.
    now destruct (Hnone u Hin).
Qed.

(** After [revokeUserKeyFile] the principal is locked out: its record
    carries the revocation flag, none of its sessions is active at any
    time, and no login, by key file or by password, is answered 200 for
    it.  The records of the other principals are left as they were. *)
Theorem revokeUserKeyFile_locks_out (cast : string -> string) (now : Z)
  (role id : string) (db : AuthController.Db) (user : User.t) :
  AuthController.is_admin role = true ->
  User.findById id (AuthController.users db) = Return (Some user) ->
  let result := AuthController.revokeUserKeyFile now role id db in
  let db' := snd result in
  AuthController.admin_status (fst result) = 200
  /\ User.findById id (AuthController.users db')
     = Return (Some (User.revokeKeyFile user))
  /\ (forall x, In x (AuthController.users db) -> User._id x <> User._id user ->
                In x (AuthController.users db'))
  /\ (forall now',
        active_count (User._id user) now' (AuthController.sessions db') = 0)
  /\ (forall now' d req token u expiresAt,
        body (fst (AuthController.loginWithKeyFile now' d req db'))
        = LoginBody token u expiresAt -> User._id u <> User._id user)
  /\ (forall now' d req token u expiresAt,
        body (fst (AuthController.loginWithPassword cast now' d req db'))
        = LoginBody token u expiresAt -> User._id u <> User._id user).
Proof.
  intros Hadmin Hfind result db'. subst db' result.
  destruct (findById_spec _ _ _ Hfind) as (Hin & Hid).
  unfold AuthController.revokeUserKeyFile.
  rewrite Hadmin, Hfind. cbn [negb fst snd AuthController.admin_status
    AuthController.users AuthController.sessions].
  assert (Hrid : User._id (User.revokeKeyFile user) = User._id user)
    by reflexivity.
  assert (Hlocked : forall x,
             In x (User.save (User.revokeKeyFile user)
                     (AuthController.users db)) ->
             User.keyFileRevoked x = false -> User._id x <> User._id user).
  { intros x Hx Hrev Hxid.
    apply in_user_save in Hx as [->|(_ & Hneq)]; [discriminate|].
    apply Hneq. now rewrite Hrid. }
  split; [reflexivity|]. split; [now apply findById_save with user|].
  split; [|split; [|split]].
  - intros x Hx Hneq. apply user_save_keeps; [assumption|].
    now rewrite Hrid.
  - intros now'. rewrite Hrid. apply no_active_after_terminateAll.
  - intros now' d req token u expiresAt Hbody.
    apply loginWithKeyFile_subject in Hbody as (x & Hx & Hrev & ->).
    now apply Hlocked.
  - intros now' d req token u expiresAt Hbody.
    apply loginWithPassword_subject in Hbody as (x & Hx & Hrev & _ & ->).
    now apply Hlocked.
Qed.

Lemma regenerated_role (user : User.t) (expiresAt now : Z) (keyId : string) :
  String.eqb
    (kp_role (CryptoService.key_payload now keyId
                (AuthController.regenerated_data user expiresAt)))
    "superadmin"
  = String.eqb (User.role user) "superadmin".
Proof.
  cbn. destruct (String.eqb_spec (User.role user) "") as [->|]; reflexivity.
Qed.

(** [regenerateKeyFile] of a principal with an expiry that has not passed
    (or of a superadmin), when the identifier drawn is not that of
    another record: the answer is 200 with the new key file, which
    validates to the identifier the call drew; the record carries that
    identifier and no revocation flag, so that the new identifier finds
    the principal when it is active and no other identifier does; and none
    of its sessions is active at any time. *)
Theorem regenerateKeyFile_rotates (caught : AuthController.CaughtMessages)
  (now : Z) (e : Entropy) (role id : string) (expiresInDays : option Z)
  (db : AuthController.Db) (user : User.t) :
  let expiresAt := now + or_number expiresInDays 365 * 24 * 60 * 60 * 1000 in
  let userData := AuthController.regenerated_data user expiresAt in
  AuthController.is_admin role = true ->
  User.findById id (AuthController.users db) = Return (Some user) ->
  AuthController.is_date expiresAt = true ->
  keyfile_contracts now e userData ->
  User.role user = "superadmin" \/ now <= expiresAt ->
  (forall x, In x (AuthController.users db) -> User._id x <> User._id user ->
             User.has_keyFileId (randomUUID e) x = false) ->
  let result :=
    AuthController.regenerateKeyFile caught now e role id expiresInDays db in
  let db' := snd result in
  let user' := User.with_keyFile (Some (randomUUID e)) false user in
  let keyFile := CryptoService.generateKeyFile now e userData in
  fst result
  = {| AuthController.admin_status := 200;
       AuthController.admin_body :=
         AuthController.AdminKeyFile user' keyFile
           (String.append (User.username user) "_keyfile.akey") |}
  /\ CryptoService.validateKeyFile now keyFile
     = CryptoService.Valid
         (CryptoService.key_payload now (randomUUID e) userData)
  /\ User.findById id (AuthController.users db') = Return (Some user')
  /\ (User.isActive user = true ->
      User.findByKeyFileId (randomUUID e) (AuthController.users db')
      = Some user')
  /\ (forall keyId u,
        keyId <> randomUUID e ->
        User.findByKeyFileId keyId (AuthController.users db') = Some u ->
        User._id u <> User._id user)
  /\ (forall now',
        active_count (User._id user) now' (AuthController.sessions db') = 0).
Proof.
  intros expiresAt userData Hadmin Hfind Hdate HC Hlive Hfresh
    result db' user' keyFile.
  destruct (findById_spec _ _ _ Hfind) as (Hin & Hid).
  assert (Hvalid : CryptoService.validateKeyFile now keyFile
                   = CryptoService.Valid
                       (CryptoService.key_payload now (randomUUID e) userData)).
  { unfold CryptoService.validateKeyFile, keyFile.
    rewrite (validateKeyFile_try_generated now now e userData HC).
    unfold userData at 1. rewrite regenerated_role.
    replace (_ && _) with false; [reflexivity|].
    destruct Hlive as [-> | Hlive]; [reflexivity|].
    symmetry. apply andb_false_iff. right. apply Z.ltb_ge. exact Hlive. }
  assert (Hnodup :
            existsb (fun x => negb (String.eqb (User._id x) (User._id user'))
                              && User.has_keyFileId (randomUUID e) x)
              (AuthController.users db) = false).
  { destruct (existsb _ _) eqn:E; [|reflexivity].
    apply existsb_exists in E as (x & Hx & Hp).
    apply andb_true_iff in Hp as (Hneq & Hhas).
    apply negb_true_iff, String.eqb_neq in Hneq.
    rewrite Hfresh in Hhas; [discriminate|assumption|].
    intros Hxid. apply Hneq. exact Hxid. }
  assert (Hresult :
            result
            = ({| AuthController.admin_status := 200;
                  AuthController.admin_body :=
                    AuthController.AdminKeyFile user' keyFile
                      (String.append (User.username user) "_keyfile.akey") |},
               {| AuthController.users :=
                    User.save user' (AuthController.users db);
                  AuthController.sessions :=
                    Session.terminateAllForUser (User._id user)
                      Session.revoked now (AuthController.sessions db) |})).
  { unfold result, AuthController.regenerateKeyFile.
    rewrite Hadmin, Hfind. cbn [negb]. fold expiresAt. rewrite Hdate.
    cbn [negb]. fold userData. fold keyFile. rewrite Hvalid.
    cbn [kp_keyId CryptoService.key_payload]. fold user'.
    rewrite Hnodup.
    reflexivity. }
  subst db'. rewrite Hresult.
  cbn [fst snd AuthController.users AuthController.sessions].
  assert (Huid : User._id user' = User._id user) by reflexivity.
  split; [reflexivity|]. split; [exact Hvalid|].
  split; [now apply findById_save with user|].
  split; [|split].
  - intros Hact. unfold User.findByKeyFileId.
    apply find_only with user'.
    + apply in_map_iff. exists user. split; [|assumption].
      now rewrite Huid, String.eqb_refl.
    + unfold User.has_keyFileId. cbn. rewrite String.eqb_refl.
      exact Hact.
    + intros z Hz Hp. apply in_user_save in Hz as [->|(Hz & Hneq)];
        [reflexivity|].
      rewrite Huid in Hneq. rewrite (Hfresh z Hz Hneq) in Hp. discriminate.
  - intros keyId u Hother Hfound Huid'.
    apply find_some in Hfound as (Hu & Hp).
    apply in_user_save in Hu as [->|(_ & Hneq)].
    + apply andb_true_iff in Hp as (Hp & _).
      apply andb_true_iff in Hp as (Hp & _).
      unfold User.has_keyFileId in Hp. cbn in Hp.
      apply String.eqb_eq in Hp. congruence.
    + apply Hneq. now rewrite Huid.
  - intros now'. apply no_active_after_terminateAll.
Qed.

(** A negative [expiresInDays] for a principal that is no superadmin:
    the key file that is made has already expired, its validation carries
    no data, and the operation is answered 500 with the message of the
    error thrown on reading [keyId]; the record keeps its key file and the
    sessions stay. *)
Theorem regenerateKeyFile_past_expiry (caught : AuthController.CaughtMessages)
  (now : Z) (e : Entropy) (role id : string) (days : Z)
  (db : AuthController.Db) (user : User.t) :
  let expiresAt := now + days * 24 * 60 * 60 * 1000 in
  AuthController.is_admin role = true ->
  User.findById id (AuthController.users db) = Return (Some user) ->
  days < 0 ->
  AuthController.is_date expiresAt = true ->
  keyfile_contracts now e (AuthController.regenerated_data user expiresAt) ->
  User.role user <> "superadmin" ->
  CryptoService.validateKeyFile now
    (CryptoService.generateKeyFile now e
       (AuthController.regenerated_data user expiresAt))
  = CryptoService.Invalid "Key file has expired"
  /\ AuthController.regenerateKeyFile caught now e role id (Some days) db
     = (AuthController.admin_error 500 (AuthController.msg_no_data caught),
        db).
Proof.
  intros expiresAt Hadmin Hfind Hneg Hdate HC Hrole.
  assert (Hinvalid :
            CryptoService.validateKeyFile now
              (CryptoService.generateKeyFile now e
                 (AuthController.regenerated_data user expiresAt))
            = CryptoService.Invalid "Key file has expired").
  { unfold CryptoService.validateKeyFile.
    rewrite (validateKeyFile_try_generated now now e _ HC).
    rewrite regenerated_role.
    apply String.eqb_neq in Hrole. rewrite Hrole.
    cbn [negb andb CryptoService.key_payload kp_expiresAt or_value
           AuthController.regenerated_data ud_expiresAt].
    replace (expiresAt <? now) with true; [reflexivity|].
    symmetry. apply Z.ltb_lt. unfold expiresAt. lia. }
  split; [exact Hinvalid|].
  unfold AuthController.regenerateKeyFile.
  rewrite Hadmin, Hfind. cbn [negb].
  assert (Hdays : or_number (Some days) 365 = days).
  { cbn. replace (days =? 0) with false; [reflexivity|].
    symmetry. apply Z.eqb_neq. lia. }
  rewrite Hdays. fold expiresAt. rewrite Hdate. cbn [negb].
  now rewrite Hinvalid.
Qed.

(** [updateUserPassword] with a password of eight ASCII characters or
    more: the answer is 200, the record then accepts that password,
    nothing but its hash has changed, and the sessions are left alone. *)
Theorem updateUserPassword_sets (e : Entropy) (role id password : string)
  (db : AuthController.Db) (user : User.t) :
  AuthController.is_admin role = true ->
  User.findById id (AuthController.users db) = Return (Some user) ->
  (User.role user = "superadmin" -> role = "superadmin") ->
  AuthController.ascii_only password = true ->
  (8 <= String.length password)%nat ->
  let result :=
    AuthController.updateUserPassword e role id (Some password) false db in
  let user' := User.setPassword e password user in
  fst result
  = {| AuthController.admin_status := 200;
       AuthController.admin_body :=
         AuthController.AdminMessage "Password updated successfully"
           (Some user') |}
  /\ User.findById id (AuthController.users (snd result)) = Return (Some user')
  /\ User.validatePassword password user' = Return true
  /\ user' = User.with_passwordHash (User.passwordHash user') user
  /\ AuthController.sessions (snd result) = AuthController.sessions db.
Proof.
  intros Hadmin Hfind Hsuper _ Hlen result user'.
  destruct (findById_spec _ _ _ Hfind) as (_ & Hid).
  assert (Hguard : String.eqb (User.role user) "superadmin"
                   && negb (String.eqb role "superadmin") = false).
  { destruct (String.eqb_spec (User.role user) "superadmin") as [Hr|];
      [|reflexivity].
    rewrite (Hsuper Hr). reflexivity. }
  assert (Hne : password <> "").
  { intros ->. cbn in Hlen. lia. }
  assert (Hresult :
            result
            = ({| AuthController.admin_status := 200;
                  AuthController.admin_body :=
                    AuthController.AdminMessage
                      "Password updated successfully" (Some user') |},
               {| AuthController.users :=
                    User.save user' (AuthController.users db);
                  AuthController.sessions := AuthController.sessions db |})).
  { unfold result, AuthController.updateUserPassword.
    rewrite Hadmin, Hfind, Hguard. cbn [negb].
    rewrite (or_string_given _ _ Hne).
    apply String.eqb_neq in Hne. rewrite Hne. cbn [orb].
    replace (String.length password <? 8)%nat with false; [reflexivity|].
    symmetry. now apply Nat.ltb_ge. }
  rewrite Hresult.
  cbn [fst snd AuthController.users AuthController.sessions].
  split; [reflexivity|].
  split; [now apply findById_save with user|].
  split; [|split; reflexivity].
  unfold user'. rewrite validatePassword_after_setPassword.
  unfold CryptoService.timingSafeEqual.
  now rewrite Nat.eqb_refl, buffer_eqb_refl.
Qed.

(** [updateUserPassword] with [removePassword]: the answer is 200, the
    record has no hash any more and refuses every password, no password
    login is answered 200 for the principal, and the sessions it has stay
    as they were. *)
Theorem updateUserPassword_removes (cast : string -> string) (e : Entropy)
  (role id : string) (password : option string) (db : AuthController.Db)
  (user : User.t) :
  AuthController.is_admin role = true ->
  User.findById id (AuthController.users db) = Return (Some user) ->
  (User.role user = "superadmin" -> role = "superadmin") ->
  let result :=
    AuthController.updateUserPassword e role id password true db in
  let db' := snd result in
  let user' := User.with_passwordHash None user in
  AuthController.admin_status (fst result) = 200
  /\ User.findById id (AuthController.users db') = Return (Some user')
  /\ (forall p, User.validatePassword p user' = Return false)
  /\ (forall now d req token u expiresAt,
        body (fst (AuthController.loginWithPassword cast now d req db'))
        = LoginBody token u expiresAt -> User._id u <> User._id user)
  /\ AuthController.sessions db' = AuthController.sessions db.
Proof.
  intros Hadmin Hfind Hsuper result db' user'.
  destruct (findById_spec _ _ _ Hfind) as (_ & Hid).
  assert (Hguard : String.eqb (User.role user) "superadmin"
                   && negb (String.eqb role "superadmin") = false).
  { destruct (String.eqb_spec (User.role user) "superadmin") as [Hr|];
      [|reflexivity].
    rewrite (Hsuper Hr). reflexivity. }
  subst db' result. unfold AuthController.updateUserPassword.
  rewrite Hadmin, Hfind, Hguard.
  cbn [negb fst snd AuthController.admin_status AuthController.users
         AuthController.sessions].
  fold user'.
  assert (Huid : User._id user' = User._id user) by reflexivity.
  split; [reflexivity|].
  split; [now apply findById_save with user|].
  split; [reflexivity|]. split; [|reflexivity].
  intros now d req token u expiresAt Hbody Hu.
  apply loginWithPassword_subject in Hbody as (x & Hx & _ & Hhash & Hxid).
  apply in_user_save in Hx as [->|(_ & Hneq)].
  - now apply Hhash.
  - apply Hneq. congruence.
Qed.

(** What [updateUserPassword] refuses, leaving the database as it was: an
    admin who is no superadmin on the record of a superadmin (403), and,
    unless the password is to be removed, an absent password or one of
    fewer than eight characters (400). *)
Theorem updateUserPassword_refusals (e : Entropy) (role id : string)
  (password : option string) (removePassword : bool)
  (db : AuthController.Db) (user : User.t) :
  AuthController.is_admin role = true ->
  User.findById id (AuthController.users db) = Return (Some user) ->
  let result :=
    AuthController.updateUserPassword e role id password removePassword db in
  (User.role user = "superadmin" -> role <> "superadmin" ->
   result
   = (AuthController.admin_error 403 "Cannot modify superadmin account", db))
  /\ ((User.role user = "superadmin" -> role = "superadmin") ->
      removePassword = false ->
      (String.length (or_string password "") < 8)%nat ->
      result
      = (AuthController.admin_error 400
           "Password must be at least 8 characters", db)).
Proof.
  intros Hadmin Hfind result. subst result.
  unfold AuthController.updateUserPassword. rewrite Hadmin, Hfind.
  cbn [negb]. split.
  - intros Hr Hrole. apply String.eqb_eq in Hr. apply String.eqb_neq in Hrole.
    now rewrite Hr, Hrole.
  - intros Hsuper -> Hshort.
    replace (_ && _) with false.
    + apply Nat.ltb_lt in Hshort. rewrite Hshort, orb_true_r. reflexivity.
    + destruct (String.eqb_spec (User.role user) "superadmin") as [Hr|];
        [|reflexivity].
      rewrite (Hsuper Hr). reflexivity.
Qed.

End Administration.

(** ** A device that is already logged in *)

Section KnownDevice.
Context {RT : NodeRuntime}.

(** A login from a device on which the principal holds an active,
    unexpired session evicts nothing, however many devices the principal
    has: making room leaves the collection as it is, and when the record
    is created the principal has one active session more than before. *)
Theorem known_device_evicts_nothing (user : User.t) (now : Z)
  (d : AuthController.LoginDraw) (req : AuthController.LoginRequest)
  (c : Session.Collection) (s : Session.t) :
  let fp := request_fingerprint req in
  AuthController.existingSession (User._id user) fp now c = Some s ->
  AuthController.check_device_limit user fp now c = c
  /\ (forall s' c',
        Session.create now (AuthController.draw_session_id d)
          (AuthController.new_session user fp now d req) c = Some (s', c') ->
        admission user now d req c = c'
        /\ c' = c ++ [s']
        /\ active_count (User._id user) now c'
           = active_count (User._id user) now c + 1).
Proof.
  intros fp Hknown.
  assert (Hroom : AuthController.check_device_limit user fp now c = c).
  { unfold AuthController.check_device_limit. rewrite Hknown.
    now destruct (_ >=? _). }
  split; [exact Hroom|].
  intros s' c' Hcreate.
  split; [unfold admission; fold fp; now rewrite Hroom, Hcreate|].
  unfold Session.create in Hcreate.
  destruct (_ || _); [discriminate|].
  injection Hcreate as <- <-. split; [reflexivity|].
  unfold active_count, Session.getActiveSessionsForUser.
  rewrite filter_app, length_app, Nat2Z.inj_add. f_equal.
  cbn [filter]. unfold Session.active_for_user.
  cbn [Session.user Session.isActive Session.neverExpires Session.expiresAt
       AuthController.new_session Session.new_user Session.new_expiresAt].
  rewrite String.eqb_refl.
  assert (Hlater : (now <? now + 86400000) = true)
    by (apply Z.ltb_lt; lia).
  change (24 * 60 * 60 * 1000) with 86400000.
  rewrite Hlater. reflexivity.
Qed.

End KnownDevice.

(** * The properties at sample inputs *)

#[local] Existing Instance SampleRuntime.runtime.

Lemma hashPassword_verifyPassword_witness :
  List.length (randomBytes SampleRuntime.entropy 16) = 16%nat
  /\ List.length
       (pbkdf2Sync "s3cret-pass" (randomBytes SampleRuntime.entropy 16)
          100000 64) = 64%nat
  /\ CryptoService.verifyPassword "s3cret-pass"
       (CryptoService.hashPassword SampleRuntime.entropy "s3cret-pass")
     = Return true.
Proof.
  split; [reflexivity|]. split; [reflexivity|].
  apply (hashPassword_verifyPassword SampleRuntime.entropy "s3cret-pass");
    reflexivity.
Defined.

Ltac run_contract :=
  vm_compute; first [reflexivity | discriminate | lia].

Lemma keyfile_roundtrip_witness :
  let supplied := SampleRuntime.carol_data in
  let omitted := SampleRuntime.alice_data in
  keyfile_contracts 1000 SampleRuntime.entropy_c supplied
  /\ keyfile_contracts 1000 SampleRuntime.entropy omitted
  /\ ("admin" = "superadmin" \/ 5000 <= 9000)
  /\ ("user" = "superadmin" \/ 5000 <= 1000 + 365 * 24 * 60 * 60 * 1000)
  /\ (exists claims : KeyFilePayload,
        CryptoService.validateKeyFile 5000
          (CryptoService.generateKeyFile 1000 SampleRuntime.entropy_c supplied)
        = CryptoService.Valid claims
        /\ kp_email claims = "carol@example.org"
        /\ kp_role claims = "admin"
        /\ kp_deviceLimit claims = 2
        /\ kp_permissions claims = ["read"; "write"; "admin"]
        /\ kp_expiresAt claims = 9000
        /\ kp_keyId claims = randomUUID SampleRuntime.entropy_c)
  /\ (exists claims : KeyFilePayload,
        CryptoService.validateKeyFile 5000
          (CryptoService.generateKeyFile 1000 SampleRuntime.entropy omitted)
        = CryptoService.Valid claims
        /\ kp_email claims = ""
        /\ kp_role claims = "user"
        /\ kp_deviceLimit claims = 3
        /\ kp_permissions claims = ["read"; "write"]
        /\ kp_expiresAt claims = 1000 + 365 * 24 * 60 * 60 * 1000
        /\ kp_keyId claims = randomUUID SampleRuntime.entropy).
Proof.
  intros supplied omitted.
  assert (HCs : keyfile_contracts 1000 SampleRuntime.entropy_c supplied)
    by (repeat split; run_contract).
  assert (HCo : keyfile_contracts 1000 SampleRuntime.entropy omitted)
    by (repeat split; run_contract).
  assert (HLs : "admin" = "superadmin" \/ 5000 <= 9000) by (right; lia).
  assert (HLo : "user" = "superadmin"
                \/ 5000 <= 1000 + 365 * 24 * 60 * 60 * 1000)
    by (right; lia).
  repeat (split; [assumption|]).
  split.
  - destruct (keyfile_roundtrip 1000 5000 SampleRuntime.entropy_c supplied
                HCs HLs)
      as (claims & Hv & _ & _ & Hmail & Hrole & Hlimit & Hperm & Hexp & _
          & Hid & _).
    exists claims. repeat split; assumption.
  - destruct (keyfile_roundtrip 1000 5000 SampleRuntime.entropy omitted
                HCo HLo)
      as (claims & Hv & _ & _ & Hmail & Hrole & Hlimit & Hperm & Hexp & _
          & Hid & _).
    exists claims. repeat split; assumption.
Defined.

Lemma tampered_keyfile_rejected_witness :
  let file :=
    CryptoService.generateKeyFile 1000 SampleRuntime.entropy
      SampleRuntime.alice_data in
  let hmacKey :=
    CryptoService.deriveKey
      (randomBytes SampleRuntime.entropy CryptoService.SALT_LENGTH
         ++ utf8 "hmac") in
  keyfile_contracts 1000 SampleRuntime.entropy SampleRuntime.alice_data
  /\ (58 <= 120 < List.length file)%nat
  /\ xff <> nth 120 file x00
  /\ ((106 <= 120)%nat ->
      hmac_separates hmacKey (skipn 106 file)
        (skipn 106 (flip_byte 120 xff file)))
  /\ CryptoService.validateKeyFile 5000 (flip_byte 120 xff file)
     = CryptoService.Invalid "Invalid key file: Signature mismatch".
Proof.
  intros file hmacKey.
  assert (HC : keyfile_contracts 1000 SampleRuntime.entropy
                 SampleRuntime.alice_data)
    by (repeat split; run_contract).
  assert (Hi : (58 <= 120 < List.length file)%nat)
    by (split; [lia | apply Nat.ltb_lt; vm_compute; reflexivity]).
  assert (Hb : xff <> nth 120 file x00) by (vm_compute; discriminate).
  assert (Hsep : (106 <= 120)%nat ->
                 hmac_separates hmacKey (skipn 106 file)
                   (skipn 106 (flip_byte 120 xff file)))
    by (intros _; split; vm_compute; [reflexivity | discriminate]).
  repeat (split; [assumption|]).
  exact (tampered_keyfile_rejected 1000 5000 SampleRuntime.entropy
           SampleRuntime.alice_data 120 xff HC Hi Hb Hsep).
Defined.

Lemma expiry_enforced_witness :
  let odd :=
    {| sd_userId := SampleRuntime.alice_id; sd_username := "alice";
       sd_role := "constructor"; sd_permissions := ["read"];
       sd_deviceFingerprint := "fp-a" |} in
  keyfile_contracts 1000 SampleRuntime.entropy SampleRuntime.alice_data
  /\ token_contracts 1000 SampleRuntime.entropy SampleRuntime.alice_session
       (Some 500)
  /\ token_contracts 1000 SampleRuntime.entropy SampleRuntime.alice_session
       None
  /\ token_contracts 1000 SampleRuntime.entropy odd None
  /\ CryptoService.validateKeyFile 40000000000
       (CryptoService.generateKeyFile 1000 SampleRuntime.entropy
          SampleRuntime.alice_data)
     = CryptoService.Invalid "Key file has expired"
  /\ CryptoService.validateSessionToken 2000
       (CryptoService.generateSessionToken 1000 SampleRuntime.entropy
          SampleRuntime.alice_session (Some 500))
     = None
  /\ CryptoService.validateSessionToken 3000000000
       (CryptoService.generateSessionToken 1000 SampleRuntime.entropy
          SampleRuntime.alice_session None)
     = None
  /\ CryptoService.validateSessionToken 3000000000
       (CryptoService.generateSessionToken 1000 SampleRuntime.entropy
          odd None)
     = Some (CryptoService.token_payload 1000
               (randomUUID SampleRuntime.entropy) odd None).
Proof.
  intros odd.
  assert (HK : keyfile_contracts 1000 SampleRuntime.entropy
                 SampleRuntime.alice_data)
    by (repeat split; run_contract).
  assert (HT : token_contracts 1000 SampleRuntime.entropy
                 SampleRuntime.alice_session (Some 500))
    by (repeat split; run_contract).
  assert (HN : token_contracts 1000 SampleRuntime.entropy
                 SampleRuntime.alice_session None)
    by (repeat split; run_contract).
  assert (HO : token_contracts 1000 SampleRuntime.entropy odd None)
    by (repeat split; run_contract).
  repeat (split; [assumption|]).
  destruct (expiry_enforced 1000 1000 40000000000 SampleRuntime.entropy
              SampleRuntime.entropy SampleRuntime.alice_data
              SampleRuntime.alice_session (Some 500) HK HT)
    as (Hfile & _).
  destruct (expiry_enforced 1000 1000 2000 SampleRuntime.entropy
              SampleRuntime.entropy SampleRuntime.alice_data
              SampleRuntime.alice_session (Some 500) HK HT)
    as (_ & _ & _ & _ & Hgiven & _).
  destruct (expiry_enforced 1000 1000 3000000000 SampleRuntime.entropy
              SampleRuntime.entropy SampleRuntime.alice_data
              SampleRuntime.alice_session None HK HN)
    as (_ & _ & _ & _ & _ & Hdefault & _).
  destruct (expiry_enforced 1000 1000 3000000000 SampleRuntime.entropy
              SampleRuntime.entropy SampleRuntime.alice_data
              odd None HK HO)
    as (_ & _ & _ & _ & _ & _ & Hodd & _).
  split; [|split; [|split]].
  - apply Hfile; [vm_compute; discriminate | vm_compute; reflexivity].
  - apply (Hgiven ltac:(discriminate) 500 eq_refl). lia.
  - apply Hdefault; [discriminate | reflexivity | | lia].
    intros Hin. cbn in Hin.
    repeat (destruct Hin as [Hin|Hin]; [discriminate Hin|]). exact Hin.
  - apply Hodd; [reflexivity | left; reflexivity].
Defined.

(** *** The device limit *)

(** A principal with device limit 1 who logs in twice from the same device
    holds two active sessions: the second login finds the device among the
    active ones and evicts nothing. *)
Lemma device_limit_counterexample :
  let req := SampleRuntime.key_request SampleRuntime.entropy_b
               SampleRuntime.bob_data SampleRuntime.laptop in
  let db1 := snd (AuthController.loginWithKeyFile 2000 SampleRuntime.draw1
                    req SampleRuntime.db0) in
  let db2 := snd (AuthController.loginWithKeyFile 3000 SampleRuntime.draw2
                    req db1) in
  User.deviceLimit SampleRuntime.bob_user = 1
  /\ active_count SampleRuntime.bob_id 3000 (AuthController.sessions db2) = 2
  /\ ~ active_count SampleRuntime.bob_id 3000 (AuthController.sessions db2)
       <= User.deviceLimit SampleRuntime.bob_user.
Proof.
  intros req db1 db2.
  assert (Hcount : active_count SampleRuntime.bob_id 3000
      (AuthController.sessions db2) = 2)
    by (vm_compute; reflexivity).
  split; [reflexivity|]. split; [exact Hcount|].
  rewrite Hcount. cbn. lia.
Qed.

Lemma device_limit_admission_witness :
  let req := SampleRuntime.key_request SampleRuntime.entropy_b
               SampleRuntime.bob_data SampleRuntime.laptop in
  let c := AuthController.sessions
             (snd (AuthController.loginWithKeyFile 2000 SampleRuntime.draw1
                     req SampleRuntime.db0)) in
  let fp := CryptoService.generateDeviceFingerprint SampleRuntime.phone in
  let c1 := AuthController.check_device_limit SampleRuntime.bob_user fp
              3000 c in
  1 <= User.deviceLimit SampleRuntime.bob_user
  /\ device_slots_ok SampleRuntime.bob_id 3000 1 c = true
  /\ new_device SampleRuntime.bob_id fp c = true
  /\ active_count SampleRuntime.bob_id 3000 c1 <= 1.
Proof.
  intros req c fp c1.
  assert (HN : 1 <= User.deviceLimit SampleRuntime.bob_user)
    by (vm_compute; discriminate).
  assert (Hok : device_slots_ok (User._id SampleRuntime.bob_user) 3000
                  (User.deviceLimit SampleRuntime.bob_user) c = true)
    by (vm_compute; reflexivity).
  assert (Hnew : new_device (User._id SampleRuntime.bob_user) fp c = true)
    by (vm_compute; reflexivity).
  split; [exact HN|]. split; [exact Hok|]. split; [exact Hnew|].
  destruct (device_limit_admission SampleRuntime.bob_user fp 3000
              SampleRuntime.draw2
              (SampleRuntime.key_request SampleRuntime.entropy_b
                 SampleRuntime.bob_data SampleRuntime.phone)
              c HN Hok Hnew) as (_ & H & _).
  exact H.
Defined.

(** *** The authentication boundary *)

(** Two rejected key files, two different answers: the caller learns which
    check failed. *)
Lemma uniform_failure_counterexample :
  let short := SampleRuntime.raw_request "AAAA" in
  let zeros :=
    SampleRuntime.raw_request
      (String.concat "" (repeat "AAAAAAAAAAAA" 12)) in
  let answer req :=
    fst (AuthController.loginWithKeyFile 2000 SampleRuntime.draw1 req
           SampleRuntime.db0) in
  answer short
  = AuthController.error_response 401 "Invalid key file: Too small"
  /\ answer zeros
     = AuthController.error_response 401 "Invalid key file: Bad magic"
  /\ answer short <> answer zeros.
Proof.
  intros short zeros answer.
  assert (H1 : answer short
               = AuthController.error_response 401
                   "Invalid key file: Too small")
    by (vm_compute; reflexivity).
  assert (H2 : answer zeros
               = AuthController.error_response 401
                   "Invalid key file: Bad magic")
    by (vm_compute; reflexivity).
  split; [exact H1|]. split; [exact H2|].
  rewrite H1, H2. discriminate.
Qed.

Lemma keyfile_failure_surfaced_witness :
  AuthController.req_keyFile (SampleRuntime.raw_request "AAAA") = Some "AAAA"
  /\ "AAAA" <> EmptyString
  /\ CryptoService.validateKeyFile 2000 (base64_decode "AAAA")
     = CryptoService.Invalid "Invalid key file: Too small".
Proof.
  assert (Hreq : AuthController.req_keyFile (SampleRuntime.raw_request "AAAA")
                 = Some "AAAA") by reflexivity.
  assert (Hne : "AAAA" <> EmptyString) by discriminate.
  split; [exact Hreq|]. split; [exact Hne|].
  destruct (keyfile_failure_surfaced 2000 SampleRuntime.draw1
              (SampleRuntime.raw_request "AAAA") SampleRuntime.db0 "AAAA"
              Hreq Hne) as (_ & Hsmall & _).
  apply Hsmall. vm_compute. lia.
Defined.

(** *** Session records *)

(** The record of a superadmin's login: it expires 24 hours after its
    creation and its never-expires flag is off. *)
Lemma superadmin_session_record :
  let req := SampleRuntime.key_request SampleRuntime.entropy
               SampleRuntime.root_data SampleRuntime.laptop in
  let result := AuthController.loginWithKeyFile 2000 SampleRuntime.draw1 req
                  SampleRuntime.db0 in
  User.role SampleRuntime.root_user = "superadmin"
  /\ status (fst result) = 200
  /\ map (fun s => (Session.user s, Session.neverExpires s,
                    Session.expiresAt s - Session.createdAt s))
       (AuthController.sessions (snd result))
     = [(SampleRuntime.root_id, false, 24 * 60 * 60 * 1000)].
Proof. vm_compute. repeat split. Qed.

Lemma login_session_record_witness :
  let req := SampleRuntime.key_request SampleRuntime.entropy
               SampleRuntime.root_data SampleRuntime.laptop in
  let result := AuthController.loginWithKeyFile 2000 SampleRuntime.draw1 req
                  SampleRuntime.db0 in
  AuthController.loginWithKeyFile 2000 SampleRuntime.draw1 req
    SampleRuntime.db0 = (fst result, snd result)
  /\ status (fst result) = 200
  /\ exists (user : User.t) (s : Session.t),
       In user (AuthController.users SampleRuntime.db0)
       /\ Session.user s = User._id user
       /\ Session.neverExpires s = false.
Proof.
  intros req result.
  assert (Hrun : AuthController.loginWithKeyFile 2000 SampleRuntime.draw1 req
                   SampleRuntime.db0 = (fst result, snd result))
    by apply surjective_pairing.
  assert (Hstatus : status (fst result) = 200) by (vm_compute; reflexivity).
  split; [exact Hrun|]. split; [exact Hstatus|].
  destruct (login_session_record 2000 SampleRuntime.draw1 req
              SampleRuntime.db0 (fst result) (snd result) Hrun Hstatus)
    as (user & s & Hin & _ & Huser & _ & _ & _ & _ & _ & Hnever).
  exists user, s. repeat split; assumption.
Defined.

(** A session logged out at 2500 and then terminated by an administrator at
    2900. *)
Lemma terminateSession_overwrites_witness :
  let s := SampleRuntime.flagged_session in
  let c := [Session.terminate 2500 Session.logout s] in
  AuthController.is_admin "admin" = true
  /\ Session.findById "6600D4A17C5E2B9F30A86C00" c
     = Return (Some (Session.terminate 2500 Session.logout s))
  /\ snd (AuthController.terminateSession 2900 "admin"
            "6600D4A17C5E2B9F30A86C00" c)
     = [Session.terminate 2900 Session.admin_action s].
Proof.
  intros s c.
  assert (Hadmin : AuthController.is_admin "admin" = true) by reflexivity.
  assert (Hfind : Session.findById "6600D4A17C5E2B9F30A86C00" c
                  = Return (Some (Session.terminate 2500 Session.logout s)))
    by (vm_compute; reflexivity).
  split; [exact Hadmin|]. split; [exact Hfind|].
  destruct (terminateSession_overwrites 2500 2900 Session.logout "admin"
              "6600D4A17C5E2B9F30A86C00" s c Hadmin Hfind) as (-> & _).
  reflexivity.
Defined.

(** *** Bearer validation *)

Lemma protect_requires_both_witness :
  let token :=
    CryptoService.generateSessionToken 1000 SampleRuntime.entropy
      SampleRuntime.alice_session None in
  String.prefix "Bearer " (String.append "Bearer " token) = true
  /\ fst (AuthMiddleware.protect 2000 (Some (String.append "Bearer " token))
            [SampleRuntime.flagged_session])
     = AuthMiddleware.Respond
         {| status := 401; body := ErrorBody "Session expired or invalidated" |}.
Proof.
  intros token.
  assert (Hprefix : String.prefix "Bearer " (String.append "Bearer " token)
                    = true) by (vm_compute; reflexivity).
  split; [exact Hprefix|].
  destruct (protect_requires_both 2000 (String.append "Bearer " token)
              [SampleRuntime.flagged_session] Hprefix) as (_ & H & _).
  rewrite (H (CryptoService.token_payload 1000
                (randomUUID SampleRuntime.entropy)
                SampleRuntime.alice_session None)).
  - reflexivity.
  - vm_compute. reflexivity.
  - intros s [<- | []] Htok. vm_compute in Htok. discriminate.
Defined.

(** A record with the never-expires flag on, whose [expiresAt] has passed,
    and the valid token of its superadmin owner. *)
Lemma protect_rejects_past_expiresAt_witness :
  let header :=
    String.append "Bearer "
      (Session.sessionToken SampleRuntime.flagged_session) in
  (forall s, In s [SampleRuntime.flagged_session] ->
             Session.sessionToken s = AuthMiddleware.strip_bearer header ->
             Session.expiresAt s <= 6000)
  /\ Session.neverExpires SampleRuntime.flagged_session = true
  /\ CryptoService.validateSessionToken 6000
       (AuthMiddleware.strip_bearer header) <> None
  /\ AuthMiddleware.protect 6000 (Some header)
       [SampleRuntime.flagged_session]
     = (AuthMiddleware.Respond
          {| status := 401;
             body := ErrorBody "Session expired or invalidated" |},
        [SampleRuntime.flagged_session]).
Proof.
  intros header.
  assert (Hpast : forall s, In s [SampleRuntime.flagged_session] ->
             Session.sessionToken s = AuthMiddleware.strip_bearer header ->
             Session.expiresAt s <= 6000)
    by (intros s [<- | []] _; vm_compute; discriminate).
  split; [exact Hpast|]. split; [reflexivity|].
  split; [vm_compute; discriminate|].
  destruct (protect_rejects_past_expiresAt 6000 header
              [SampleRuntime.flagged_session] Hpast) as (_ & _ & H).
  apply (H (CryptoService.token_payload 1000
              (randomUUID SampleRuntime.entropy)
              SampleRuntime.root_session None)).
  - vm_compute. reflexivity.
  - vm_compute. reflexivity.
Defined.

(** *** Session tokens *)

Lemma session_token_roundtrip_witness :
  let odd :=
    {| sd_userId := SampleRuntime.alice_id; sd_username := "alice";
       sd_role := "toString"; sd_permissions := ["read"];
       sd_deviceFingerprint := "fp-a" |} in
  token_contracts 1000 SampleRuntime.entropy SampleRuntime.alice_session None
  /\ token_contracts 1000 SampleRuntime.entropy odd None
  /\ (exists claims : TokenPayload,
        CryptoService.validateSessionToken 5000
          (CryptoService.generateSessionToken 1000 SampleRuntime.entropy
             SampleRuntime.alice_session None)
        = Some claims
        /\ tp_exp claims = ExpAt (1000 + 30 * 24 * 60 * 60 * 1000))
  /\ (exists claims : TokenPayload,
        CryptoService.validateSessionToken 9000000000000
          (CryptoService.generateSessionToken 1000 SampleRuntime.entropy
             odd None)
        = Some claims
        /\ tp_exp claims = ExpText 1000 "toString").
Proof.
  intros odd.
  assert (HT : token_contracts 1000 SampleRuntime.entropy
                 SampleRuntime.alice_session None)
    by (repeat split; run_contract).
  assert (HO : token_contracts 1000 SampleRuntime.entropy odd None)
    by (repeat split; run_contract).
  split; [exact HT|]. split; [exact HO|]. split.
  - destruct (session_token_roundtrip 1000 5000 SampleRuntime.entropy
                SampleRuntime.alice_session None HT)
      as (claims & _ & _ & _ & _ & _ & _ & _ & Hplain & _ & Hvalid).
    assert (Hexp : tp_exp claims = ExpAt (1000 + 30 * 24 * 60 * 60 * 1000)).
    { apply Hplain; [reflexivity | discriminate |].
      intros Hin. cbn in Hin.
      repeat (destruct Hin as [Hin|Hin]; [discriminate Hin|]). exact Hin. }
    exists claims. split; [|exact Hexp].
    apply Hvalid. right. intros exp Hat. rewrite Hexp in Hat.
    injection Hat as <-. lia.
  - destruct (session_token_roundtrip 1000 9000000000000
                SampleRuntime.entropy odd None HO)
      as (claims & _ & _ & _ & _ & _ & _ & _ & _ & Hodd & Hvalid).
    assert (Hexp : tp_exp claims = ExpText 1000 "toString").
    { apply Hodd; [reflexivity|]. cbn. do 8 right. left. reflexivity. }
    exists claims. split; [|exact Hexp].
    apply Hvalid. right. intros exp Hat. rewrite Hexp in Hat. discriminate.
Defined.

Lemma short_session_token_rejected_witness :
  (List.length (base64url_decode "AAAAAAAAAAAAAAAA") < 20)%nat
  /\ CryptoService.validateSessionToken 2000 "AAAAAAAAAAAAAAAA" = None.
Proof.
  assert (H : (List.length (base64url_decode "AAAAAAAAAAAAAAAA") < 20)%nat)
    by (apply Nat.ltb_lt; vm_compute; reflexivity).
  split; [exact H|].
  exact (short_session_token_rejected 2000 "AAAAAAAAAAAAAAAA" H).
Defined.

Lemma tampered_session_token_rejected_witness :
  let iv := randomBytes SampleRuntime.entropy CryptoService.IV_LENGTH in
  let sealed :=
    CryptoService.cipher_gcm CryptoService.session_key iv
      (token_json (CryptoService.token_payload 1000
                     (randomUUID SampleRuntime.entropy)
                     SampleRuntime.alice_session None)) in
  let buffer := iv ++ snd sealed ++ fst sealed in
  let token' := base64url_encode (flip_byte 40 xff buffer) in
  token_contracts 1000 SampleRuntime.entropy SampleRuntime.alice_session None
  /\ (16 <= 40 < List.length buffer)%nat
  /\ xff <> nth 40 buffer x00
  /\ base64url_decode token' = flip_byte 40 xff buffer
  /\ CryptoService.validateSessionToken 2000 token' = None.
Proof.
  intros iv sealed buffer token'.
  assert (HT : token_contracts 1000 SampleRuntime.entropy
                 SampleRuntime.alice_session None)
    by (repeat split; run_contract).
  assert (Hi : (16 <= 40 < List.length buffer)%nat)
    by (split; [lia | apply Nat.ltb_lt; vm_compute; reflexivity]).
  assert (Hb : xff <> nth 40 buffer x00) by (vm_compute; discriminate).
  assert (Hdec : base64url_decode token' = flip_byte 40 xff buffer)
    by (vm_compute; reflexivity).
  assert (Htag : (32 <= 40)%nat ->
                 let encrypted' := skipn 32 (flip_byte 40 xff buffer) in
                 List.length (gcm_tag CryptoService.session_key iv encrypted')
                 = 16%nat
                 /\ gcm_tag CryptoService.session_key iv encrypted'
                    <> snd sealed)
    by (intros _; split; vm_compute; [reflexivity | discriminate]).
  repeat (split; [assumption|]).
  exact (tampered_session_token_rejected 1000 2000 SampleRuntime.entropy
           SampleRuntime.alice_session None token' 40 xff HT Hi Hb Hdec Htag).
Defined.

(** *** The key-file format *)

Lemma generateKeyFile_shape_witness :
  let file :=
    CryptoService.generateKeyFile 1000 SampleRuntime.entropy
      SampleRuntime.alice_data in
  keyfile_contracts 1000 SampleRuntime.entropy SampleRuntime.alice_data
  /\ (107 <= List.length file)%nat
  /\ slice file 0 8 = utf8 "ARECAKEY"
  /\ readUInt16BE file 8 = 1.
Proof.
  intros file.
  assert (HC : keyfile_contracts 1000 SampleRuntime.entropy
                 SampleRuntime.alice_data)
    by (repeat split; run_contract).
  split; [exact HC|].
  destruct (generateKeyFile_shape 1000 SampleRuntime.entropy
              SampleRuntime.alice_data HC)
    as (_ & Hlen & Hmagic & Hversion & _).
  repeat split; assumption.
Defined.

Lemma tampered_header_rejected_witness :
  let file :=
    CryptoService.generateKeyFile 1000 SampleRuntime.entropy
      SampleRuntime.alice_data in
  keyfile_contracts 1000 SampleRuntime.entropy SampleRuntime.alice_data
  /\ (9 < 10)%nat
  /\ x02 <> nth 9 file x00
  /\ CryptoService.validateKeyFile 5000 (flip_byte 9 x02 file)
     = CryptoService.Invalid "Invalid key file: Unsupported version".
Proof.
  intros file.
  assert (HC : keyfile_contracts 1000 SampleRuntime.entropy
                 SampleRuntime.alice_data)
    by (repeat split; run_contract).
  assert (Hi : (9 < 10)%nat) by lia.
  assert (Hb : x02 <> nth 9 file x00) by (vm_compute; discriminate).
  repeat (split; [assumption|]).
  exact (tampered_header_rejected 1000 5000 SampleRuntime.entropy
           SampleRuntime.alice_data 9 x02 HC Hi Hb).
Defined.

Lemma validateKeyFile_sound_witness :
  let buf :=
    CryptoService.generateKeyFile 1000 SampleRuntime.entropy
      SampleRuntime.alice_data in
  let claims :=
    CryptoService.key_payload 1000 (randomUUID SampleRuntime.entropy)
      SampleRuntime.alice_data in
  CryptoService.validateKeyFile 5000 buf = CryptoService.Valid claims
  /\ slice buf 74 106
     = hmac_sha256 (CryptoService.deriveKey (slice buf 10 42 ++ utf8 "hmac"))
         (skipn 106 buf)
  /\ (kp_role claims = "superadmin" \/ 5000 <= kp_expiresAt claims).
Proof.
  intros buf claims.
  assert (Hvalid : CryptoService.validateKeyFile 5000 buf
                   = CryptoService.Valid claims)
    by (vm_compute; reflexivity).
  split; [exact Hvalid|].
  destruct (validateKeyFile_sound 5000 buf claims Hvalid)
    as (_ & _ & _ & Hmac & _ & _ & Hlive).
  split; assumption.
Defined.

(** *** Passwords *)

Lemma setPassword_validatePassword_witness :
  let u' :=
    User.setPassword SampleRuntime.entropy "s3cret-pass"
      SampleRuntime.bob_user in
  List.length
    (pbkdf2Sync "s3cret-pass" (randomBytes SampleRuntime.entropy 16)
       100000 64) = 64%nat
  /\ User.validatePassword "s3cret-pass" u' = Return true
  /\ User.validatePassword "s3cret-past" u' = Return false.
Proof.
  intros u'.
  assert (Hlen : List.length
                   (pbkdf2Sync "s3cret-pass"
                      (randomBytes SampleRuntime.entropy 16) 100000 64)
                 = 64%nat) by reflexivity.
  split; [exact Hlen|].
  destruct (setPassword_validatePassword SampleRuntime.entropy "s3cret-pass"
              SampleRuntime.bob_user Hlen) as (Hsame & Hother & _).
  split; [exact Hsame|].
  apply Hother; [reflexivity | vm_compute; discriminate].
Defined.

Lemma password_login_rejections_witness :
  let req := SampleRuntime.password_request "carol" "wrong horse" in
  let found :=
    find (fun u => String.eqb (User.username u) "carol" && User.isActive u)
      (AuthController.users SampleRuntime.db1) in
  AuthController.pw_username req = Some "carol"
  /\ AuthController.pw_password req = Some "wrong horse"
  /\ "carol" <> "" /\ "wrong horse" <> ""
  /\ found = Some SampleRuntime.carol_user
  /\ User.validatePassword "wrong horse" SampleRuntime.carol_user
     = Return false
  /\ AuthController.loginWithPassword (fun s => s) 2000 SampleRuntime.draw1
       req SampleRuntime.db1
     = (AuthController.error_response 401 "Invalid username or password",
        SampleRuntime.db1).
Proof.
  intros req found.
  assert (Hu : AuthController.pw_username req = Some "carol") by reflexivity.
  assert (Hp : AuthController.pw_password req = Some "wrong horse")
    by reflexivity.
  assert (Hune : "carol" <> "") by discriminate.
  assert (Hpne : "wrong horse" <> "") by discriminate.
  assert (Hfound : found = Some SampleRuntime.carol_user) by reflexivity.
  assert (Hval : User.validatePassword "wrong horse" SampleRuntime.carol_user
                 = Return false) by (vm_compute; reflexivity).
  repeat (split; [assumption|]).
  destruct (password_login_rejections (fun s => s) 2000 SampleRuntime.draw1
              req SampleRuntime.db1 "carol" "wrong horse" Hu Hp Hune Hpne)
    as (_ & Hwrong & _).
  apply (Hwrong SampleRuntime.carol_user Hfound Hval);
    vm_compute; discriminate.
Defined.

Lemma password_login_malformed_hash_witness :
  let req := SampleRuntime.password_request "dave" "any password" in
  AuthController.pw_username req = Some "dave"
  /\ AuthController.pw_password req = Some "any password"
  /\ "dave" <> "" /\ "any password" <> ""
  /\ find (fun u => String.eqb (User.username u) "dave" && User.isActive u)
       (AuthController.users SampleRuntime.db1)
     = Some SampleRuntime.dave_user
  /\ User.passwordHash SampleRuntime.dave_user = Some "imported-hash"
  /\ "imported-hash" <> ""
  /\ ~ In ":"%char (list_ascii_of_string "imported-hash")
  /\ AuthController.loginWithPassword (fun s => s) 2000 SampleRuntime.draw1
       req SampleRuntime.db1
     = (AuthController.error_response 500 "Authentication failed",
        SampleRuntime.db1).
Proof.
  intros req.
  assert (Hu : AuthController.pw_username req = Some "dave") by reflexivity.
  assert (Hp : AuthController.pw_password req = Some "any password")
    by reflexivity.
  assert (Hune : "dave" <> "") by discriminate.
  assert (Hpne : "any password" <> "") by discriminate.
  assert (Hfound :
            find (fun u => String.eqb (User.username u) "dave"
                           && User.isActive u)
              (AuthController.users SampleRuntime.db1)
            = Some SampleRuntime.dave_user) by reflexivity.
  assert (Hhash : User.passwordHash SampleRuntime.dave_user
                  = Some "imported-hash") by reflexivity.
  assert (Hne : "imported-hash" <> "") by discriminate.
  assert (Hcolon : ~ In ":"%char (list_ascii_of_string "imported-hash"))
    by (cbn; intuition discriminate).
  repeat (split; [assumption|]).
  destruct (password_login_malformed_hash (fun s => s) 2000
              SampleRuntime.draw1 req SampleRuntime.db1 "dave"
              "any password" "imported-hash" SampleRuntime.dave_user
              Hu Hp Hune Hpne Hfound Hhash Hne Hcolon) as (_ & H).
  exact H.
Defined.

Lemma password_login_admission_witness :
  let req := SampleRuntime.password_request "carol" "correct horse" in
  let result :=
    AuthController.loginWithPassword (fun s => s) 2000 SampleRuntime.draw1
      req SampleRuntime.db1 in
  AuthController.pw_username req = Some "carol"
  /\ AuthController.pw_password req = Some "correct horse"
  /\ "carol" <> "" /\ "correct horse" <> ""
  /\ find (fun u => String.eqb (User.username u) "carol" && User.isActive u)
       (AuthController.users SampleRuntime.db1)
     = Some SampleRuntime.carol_user
  /\ User.validatePassword "correct horse" SampleRuntime.carol_user
     = Return true
  /\ AuthController.sessions (snd result)
     = admission SampleRuntime.carol_user 2000 SampleRuntime.draw1
         (AuthController.device_request req)
         (AuthController.sessions SampleRuntime.db1).
Proof.
  intros req result.
  assert (Hu : AuthController.pw_username req = Some "carol") by reflexivity.
  assert (Hp : AuthController.pw_password req = Some "correct horse")
    by reflexivity.
  assert (Hune : "carol" <> "") by discriminate.
  assert (Hpne : "correct horse" <> "") by discriminate.
  assert (Hfound :
            find (fun u => String.eqb (User.username u) "carol"
                           && User.isActive u)
              (AuthController.users SampleRuntime.db1)
            = Some SampleRuntime.carol_user) by reflexivity.
  assert (Hval : User.validatePassword "correct horse"
                   SampleRuntime.carol_user = Return true)
    by (vm_compute; reflexivity).
  repeat (split; [assumption|]).
  destruct (password_login_admission (fun s => s) 2000 SampleRuntime.draw1
              req SampleRuntime.db1 "carol" "correct horse"
              SampleRuntime.carol_user Hu Hp Hune Hpne Hfound Hval)
    as (_ & Hadmitted).
  destruct (Hadmitted eq_refl) as (Hsessions & _).
  exact Hsessions.
Defined.

(** *** Session records *)

Lemma logins_keep_records_witness :
  let c := AuthController.sessions SampleRuntime.db1 in
  let c' :=
    AuthController.sessions
      (snd (AuthController.loginWithPassword (fun s => s) 2000
              SampleRuntime.draw1
              (SampleRuntime.password_request "carol" "correct horse")
              SampleRuntime.db1)) in
  NoDup (map Session._id c)
  /\ NoDup (map Session.sessionToken c)
  /\ NoDup (map Session._id c')
  /\ NoDup (map Session.sessionToken c').
Proof.
  intros c c'.
  assert (Hids : NoDup (map Session._id c))
    by (repeat constructor; intros []).
  assert (Htokens : NoDup (map Session.sessionToken c))
    by (repeat constructor; intros []).
  split; [exact Hids|]. split; [exact Htokens|].
  destruct (logins_keep_records (fun s => s) 2000 SampleRuntime.draw1
              (SampleRuntime.raw_request "AAAA")
              (SampleRuntime.password_request "carol" "correct horse")
              SampleRuntime.db1 Hids Htokens c' (or_intror eq_refl))
    as (H1 & H2 & _).
  split; assumption.
Defined.


Lemma logout_invalidates_token_witness :
  let c := [SampleRuntime.flagged_session] in
  let token := Session.sessionToken SampleRuntime.flagged_session in
  let c' := snd (AuthController.logout 2000 (Some token) c) in
  NoDup (map Session._id c)
  /\ NoDup (map Session.sessionToken c)
  /\ token <> ""
  /\ (exists user session c1,
        AuthMiddleware.protect 2500 (Some (String.append "Bearer " token)) c
        = (AuthMiddleware.Next user session, c1))
  /\ exists message,
       AuthMiddleware.protect 2500 (Some (String.append "Bearer " token)) c'
       = (AuthMiddleware.Respond
            {| status := 401; body := ErrorBody message |}, c').
Proof.
  intros c token c'.
  assert (Hids : NoDup (map Session._id c))
    by (repeat constructor; intros []).
  assert (Htokens : NoDup (map Session.sessionToken c))
    by (repeat constructor; intros []).
  assert (Hne : token <> "") by (vm_compute; discriminate).
  repeat (split; [assumption|]).
  split; [do 3 eexists; vm_compute; reflexivity|].
  destruct (logout_invalidates_token 2000 2500 token c Hids Htokens Hne)
    as (_ & H).
  exact H.
Defined.


(** *** Rate limiting *)

(** Seven login attempts from one address within the minute: the sixth
    and the seventh are refused. *)
Lemma rateLimit_window_witness :
  let rest :=
    map (fun t => (5, 60000, t)) [2000; 3000; 4000; 5000; 6000; 7000] in
  let result :=
    AuthMiddleware.rateLimit_run ((5, 60000, 1000) :: rest)
      (Some "10.0.0.7") [] in
  AuthMiddleware.rate_get (or_string (Some "10.0.0.7") "unknown") [] = None
  /\ Forall (fun q => snd q <= 1000 + 60000) rest
  /\ nth_error (fst result) 4 = Some AuthMiddleware.Pass
  /\ nth_error (fst result) 5 = Some AuthMiddleware.too_many
  /\ nth_error (fst result) 6 = Some AuthMiddleware.too_many.
Proof.
  intros rest result.
  assert (Hnone : AuthMiddleware.rate_get
                    (or_string (Some "10.0.0.7") "unknown") [] = None)
    by reflexivity.
  assert (Hwin : Forall (fun q => snd q <= 1000 + 60000) rest)
    by (repeat constructor; cbn; lia).
  split; [exact Hnone|]. split; [exact Hwin|].
  destruct (rateLimit_window 5 60000 1000 rest (Some "10.0.0.7") [] Hnone
              Hwin) as (_ & Hgates & _).
  split; [|split].
  - exact (Hgates 3%nat (5, 60000, 5000) eq_refl).
  - exact (Hgates 4%nat (5, 60000, 6000) eq_refl).
  - exact (Hgates 5%nat (5, 60000, 7000) eq_refl).
Defined.

Lemma rateLimit_reopens_witness :
  let result :=
    AuthMiddleware.rateLimit 5 60000 (Some "10.0.0.7") 70000
      SampleRuntime.busy_map in
  AuthMiddleware.rate_get (or_string (Some "10.0.0.7") "unknown")
    SampleRuntime.busy_map
  = Some {| AuthMiddleware.count := 9; AuthMiddleware.resetAt := 61000 |}
  /\ 61000 < 70000
  /\ fst result = AuthMiddleware.Pass
  /\ AuthMiddleware.rate_get "10.0.0.7" (snd result)
     = Some {| AuthMiddleware.count := 1; AuthMiddleware.resetAt := 130000 |}.
Proof.
  intros result.
  assert (Hget : AuthMiddleware.rate_get
                   (or_string (Some "10.0.0.7") "unknown")
                   SampleRuntime.busy_map
                 = Some {| AuthMiddleware.count := 9;
                           AuthMiddleware.resetAt := 61000 |})
    by reflexivity.
  assert (Hover : 61000 < 70000) by lia.
  split; [exact Hget|]. split; [exact Hover|].
  destruct (rateLimit_reopens 5 60000 70000 (Some "10.0.0.7")
              SampleRuntime.busy_map _ Hget Hover) as (Hpass & Hrecord & _).
  split; [exact Hpass | exact Hrecord].
Defined.

(** *** Administration *)

Lemma admin_operations_guarded_witness :
  let users := AuthController.users SampleRuntime.db1 in
  let refusal role id code message :=
    AuthController.revokeUserKeyFile 2000 role id SampleRuntime.db1
    = (AuthController.admin_error code message, SampleRuntime.db1) in
  AuthController.is_admin "user" = false
  /\ AuthController.is_admin "admin" = true
  /\ cast_ObjectId "not-an-id" = None
  /\ (exists oid, cast_ObjectId "65a9f1c29b3e4d7a8c1b2e09" = Some oid
                  /\ forall u, In u users -> User._id u <> oid)
  /\ refusal "user" SampleRuntime.bob_id 403 "Admin access required"
  /\ refusal "admin" "not-an-id" 500 (msg_cast_failed "not-an-id" "User")
  /\ refusal "admin" "65a9f1c29b3e4d7a8c1b2e09" 404 "User not found".
Proof.
  intros users refusal.
  assert (Huser : AuthController.is_admin "user" = false) by reflexivity.
  assert (Hadmin : AuthController.is_admin "admin" = true) by reflexivity.
  assert (Hcast : cast_ObjectId "not-an-id" = None)
    by (vm_compute; reflexivity).
  assert (Hnone : exists oid,
             cast_ObjectId "65a9f1c29b3e4d7a8c1b2e09" = Some oid
             /\ forall u, In u users -> User._id u <> oid).
  { exists "65a9f1c29b3e4d7a8c1b2e09". split; [vm_compute; reflexivity|].
    intros u [<-|[<-|[<-|[<-|[]]]]]; vm_compute; discriminate. }
  repeat (split; [assumption|]).
  split; [|split].
  - apply (admin_operations_guarded SampleRuntime.caught 2000
             SampleRuntime.entropy_c "user" SampleRuntime.bob_id None
             None false SampleRuntime.db1 403 "Admin access required").
    left. repeat split.
  - apply (admin_operations_guarded SampleRuntime.caught 2000
             SampleRuntime.entropy_c "admin" "not-an-id" None None false
             SampleRuntime.db1 500 (msg_cast_failed "not-an-id" "User")).
    right. left. repeat split; assumption.
  - apply (admin_operations_guarded SampleRuntime.caught 2000
             SampleRuntime.entropy_c "admin" "65a9f1c29b3e4d7a8c1b2e09" None
             None false SampleRuntime.db1 404 "User not found").
    right. right. repeat split; assumption.
Defined.

(** Bob's key file is revoked by an admin; the login with that key file
    is then answered 401. *)
Lemma revokeUserKeyFile_locks_out_witness :
  let db' :=
    snd (AuthController.revokeUserKeyFile 2000 "admin" SampleRuntime.bob_id
           SampleRuntime.db1) in
  let req :=
    SampleRuntime.key_request SampleRuntime.entropy_b SampleRuntime.bob_data
      SampleRuntime.laptop in
  AuthController.is_admin "admin" = true
  /\ User.findById SampleRuntime.bob_id
       (AuthController.users SampleRuntime.db1)
     = Return (Some SampleRuntime.bob_user)
  /\ status (fst (AuthController.loginWithKeyFile 2500 SampleRuntime.draw1
                    req SampleRuntime.db1)) = 200
  /\ status (fst (AuthController.loginWithKeyFile 2500 SampleRuntime.draw1
                    req db')) = 401
  /\ User.findById SampleRuntime.bob_id
       (AuthController.users db')
     = Return (Some (User.revokeKeyFile SampleRuntime.bob_user))
  /\ active_count SampleRuntime.bob_id 2500 (AuthController.sessions db') = 0.
Proof.
  intros db' req.
  assert (Hadmin : AuthController.is_admin "admin" = true) by reflexivity.
  assert (Hfind : User.findById SampleRuntime.bob_id
                    (AuthController.users SampleRuntime.db1)
                  = Return (Some SampleRuntime.bob_user))
    by (vm_compute; reflexivity).
  split; [exact Hadmin|]. split; [exact Hfind|].
  split; [vm_compute; reflexivity|]. split; [vm_compute; reflexivity|].
  destruct (revokeUserKeyFile_locks_out (fun s => s) 2000 "admin"
      SampleRuntime.bob_id
              SampleRuntime.db1 SampleRuntime.bob_user Hadmin Hfind)
    as (_ & Hrecord & _ & Hsessions & _).
  split; [exact Hrecord | exact (Hsessions 2500)].
Defined.

Lemma regenerateKeyFile_rotates_witness :
  let expiresAt := 2000 + or_number (Some 30) 365 * 24 * 60 * 60 * 1000 in
  let userData :=
    AuthController.regenerated_data SampleRuntime.bob_user expiresAt in
  let db' :=
    snd (AuthController.regenerateKeyFile SampleRuntime.caught 2000
           SampleRuntime.entropy_c "superadmin" SampleRuntime.bob_id (Some 30)
           SampleRuntime.db1) in
  AuthController.is_admin "superadmin" = true
  /\ User.findById SampleRuntime.bob_id
       (AuthController.users SampleRuntime.db1)
     = Return (Some SampleRuntime.bob_user)
  /\ AuthController.is_date expiresAt = true
  /\ keyfile_contracts 2000 SampleRuntime.entropy_c userData
  /\ (User.role SampleRuntime.bob_user = "superadmin" \/ 2000 <= expiresAt)
  /\ (forall x, In x (AuthController.users SampleRuntime.db1) ->
                User._id x <> SampleRuntime.bob_id ->
                User.has_keyFileId (randomUUID SampleRuntime.entropy_c) x
                = false)
  /\ User.findByKeyFileId (randomUUID SampleRuntime.entropy_c)
       (AuthController.users db')
     = Some (User.with_keyFile (Some (randomUUID SampleRuntime.entropy_c))
               false SampleRuntime.bob_user)
  /\ User.findByKeyFileId (randomUUID SampleRuntime.entropy_b)
       (AuthController.users db') = None.
Proof.
  intros expiresAt userData db'.
  assert (Hadmin : AuthController.is_admin "superadmin" = true)
    by reflexivity.
  assert (Hfind : User.findById SampleRuntime.bob_id
                    (AuthController.users SampleRuntime.db1)
                  = Return (Some SampleRuntime.bob_user))
    by (vm_compute; reflexivity).
  assert (Hdate : AuthController.is_date expiresAt = true)
    by (vm_compute; reflexivity).
  assert (HC : keyfile_contracts 2000 SampleRuntime.entropy_c userData)
    by (repeat split; run_contract).
  assert (Hlive : User.role SampleRuntime.bob_user = "superadmin"
                  \/ 2000 <= expiresAt)
    by (right; vm_compute; discriminate).
  assert (Hfresh : forall x,
             In x (AuthController.users SampleRuntime.db1) ->
             User._id x <> SampleRuntime.bob_id ->
             User.has_keyFileId (randomUUID SampleRuntime.entropy_c) x
             = false).
  { intros x [<-|[<-|[<-|[<-|[]]]]] _; reflexivity. }
  repeat (split; [assumption|]).
  destruct (regenerateKeyFile_rotates SampleRuntime.caught 2000
              SampleRuntime.entropy_c "superadmin" SampleRuntime.bob_id
                  (Some 30)
              SampleRuntime.db1 SampleRuntime.bob_user Hadmin Hfind Hdate HC
              Hlive Hfresh) as (_ & _ & _ & Hnew & _).
  split; [exact (Hnew eq_refl)|].
  vm_compute. reflexivity.
Defined.

(** A key file that is to expire yesterday. *)
Lemma regenerateKeyFile_past_expiry_witness :
  let expiresAt := 90000000 + -1 * 24 * 60 * 60 * 1000 in
  AuthController.is_admin "admin" = true
  /\ User.findById SampleRuntime.bob_id
       (AuthController.users SampleRuntime.db1)
     = Return (Some SampleRuntime.bob_user)
  /\ -1 < 0
  /\ AuthController.is_date expiresAt = true
  /\ keyfile_contracts 90000000 SampleRuntime.entropy_c
       (AuthController.regenerated_data SampleRuntime.bob_user expiresAt)
  /\ User.role SampleRuntime.bob_user <> "superadmin"
  /\ AuthController.regenerateKeyFile SampleRuntime.caught 90000000
       SampleRuntime.entropy_c "admin" SampleRuntime.bob_id
           (Some (-1)) SampleRuntime.db1
     = (AuthController.admin_error 500
          "Cannot read properties of undefined (reading 'keyId')",
        SampleRuntime.db1).
Proof.
  intros expiresAt.
  assert (Hadmin : AuthController.is_admin "admin" = true) by reflexivity.
  assert (Hfind : User.findById SampleRuntime.bob_id
                    (AuthController.users SampleRuntime.db1)
                  = Return (Some SampleRuntime.bob_user))
    by (vm_compute; reflexivity).
  assert (Hneg : -1 < 0) by lia.
  assert (Hdate : AuthController.is_date expiresAt = true)
    by (vm_compute; reflexivity).
  assert (HC : keyfile_contracts 90000000 SampleRuntime.entropy_c
                 (AuthController.regenerated_data SampleRuntime.bob_user
                    expiresAt))
    by (repeat split; run_contract).
  assert (Hrole : User.role SampleRuntime.bob_user <> "superadmin")
    by discriminate.
  repeat (split; [assumption|]).
  destruct (regenerateKeyFile_past_expiry SampleRuntime.caught 90000000
              SampleRuntime.entropy_c "admin"
                  SampleRuntime.bob_id (-1) SampleRuntime.db1
              SampleRuntime.bob_user Hadmin Hfind Hneg Hdate HC Hrole)
    as (_ & H).
  exact H.
Defined.

Lemma updateUserPassword_sets_witness :
  let result :=
    AuthController.updateUserPassword
        SampleRuntime.entropy "admin" SampleRuntime.bob_id
      (Some "correct horse") false SampleRuntime.db1 in
  AuthController.is_admin "admin" = true
  /\ User.findById SampleRuntime.bob_id
       (AuthController.users SampleRuntime.db1)
     = Return (Some SampleRuntime.bob_user)
  /\ (User.role SampleRuntime.bob_user = "superadmin" -> "admin" = "superadmin")
  /\ AuthController.ascii_only "correct horse" = true
  /\ (8 <= String.length "correct horse")%nat
  /\ exists user',
       User.findById SampleRuntime.bob_id
            (AuthController.users (snd result)) = Return (Some user')
       /\ User.validatePassword "correct horse" user' = Return true.
Proof.
  intros result.
  assert (Hadmin : AuthController.is_admin "admin" = true) by reflexivity.
  assert (Hfind : User.findById SampleRuntime.bob_id
                    (AuthController.users SampleRuntime.db1)
                  = Return (Some SampleRuntime.bob_user))
    by (vm_compute; reflexivity).
  assert (Hsuper : User.role SampleRuntime.bob_user = "superadmin" ->
                   "admin" = "superadmin") by discriminate.
  assert (Hascii : AuthController.ascii_only "correct horse" = true)
    by reflexivity.
  assert (Hlen : (8 <= String.length "correct horse")%nat) by (cbn; lia).
  repeat (split; [assumption|]).
  destruct (updateUserPassword_sets SampleRuntime.entropy "admin"
      SampleRuntime.bob_id
              "correct horse" SampleRuntime.db1 SampleRuntime.bob_user
              Hadmin Hfind Hsuper Hascii Hlen)
    as (_ & Hrecord & Hvalid & _).
  eexists. split; [exact Hrecord | exact Hvalid].
Defined.

(** Carol's password is removed; her login with it, answered 200 before,
    is then answered 401. *)
Lemma updateUserPassword_removes_witness :
  let db' :=
    snd (AuthController.updateUserPassword SampleRuntime.entropy "superadmin"
           SampleRuntime.carol_id None true SampleRuntime.db1) in
  let req := SampleRuntime.password_request "carol" "correct horse" in
  AuthController.is_admin "superadmin" = true
  /\ User.findById SampleRuntime.carol_id
       (AuthController.users SampleRuntime.db1)
     = Return (Some SampleRuntime.carol_user)
  /\ (User.role SampleRuntime.carol_user = "superadmin" ->
      "superadmin" = "superadmin")
  /\ status (fst (AuthController.loginWithPassword (fun s => s) 2500
                    SampleRuntime.draw1 req SampleRuntime.db1)) = 200
  /\ status (fst (AuthController.loginWithPassword (fun s => s) 2500
                    SampleRuntime.draw1 req db')) = 401
  /\ User.findById SampleRuntime.carol_id
       (AuthController.users db')
     = Return (Some (User.with_passwordHash None SampleRuntime.carol_user)).
Proof.
  intros db' req.
  assert (Hadmin : AuthController.is_admin "superadmin" = true)
    by reflexivity.
  assert (Hfind : User.findById SampleRuntime.carol_id
                    (AuthController.users SampleRuntime.db1)
                  = Return (Some SampleRuntime.carol_user))
    by (vm_compute; reflexivity).
  assert (Hsuper : User.role SampleRuntime.carol_user = "superadmin" ->
                   "superadmin" = "superadmin") by reflexivity.
  repeat (split; [assumption|]).
  split; [vm_compute; reflexivity|]. split; [vm_compute; reflexivity|].
  destruct (updateUserPassword_removes (fun s => s) SampleRuntime.entropy
              "superadmin" SampleRuntime.carol_id None SampleRuntime.db1
              SampleRuntime.carol_user Hadmin Hfind Hsuper)
    as (_ & Hrecord & _).
  exact Hrecord.
Defined.

Lemma updateUserPassword_refusals_witness :
  AuthController.is_admin "admin" = true
  /\ User.findById SampleRuntime.root_id
       (AuthController.users SampleRuntime.db1)
     = Return (Some SampleRuntime.root_user)
  /\ AuthController.updateUserPassword
      SampleRuntime.entropy "admin" SampleRuntime.root_id
       (Some "correct horse") false SampleRuntime.db1
     = (AuthController.admin_error 403 "Cannot modify superadmin account",
        SampleRuntime.db1)
  /\ AuthController.updateUserPassword SampleRuntime.entropy "superadmin"
       SampleRuntime.root_id (Some "horse") false SampleRuntime.db1
     = (AuthController.admin_error 400
          "Password must be at least 8 characters", SampleRuntime.db1).
Proof.
  assert (Hadmin : AuthController.is_admin "admin" = true) by reflexivity.
  assert (Hsuperadmin : AuthController.is_admin "superadmin" = true)
    by reflexivity.
  assert (Hfind : User.findById SampleRuntime.root_id
                    (AuthController.users SampleRuntime.db1)
                  = Return (Some SampleRuntime.root_user))
    by (vm_compute; reflexivity).
  split; [exact Hadmin|]. split; [exact Hfind|]. split.
  - destruct (updateUserPassword_refusals SampleRuntime.entropy "admin"
                SampleRuntime.root_id
                    (Some "correct horse") false SampleRuntime.db1
                SampleRuntime.root_user Hadmin Hfind) as (H & _).
    apply H; [reflexivity | discriminate].
  - destruct (updateUserPassword_refusals SampleRuntime.entropy "superadmin"
                SampleRuntime.root_id (Some "horse") false SampleRuntime.db1
                SampleRuntime.root_user Hsuperadmin Hfind) as (_ & H).
    apply H; [reflexivity | reflexivity | cbn; lia].
Defined.

(** *** A device that is already logged in *)

(** Bob, whose limit is one device, logs in again from his laptop. *)
Lemma known_device_evicts_nothing_witness :
  let req := SampleRuntime.key_request SampleRuntime.entropy_b
               SampleRuntime.bob_data SampleRuntime.laptop in
  let c := AuthController.sessions
             (snd (AuthController.loginWithKeyFile 2000 SampleRuntime.draw1
                     req SampleRuntime.db0)) in
  (exists s,
     AuthController.existingSession (User._id SampleRuntime.bob_user)
       (request_fingerprint req) 3000 c = Some s)
  /\ User.deviceLimit SampleRuntime.bob_user = 1
  /\ active_count (User._id SampleRuntime.bob_user) 3000 c = 1
  /\ AuthController.check_device_limit SampleRuntime.bob_user
       (request_fingerprint req) 3000 c = c.
Proof.
  intros req c.
  assert (Hknown : exists s,
             AuthController.existingSession (User._id SampleRuntime.bob_user)
               (request_fingerprint req) 3000 c = Some s)
    by (eexists; vm_compute; reflexivity).
  split; [exact Hknown|]. split; [reflexivity|].
  split; [vm_compute; reflexivity|].
  destruct Hknown as (s & Hknown).
  destruct (known_device_evicts_nothing SampleRuntime.bob_user 3000
              SampleRuntime.draw2 req c s Hknown) as (Hroom & _).
  exact Hroom.
Defined.
